(** * fastapi-admin: order store and eSewa payment flow

    A shallow embedding of [database.py] (SQLite helpers) and of the
    request handlers of [main.py] that touch the database or build the
    payment request, followed by the properties the specification states
    about them and by further properties of the same code: what the
    catalogue and order writes leave to be read back, and what holds of
    the three tables in every state the server reaches.

    Modelling conventions.
    - A Python [str] is a Rocq [string] holding its UTF-8 bytes, so
      [s.encode()] is the identity; text with lone surrogates is outside
      the model.
    - A Python [float] is a binary64 primitive float; [+] and [*] are the
      IEEE operations of [PrimFloat].
    - A Python [int] is a [Z]; conversions to C types are written out with
      the [OverflowError] they raise out of range.
    - A [dict] is a [gmap]; [d.get(k)] is [d !! k].
    - The SQLite file is a record of three tables (lists of rows) with
      their AUTOINCREMENT counters.  A connection works on a private copy
      that reaches the file at [commit]; closing or dropping the
      connection first discards it.
    - Functions of Python's standard library (hmac with sha256, base64,
      utf-8 decoding, json.loads, repr) are the fields of the class
      [Library]; the statements hold for every instance, and [Reference]
      implements them for use on concrete data.
    - A request body is taken as decoded, with the types the handler
      expects; query parameters are optional values of their declared
      types.
    - Requests are handled one at a time: a handler runs to its end on
      the file the one before it left. *)

From Stdlib Require Import ZArith Floats String Ascii DecimalString.
From stdpp Require Import gmap strings list.

Set Warnings "-register-all,-inexact-float".

(** ** Python runtime *)

Inductive py_exception :=
| ValueError (msg : string)
| OverflowError
| TypeError
| AttributeError
| IntegrityError      (* sqlite3.IntegrityError *)
| OperationalError    (* sqlite3: the table is out of rowids *)
| ProgrammingError    (* sqlite3: a parameter of unsupported type *)
| DecodeError.        (* binascii.Error, UnicodeDecodeError, JSONDecodeError *)

Inductive result (A : Type) :=
| Ok (a : A)
| Raise (e : py_exception).
Arguments Ok {A} a.
Arguments Raise {A} e.

(** Sequencing: an exception skips the rest ([x ← r; k] is stdpp's
    notation for [r ≫= λ x, k]). *)
#[global] Instance result_bind : MBind result := λ A B k r,
  match r with
  | Ok a => k a
  | Raise e => Raise e
  end.

(** Values produced by [json.loads]. *)
Inductive pyval :=
| PyNone
| PyBool (b : bool)
| PyInt (z : Z)
| PyFloat (f : float)
| PyStr (s : string)
| PyList (l : list pyval)
| PyDict (d : gmap string pyval).

(** [str(z)] for an int. *)
Definition str_of_int (z : Z) : string := NilZero.string_of_int (Z.to_int z).

(** [x == y] for a [str] x and an arbitrary value y. *)
Definition str_eq (x : string) (y : pyval) : bool :=
  match y with
  | PyStr s => bool_decide (x = s)
  | _ => false
  end.

(** *** Floats *)

Module Float.

(** [a / b] rounded to the nearest integer, ties to even
    (for [0 ≤ a] and [0 < b]). *)
Definition div_half_even (a b : Z) : Z :=
  let q := (a / b)%Z in
  match (2 * (a mod b) ?= b)%Z with
  | Lt => q
  | Gt => (q + 1)%Z
  | Eq => if Z.even q then q else (q + 1)%Z
  end.

(** The exact value [m * 2^e], times 100, rounded half-even to an
    integer: what dtoa (mode 3, two digits) computes for [round(x, 2)]
    and for [format(x, ".2f")]. *)
Definition hundredths (m : positive) (e : Z) : Z :=
  if (0 <=? e)%Z then (Z.pos m * 100 * 2 ^ e)%Z
  else div_half_even (Z.pos m * 100) (2 ^ (- e)).

(** [round(x, 2)]: non-finite values and zeros are returned as they
    are; otherwise the decimal with two digits nearest to [x] is read
    back as the nearest float (strtod). *)
Definition round2 (x : float) : float :=
  match Prim2SF x with
  | S754_finite s m e =>
      match hundredths m e with
      | Z.pos n =>
          SF2Prim (SFdiv prec emax (S754_finite s n 0) (S754_finite false 100 0))
      | _ => SF2Prim (S754_zero s)
      end
  | _ => x
  end.

Definition digit (d : Z) : ascii := ascii_of_nat (48 + Z.to_nat d).

(** The non-negative number of hundredths [n] written with two decimals. *)
Definition fixed2 (n : Z) : string :=
  str_of_int (n / 100)
    +:+ String "."%char (String (digit (n mod 100 / 10)) (String (digit (n mod 10)) "")).

(** [f"{x:.2f}"]. *)
Definition format_2f (x : float) : string :=
  match Prim2SF x with
  | S754_nan => "nan"
  | S754_infinity s => if s then "-inf" else "inf"
  | S754_zero s => if s then "-0.00" else "0.00"
  | S754_finite s m e => (if s then "-" else "") +:+ fixed2 (hundredths m e)
  end.

(** The nearest float to an int (ties to even). *)
Definition nearest (z : Z) : float :=
  SF2Prim (binary_normalize prec emax z 0 false).

(** [float(z)] as done by [float * int]: correctly rounded, with
    [OverflowError] when [z] rounds beyond the largest float, that is
    from [2^1024 - 2^970] on in absolute value. *)
Definition of_int (z : Z) : result float :=
  if (Z.abs z <? 2 ^ 1024 - 2 ^ 970)%Z then Ok (nearest z)
  else Raise OverflowError.

(** [x * n] for a float [x] and an int [n]. *)
Definition mul_int (x : float) (n : Z) : result float :=
  y ← of_int n; Ok (x * y)%float.

End Float.

(** ** The SQLite file *)

Module Product.
Record row := mk
  { id : Z; name : string; description : string; price : float;
    image_url : string }.
End Product.

Module Order.
Record row := mk
  { id : Z; transaction_uuid : string;
    customer_name : string; customer_email : string;
    customer_phone : string; customer_address : string;
    amount : float; tax_amount : float; service_charge : float;
    delivery_charge : float; total_amount : float;
    status : string; created_at : string }.

Definition set_status (s : string) (o : row) : row :=
  mk (id o) (transaction_uuid o) (customer_name o) (customer_email o)
     (customer_phone o) (customer_address o) (amount o) (tax_amount o)
     (service_charge o) (delivery_charge o) (total_amount o) s (created_at o).
End Order.

Module OrderItem.
Record row := mk
  { id : Z; order_id : Z; product_id : Z; quantity : Z; price : float }.
End OrderItem.

(** The three tables and, for each, the largest rowid handed out so far
    (AUTOINCREMENT: the next row gets that plus one; rows are inserted by
    the functions below only). *)
Record database := Database
  { products : list Product.row; products_seq : Z;
    orders : list Order.row; orders_seq : Z;
    order_items : list OrderItem.row; order_items_seq : Z }.

Definition empty_database : database := Database [] 0 [] 0 [] 0.

Module Sqlite.

Inductive value :=
| Null
| Integer (z : Z)
| Real (f : float)
| Text (s : string).

(** A Python int bound as a parameter must fit a signed 64-bit integer. *)
Definition integer (z : Z) : result Z :=
  if bool_decide (- 2 ^ 63 ≤ z < 2 ^ 63)%Z then Ok z else Raise OverflowError.

(** The rowid AUTOINCREMENT hands out after [seq]; none is left after
    the largest 64-bit integer. *)
Definition next_rowid (seq : Z) : result Z :=
  if bool_decide (seq + 1 < 2 ^ 63)%Z then Ok (seq + 1)%Z
  else Raise OperationalError.

(** A float written to a REAL NOT NULL column: NaN is bound as NULL and
    violates the constraint; a zero is stored as the integer 0 and read
    back as 0.0. *)
Definition real_not_null (x : float) : result float :=
  if is_nan x then Raise IntegrityError
  else if is_zero x then Ok 0%float
  else Ok x.

(** Binding an arbitrary Python value as a statement parameter. *)
Definition bind_param (v : pyval) : result value :=
  match v with
  | PyNone => Ok Null
  | PyBool b => Ok (Integer (if b then 1 else 0))
  | PyInt z => z ← integer z; Ok (Integer z)
  | PyFloat f => Ok (if is_nan f then Null else Real f)
  | PyStr s => Ok (Text s)
  | PyList _ | PyDict _ => Raise ProgrammingError
  end.

(** A connection: the file as committed, and the connection's view
    with its uncommitted writes. *)
Record connection := Connection { file : database; txn : database }.

Definition commit (c : connection) : connection := Connection (txn c) (txn c).

(** Closing (or dropping) a connection discards what was not committed. *)
Definition close (c : connection) : database := file c.

(** A statement that writes: the connection's view becomes [d]. *)
Definition execute (d : database) (c : connection) : connection :=
  Connection (file c) d.

End Sqlite.

Definition get_connection (d : database) : Sqlite.connection :=
  Sqlite.Connection d d.

(** ** Library functions used by the program

    Functions of Python's standard library and of SQLite whose results
    the program only passes on. *)
Class Library := {
  (** [hmac.new(key, msg, hashlib.sha256).digest()] *)
  hmac_sha256 : string → string → string;
  (** [base64.b64encode(b).decode()] *)
  b64encode : string → string;
  (** [base64.b64decode(s)] *)
  b64decode : string → result string;
  (** [b.decode()] *)
  utf8_decode : string → result string;
  (** [json.loads(s)] *)
  json_loads : string → result pyval;
  (** [str(v)] for a float, a list or a dict *)
  repr : pyval → string;
  (** SQLite's conversion of a REAL to TEXT *)
  real_to_text : float → string
}.

(** ** database.py *)

Definition with_products (ps : list Product.row) (seq : Z) (d : database) : database :=
  Database ps seq (orders d) (orders_seq d) (order_items d) (order_items_seq d).

Definition with_orders (os : list Order.row) (seq : Z) (d : database) : database :=
  Database (products d) (products_seq d) os seq (order_items d) (order_items_seq d).

Definition with_order_items (its : list OrderItem.row) (seq : Z) (d : database) : database :=
  Database (products d) (products_seq d) (orders d) (orders_seq d) its seq.

(** [INSERT INTO products (name, description, price, image_url)]. *)
Definition insert_product (name description : string) (price : float)
    (image_url : string) (d : database) : result (Z * database) :=
  price ← Sqlite.real_not_null price;
  id ← Sqlite.next_rowid (products_seq d);
  Ok (id, with_products (products d ++ [Product.mk id name description price image_url]) id d).

Definition seed_products : list (string * string * float * string) :=
  [ ("Classic Aviator Sunglasses",
     "Timeless aviator frames with UV400 protection and mirrored lenses.",
     59.99%float, "/static/images/aviator.png");
    ("Retro Round Sunglasses",
     "Vintage-inspired round sunglasses with polarized lenses.",
     45.50%float, "/static/images/retro.png");
    ("Sporty Wraparound Shades",
     "Durable wraparound sunglasses designed for outdoor sports.",
     39.00%float, "/static/images/sporty.png");
    ("Lucky Purchase",
     "Try your luck! Mystery sunglasses at an amazing price.",
     1.00%float, "/static/images/lucky.png") ].

(** [cur.executemany("INSERT INTO products ...", rows)]. *)
Fixpoint insert_products (rows : list (string * string * float * string))
    (d : database) : result database :=
  match rows with
  | [] => Ok d
  | (name, description, price, image_url) :: rows =>
      r ← insert_product name description price image_url d;
      insert_products rows r.2
  end.

(** The tables exist in every [database], so the three
    [CREATE TABLE IF NOT EXISTS] change nothing; the catalogue is seeded
    when it is empty. *)
Definition init_db (d : database) : database :=
  let conn := get_connection d in
  let count := length (products (Sqlite.txn conn)) in
  if bool_decide (count = 0%nat) then
    match insert_products seed_products (Sqlite.txn conn) with
    | Ok d' => Sqlite.close (Sqlite.commit (Sqlite.execute d' conn))
    | Raise _ => Sqlite.close conn
    end
  else Sqlite.close (Sqlite.commit conn).

Definition get_products (d : database) : list Product.row := products d.

(** [SELECT ... FROM products WHERE id = ?] with [fetchone]. *)
Definition select_product (d : database) (product_id : Z) : option Product.row :=
  find (λ p, bool_decide (Product.id p = product_id)) (products d).

Definition get_product (product_id : Z) (d : database) : result (option Product.row) :=
  i ← Sqlite.integer product_id; Ok (select_product d i).

Definition create_product (name description : string) (price : float)
    (image_url : string) (d : database) : result Z * database :=
  let conn := get_connection d in
  match insert_product name description price image_url (Sqlite.txn conn) with
  | Raise e => (Raise e, Sqlite.close conn)
  | Ok (product_id, d') =>
      let conn := Sqlite.commit (Sqlite.execute d' conn) in
      (Ok product_id, Sqlite.close conn)
  end.

(** [UPDATE products SET ... WHERE id = ?]: the NOT NULL constraint on
    the price is checked on the rows that are updated. *)
Definition update_product (product_id : Z) (name description : string)
    (price : float) (image_url : string) (d : database) : result () * database :=
  let conn := get_connection d in
  let run :=
    i ← Sqlite.integer product_id;
    match select_product (Sqlite.txn conn) i with
    | None => Ok (Sqlite.txn conn)
    | Some _ =>
        price ← Sqlite.real_not_null price;
        Ok (with_products
              (map (λ p, if bool_decide (Product.id p = i)
                         then Product.mk i name description price image_url else p)
                   (products (Sqlite.txn conn)))
              (products_seq (Sqlite.txn conn)) (Sqlite.txn conn))
    end in
  match run with
  | Raise e => (Raise e, Sqlite.close conn)
  | Ok d' => (Ok (), Sqlite.close (Sqlite.commit (Sqlite.execute d' conn)))
  end.

(** [DELETE FROM products WHERE id = ?] (foreign keys are not enforced:
    the connection never turns them on). *)
Definition delete_product (product_id : Z) (d : database) : result () * database :=
  let conn := get_connection d in
  match Sqlite.integer product_id with
  | Raise e => (Raise e, Sqlite.close conn)
  | Ok i =>
      let d' := with_products
                  (filter (λ p, Product.id p ≠ i) (products (Sqlite.txn conn)))
                  (products_seq (Sqlite.txn conn)) (Sqlite.txn conn) in
      (Ok (), Sqlite.close (Sqlite.commit (Sqlite.execute d' conn)))
  end.

(** A cart entry: a [Dict[str, int]], as [create_order] declares
    it.  The handler passes the cart on as the JSON body gave it; entries
    that hold anything but integers are not values of this type. *)
Abbreviation cart_item := (gmap string Z).

(** [cur.execute("SELECT price FROM products WHERE id = ?", (pid,)).fetchone()];
    [pid] is [None] when the entry has no productId, and NULL equals no id. *)
Definition select_price (d : database) (pid : option Z) : result (option float) :=
  match pid with
  | None => Ok None
  | Some i => i ← Sqlite.integer i; Ok (Product.price <$> select_product d i)
  end.

(** [str(pid)]. *)
Definition str_of_pid (pid : option Z) : string :=
  match pid with
  | None => "None"
  | Some i => str_of_int i
  end.

(** The first loop of [create_order]: the subtotal so far is [amount]. *)
Fixpoint subtotal (d : database) (cart : list cart_item) (amount : float) : result float :=
  match cart with
  | [] => Ok amount
  | item :: cart =>
      let pid := item !! "productId" in
      let qty := default 1%Z (item !! "quantity") in
      row ← select_price d pid;
      match row with
      | None => Raise (ValueError ("Product " +:+ str_of_pid pid +:+ " not found"))
      | Some price =>
          p ← Float.mul_int price qty;
          subtotal d cart (amount + p)%float
      end
  end.

(** [INSERT INTO orders (...)]: four amounts and the total are REAL NOT
    NULL, the transaction id is UNIQUE, [created_at] takes its default. *)
Definition insert_order (transaction_uuid customer_name customer_email
    customer_phone customer_address : string)
    (amount tax_amount service_charge delivery_charge total_amount : float)
    (status : string) (now : string) (d : database) : result (Z * database) :=
  amount ← Sqlite.real_not_null amount;
  tax_amount ← Sqlite.real_not_null tax_amount;
  service_charge ← Sqlite.real_not_null service_charge;
  delivery_charge ← Sqlite.real_not_null delivery_charge;
  total_amount ← Sqlite.real_not_null total_amount;
  if existsb (λ o, bool_decide (Order.transaction_uuid o = transaction_uuid)) (orders d)
  then Raise IntegrityError
  else
    id ← Sqlite.next_rowid (orders_seq d);
    Ok (id, with_orders
              (orders d ++ [Order.mk id transaction_uuid customer_name customer_email
                              customer_phone customer_address amount tax_amount
                              service_charge delivery_charge total_amount status now])
              id d).

(** [INSERT INTO order_items (order_id, product_id, quantity, price)]:
    the parameters are bound first, then the constraints are checked. *)
Definition insert_order_item (order_id : Z) (pid : option Z) (qty : Z)
    (price : float) (d : database) : result database :=
  order_id ← Sqlite.integer order_id;
  pid ← match pid with
        | None => Ok None
        | Some i => i ← Sqlite.integer i; Ok (Some i)
        end;
  qty ← Sqlite.integer qty;
  match pid with
  | None => Raise IntegrityError
  | Some product_id =>
      price ← Sqlite.real_not_null price;
      id ← Sqlite.next_rowid (order_items_seq d);
      Ok (with_order_items
            (order_items d ++ [OrderItem.mk id order_id product_id qty price]) id d)
  end.

(** The second loop of [create_order]. *)
Fixpoint insert_items (order_id : Z) (cart : list cart_item) (d : database)
    : result database :=
  match cart with
  | [] => Ok d
  | item :: cart =>
      let pid := item !! "productId" in
      let qty := default 1%Z (item !! "quantity") in
      price_row ← select_price d pid;
      match price_row with
      | None => Raise TypeError
      | Some price =>
          d ← insert_order_item order_id pid qty price d;
          insert_items order_id cart d
      end
  end.

(** [SELECT * FROM orders WHERE id = ?] with [fetchone]. *)
Definition select_order (d : database) (order_id : Z) : option Order.row :=
  find (λ o, bool_decide (Order.id o = order_id)) (orders d).

(** [create_order]; [uuid4] is the value [str(uuid.uuid4())] takes and
    [now] the value of CURRENT_TIMESTAMP.  The result pairs what the call
    returns or raises with the file it leaves. *)
Definition create_order (customer_name customer_email customer_phone
    customer_address : string) (cart : list cart_item)
    (tax_amount service_charge delivery_charge : float)
    (uuid4 now : string) (d : database) : result Order.row * database :=
  let conn := get_connection d in
  match subtotal (Sqlite.txn conn) cart 0%float with
  | Raise e => (Raise e, Sqlite.close conn)
  | Ok amount =>
      let amount := Float.round2 amount in
      let total_amount :=
        Float.round2 (amount + tax_amount + service_charge + delivery_charge) in
      let transaction_uuid := uuid4 in
      match insert_order transaction_uuid customer_name customer_email
              customer_phone customer_address amount tax_amount service_charge
              delivery_charge total_amount "INITIATED" now (Sqlite.txn conn) with
      | Raise e => (Raise e, Sqlite.close conn)
      | Ok (order_id, d') =>
          let conn := Sqlite.execute d' conn in
          match insert_items order_id cart (Sqlite.txn conn) with
          | Raise e => (Raise e, Sqlite.close conn)
          | Ok d' =>
              let conn := Sqlite.commit (Sqlite.execute d' conn) in
              match select_order (Sqlite.txn conn) order_id with
              | None => (Raise TypeError, Sqlite.close conn)
              | Some order_row => (Ok order_row, Sqlite.close conn)
              end
          end
      end
  end.

Definition get_order_by_id (order_id : Z) (d : database) : result (option Order.row) :=
  i ← Sqlite.integer order_id; Ok (select_order d i).

(** The comparison [transaction_uuid = ?]: the column has TEXT affinity,
    so a numeric parameter is compared through its text; NULL equals
    nothing. *)
Definition uuid_matches `{Library} (key : Sqlite.value) (o : Order.row) : bool :=
  match key with
  | Sqlite.Null => false
  | Sqlite.Integer z => bool_decide (Order.transaction_uuid o = str_of_int z)
  | Sqlite.Real f => bool_decide (Order.transaction_uuid o = real_to_text f)
  | Sqlite.Text s => bool_decide (Order.transaction_uuid o = s)
  end.

Definition get_order_by_uuid `{Library} (transaction_uuid : pyval) (d : database)
    : result (option Order.row) :=
  key ← Sqlite.bind_param transaction_uuid;
  Ok (find (uuid_matches key) (orders d)).

(** [UPDATE orders SET status = ? WHERE transaction_uuid = ?]. *)
Definition update_order_status `{Library} (transaction_uuid : pyval)
    (status : string) (d : database) : result () * database :=
  let conn := get_connection d in
  match Sqlite.bind_param transaction_uuid with
  | Raise e => (Raise e, Sqlite.close conn)
  | Ok key =>
      let d' := with_orders
                  (map (λ o, if uuid_matches key o then Order.set_status status o else o)
                       (orders (Sqlite.txn conn)))
                  (orders_seq (Sqlite.txn conn)) (Sqlite.txn conn) in
      let conn := Sqlite.commit (Sqlite.execute d' conn) in
      (Ok (), Sqlite.close conn)
  end.

(** ** main.py *)

(** The eSewa configuration, read from the environment at start-up. *)
Class Config := {
  BASE_URL : string;
  ESEWA_PRODUCT_CODE : string;
  ESEWA_SECRET_KEY : string;
  ESEWA_FORM_URL : string
}.

(** The values used when the environment sets none. *)
Definition default_config : Config := {|
  BASE_URL := "http://localhost:8000";
  ESEWA_PRODUCT_CODE := "EPAYTEST";
  ESEWA_SECRET_KEY := "8gBm/:&EnhH.1/q";
  ESEWA_FORM_URL := "https://rc-epay.esewa.com.np/api/epay/main/v2/form"
|}.

Inductive response :=
| FileResponse (filename : string)
| TemplateResponse (name : string)
| RedirectResponse (url : string) (status_code : Z)
| JSONResponse (content : pyval)
| HTTPException (status_code : Z) (detail : string)
| ServerError.  (* an exception no handler catches: the server answers 500 *)

(** The body of POST /api/order once decoded: every required field is
    present and the three charges went through [float()].  A body that
    does not decode, lacks a field, or holds a charge that [float()]
    refuses is answered with an error before [create_order] is called,
    and is not a value of this type. *)
Record order_request := OrderRequest
  { customerName : string; customerEmail : string; customerPhone : string;
    customerAddress : string; cart : list cart_item;
    tax_amount : float; service_charge : float; delivery_charge : float }.

Definition api_create_order (data : order_request) (uuid4 now : string)
    (d : database) : response * database :=
  match create_order (customerName data) (customerEmail data) (customerPhone data)
          (customerAddress data) (cart data) (tax_amount data)
          (service_charge data) (delivery_charge data) uuid4 now d with
  | (Ok order, d') => (JSONResponse (PyDict {[ "orderId" := PyInt (Order.id order) ]}), d')
  | (Raise (ValueError ve), d') => (HTTPException 400 ve, d')
  | (Raise _, d') => (HTTPException 500 "Server error", d')
  end.

Section payment.
Context `{Config} `{Library}.

(** Generate HMAC SHA256 signature for eSewa form fields. *)
Definition generate_signature (total_amount transaction_uuid : string) : string :=
  let data_string :=
    "total_amount=" +:+ total_amount +:+ ",transaction_uuid=" +:+ transaction_uuid
      +:+ ",product_code=" +:+ ESEWA_PRODUCT_CODE in
  let digest := hmac_sha256 ESEWA_SECRET_KEY data_string in
  b64encode digest.

(** The form fields built for an order. *)
Definition form_data (order : Order.row) : gmap string pyval :=
  let signature :=
    generate_signature (Float.format_2f (Order.total_amount order))
      (Order.transaction_uuid order) in
  list_to_map
    [ ("amount", PyStr (Float.format_2f (Order.amount order)));
      ("tax_amount", PyStr (Float.format_2f (Order.tax_amount order)));
      ("total_amount", PyStr (Float.format_2f (Order.total_amount order)));
      ("transaction_uuid", PyStr (Order.transaction_uuid order));
      ("product_code", PyStr ESEWA_PRODUCT_CODE);
      ("product_service_charge", PyStr (Float.format_2f (Order.service_charge order)));
      ("product_delivery_charge", PyStr (Float.format_2f (Order.delivery_charge order)));
      ("success_url", PyStr (BASE_URL +:+ "/esewa-callback"));
      ("failure_url", PyStr (BASE_URL +:+ "/esewa-callback?status=fail"));
      ("signed_field_names", PyStr "total_amount,transaction_uuid,product_code");
      ("signature", PyStr signature) ].

(** POST /api/initiate-payment; [order_id] is [data.get("orderId")] of
    a body whose orderId, when present, is an int. *)
Definition api_initiate_payment (order_id : option Z) (d : database)
    : response * database :=
  match order_id with
  | None | Some 0%Z => (HTTPException 400 "Missing orderId", d)
  | Some order_id =>
      match get_order_by_id order_id d with
      | Raise _ => (ServerError, d)
      | Ok None => (HTTPException 404 "Order not found", d)
      | Ok (Some order) =>
          (JSONResponse
             (PyDict (list_to_map [ ("formData", PyDict (form_data order));
                                    ("gatewayUrl", PyStr ESEWA_FORM_URL) ])), d)
      end
  end.

(** [payload.get(key)]. *)
Definition get (payload : gmap string pyval) (key : string) : pyval :=
  default PyNone (payload !! key).

(** [f"{v}"]. *)
Definition str (v : pyval) : string :=
  match v with
  | PyNone => "None"
  | PyBool b => if b then "True" else "False"
  | PyInt z => str_of_int z
  | PyStr s => s
  | PyFloat _ | PyList _ | PyDict _ => repr v
  end.

Definition verify_string (payload : gmap string pyval) : string :=
  "transaction_code=" +:+ str (get payload "transaction_code") +:+ ","
    +:+ "status=" +:+ str (get payload "status") +:+ ","
    +:+ "total_amount=" +:+ str (get payload "total_amount") +:+ ","
    +:+ "transaction_uuid=" +:+ str (get payload "transaction_uuid") +:+ ","
    +:+ "product_code=" +:+ ESEWA_PRODUCT_CODE +:+ ","
    +:+ "signed_field_names=" +:+ str (get payload "signed_field_names").

(** The [try] block of [esewa_callback]: [Ok (Some r)] when it returns
    [r], [Ok None] when it falls through, [Raise e] when it raises. *)
Definition esewa_callback_try (encoded_data : string) (d : database)
    : result (option response) * database :=
  match (b ← b64decode encoded_data; decoded_json ← utf8_decode b;
         json_loads decoded_json) with
  | Raise e => (Raise e, d)
  | Ok (PyDict payload) =>
      let received_sig := get payload "signature" in
      let computed_sig := b64encode (hmac_sha256 ESEWA_SECRET_KEY (verify_string payload)) in
      if str_eq computed_sig received_sig && str_eq "COMPLETE" (get payload "status")
      then
        match update_order_status (get payload "transaction_uuid") "COMPLETED" d with
        | (Raise e, d') => (Raise e, d')
        | (Ok _, d') => (Ok (Some (RedirectResponse "/success.html" 307)), d')
        end
      else (Ok None, d)
  | Ok _ => (Raise AttributeError, d)
  end.

(** GET /esewa-callback. *)
Definition esewa_callback (query_params : gmap string string) (d : database)
    : response * database :=
  let fail_status := query_params !! "status" in
  if bool_decide (fail_status = Some "fail") then (RedirectResponse "/failure.html" 307, d)
  else
    match query_params !! "data" with
    | None | Some "" => (RedirectResponse "/failure.html" 307, d)
    | Some encoded_data =>
        match esewa_callback_try encoded_data d with
        | (Ok (Some r), d') => (r, d')
        | (Ok None, d') | (Raise _, d') => (RedirectResponse "/failure.html" 307, d')
        end
    end.

(** GET /admin/orders/confirm. *)
Definition admin_confirm_order (transaction_uuid : string) (d : database)
    : response * database :=
  match update_order_status (PyStr transaction_uuid) "COMPLETED" d with
  | (Raise _, d') => (ServerError, d')
  | (Ok _, d') => (RedirectResponse "/admin/orders" 303, d')
  end.

End payment.

(** [bool(s)] for an optional [str] query parameter. *)
Definition str_truthy (s : option string) : bool :=
  match s with
  | None | Some "" => false
  | Some _ => true
  end.

(** [bool(id)] for an optional [int] query parameter. *)
Definition int_truthy (i : option Z) : bool :=
  match i with
  | None | Some 0%Z => false
  | Some _ => true
  end.

(** [bool(x)] for an optional [float] query parameter. *)
Definition float_truthy (x : option float) : bool :=
  match x with
  | None => false
  | Some x => negb (is_zero x)
  end.

(** GET /admin/products. *)
Definition admin_products (edit_id delete_id : option Z) (d : database)
    : response * database :=
  if int_truthy delete_id then
    match delete_product (default 0%Z delete_id) d with
    | (Raise _, d') => (ServerError, d')
    | (Ok _, d') => (RedirectResponse "/admin/products" 303, d')
    end
  else
    let products := get_products d in
    if int_truthy edit_id then
      match get_product (default 0%Z edit_id) d with
      | Raise _ => (ServerError, d)
      | Ok product_to_edit => (TemplateResponse "admin_products.html", d)
      end
    else (TemplateResponse "admin_products.html", d).

(** GET /admin/save-product; an exception of the database call is
    swallowed. *)
Definition admin_save_product (id : option Z) (name description : option string)
    (price : option float) (image_url : option string) (d : database)
    : response * database :=
  if negb (str_truthy name && str_truthy description && float_truthy price
           && str_truthy image_url)
  then (RedirectResponse "/admin/products" 303, d)
  else
    let name := default "" name in
    let description := default "" description in
    let price := default 0%float price in
    let image_url := default "" image_url in
    let d' :=
      if int_truthy id
      then (update_product (default 0%Z id) name description price image_url d).2
      else (create_product name description price image_url d).2 in
    (RedirectResponse "/admin/products" 303, d').

(** *** The server as a transition system *)

(** The requests that reach the database, with the values the
    environment supplies to their handlers; [Page] stands for the
    handlers that only render a file or a listing. *)
Inductive request :=
| Page (filename : string)
| ApiCreateOrder (data : order_request) (uuid4 now : string)
| ApiInitiatePayment (order_id : option Z)
| EsewaCallback (query_params : gmap string string)
| AdminProducts (edit_id delete_id : option Z)
| AdminSaveProduct (id : option Z) (name description : option string)
    (price : option float) (image_url : option string)
| AdminConfirmOrder (transaction_uuid : string).

Definition handle `{Config} `{Library} (r : request) (d : database)
    : response * database :=
  match r with
  | Page filename => (FileResponse filename, d)
  | ApiCreateOrder data uuid4 now => api_create_order data uuid4 now d
  | ApiInitiatePayment order_id => api_initiate_payment order_id d
  | EsewaCallback query_params => esewa_callback query_params d
  | AdminProducts edit_id delete_id => admin_products edit_id delete_id d
  | AdminSaveProduct id name description price image_url =>
      admin_save_product id name description price image_url d
  | AdminConfirmOrder transaction_uuid => admin_confirm_order transaction_uuid d
  end.

(** What happens to the file: the server (re)starts, or serves a request. *)
Inductive event :=
| Restart
| Request (r : request).

Definition step `{Config} `{Library} (e : event) (d : database) : database :=
  match e with
  | Restart => init_db d
  | Request r => (handle r d).2
  end.

Definition run `{Config} `{Library} (es : list event) (d : database) : database :=
  foldl (λ d e, step e d) d es.

(** The states of the file: the server first starts on an empty one. *)
Definition reachable `{Config} `{Library} (d : database) : Prop :=
  ∃ es, d = run es (init_db empty_database).

(** ** Notions used in the statements *)

Definition int64 (z : Z) : Prop := (- 2 ^ 63 ≤ z < 2 ^ 63)%Z.

(** The quantity [create_order] reads from a cart entry. *)
Definition quantity_of (item : cart_item) : Z := default 1%Z (item !! "quantity").

(** The price of the product an entry refers to. *)
Definition unit_price (d : database) (item : cart_item) : float :=
  default 0%float (Product.price <$> (item !! "productId" ≫= select_product d)).

(** [price * qty] added entry by entry, in cart order, to [amount]. *)
Definition sum_from (d : database) (cart : list cart_item) (amount : float) : float :=
  foldl (λ amount item, amount + unit_price d item * Float.nearest (quantity_of item))%float
        amount cart.

(** [sum(price * qty)] over the cart, accumulated from [0.0]. *)
Definition cart_sum (d : database) (cart : list cart_item) : float :=
  sum_from d cart 0%float.

(** The total as the specification's testable property writes it:
    one rounding of the sum of subtotal and charges. *)
Definition claimed_total (d : database) (cart : list cart_item)
    (tax_amount service_charge delivery_charge : float) : float :=
  Float.round2 (cart_sum d cart + tax_amount + service_charge + delivery_charge).

(** The total as [create_order] computes it: the subtotal is rounded
    first, then the sum with the charges. *)
Definition rounded_total (d : database) (cart : list cart_item)
    (tax_amount service_charge delivery_charge : float) : float :=
  Float.round2 (Float.round2 (cart_sum d cart) + tax_amount + service_charge
                + delivery_charge).

(** The entry names a product of the catalogue. *)
Definition known (d : database) (item : cart_item) : Prop :=
  ∃ pid p, item !! "productId" = Some pid ∧ select_product d pid = Some p.


(** The entry's id and quantity fit SQLite's integers. *)
Definition in_range (item : cart_item) : Prop :=
  (∀ pid, item !! "productId" = Some pid → int64 pid) ∧ int64 (quantity_of item).



(** Rowids in the orders table do not exceed the table's counter. *)
Definition consistent (d : database) : Prop :=
  (0 ≤ orders_seq d)%Z ∧ Forall (λ o, Order.id o ≤ orders_seq d)%Z (orders d).

(** What makes [create_order] go through: every entry names a product,
    within range and with a price; no amount is NaN; the transaction id
    is new; both tables have rowids left. *)
Record creatable (d : database) (cart : list cart_item)
    (tax_amount service_charge delivery_charge : float) (uuid4 : string) : Prop :=
  { creatable_known : Forall (known d) cart;
    creatable_in_range : Forall in_range cart;
    creatable_prices :
      Forall (λ p, is_nan (Product.price p) = false) (products d);
    creatable_subtotal : is_nan (Float.round2 (cart_sum d cart)) = false;
    creatable_tax : is_nan tax_amount = false;
    creatable_service : is_nan service_charge = false;
    creatable_delivery : is_nan delivery_charge = false;
    creatable_total :
      is_nan (rounded_total d cart tax_amount service_charge delivery_charge) = false;
    creatable_uuid : Forall (λ o, Order.transaction_uuid o ≠ uuid4) (orders d);
    creatable_order_rowid : (0 ≤ orders_seq d < 2 ^ 63 - 1)%Z;
    creatable_item_rowids :
      (0 ≤ order_items_seq d ∧ order_items_seq d + Z.of_nat (length cart) < 2 ^ 63)%Z }.

Definition status_ok (o : Order.row) : Prop :=
  Order.status o = "INITIATED" ∨ Order.status o = "COMPLETED".

(** Every column but [status] holds the same value in both rows. *)
Definition same_but_status (o o' : Order.row) : Prop :=
  Order.id o' = Order.id o
  ∧ Order.transaction_uuid o' = Order.transaction_uuid o
  ∧ Order.customer_name o' = Order.customer_name o
  ∧ Order.customer_email o' = Order.customer_email o
  ∧ Order.customer_phone o' = Order.customer_phone o
  ∧ Order.customer_address o' = Order.customer_address o
  ∧ Order.amount o' = Order.amount o
  ∧ Order.tax_amount o' = Order.tax_amount o
  ∧ Order.service_charge o' = Order.service_charge o
  ∧ Order.delivery_charge o' = Order.delivery_charge o
  ∧ Order.total_amount o' = Order.total_amount o
  ∧ Order.created_at o' = Order.created_at o.

Section callback.
Context `{Config} `{Library}.

(** The payload a [data] parameter decodes to. *)
Definition decoded (encoded_data : string) : result pyval :=
  b ← b64decode encoded_data; decoded_json ← utf8_decode b; json_loads decoded_json.

(** The signature [esewa_callback] computes for a payload. *)
Definition computed_sig (payload : gmap string pyval) : string :=
  b64encode (hmac_sha256 ESEWA_SECRET_KEY (verify_string payload)).

(** The orders after those matching [key] are marked COMPLETED. *)
Definition mark_completed (key : Sqlite.value) (os : list Order.row) : list Order.row :=
  map (λ o, if uuid_matches key o then Order.set_status "COMPLETED" o else o) os.

(** The four ways a callback is refused. *)
Inductive rejected (query_params : gmap string string) : Prop :=
| missing_data :
    query_params !! "data" = None → rejected query_params
| undecodable encoded_data e :
    query_params !! "data" = Some encoded_data →
    decoded encoded_data = Raise e →
    rejected query_params
| tampered encoded_data payload :
    query_params !! "data" = Some encoded_data →
    decoded encoded_data = Ok (PyDict payload) →
    get payload "signature" ≠ PyStr (computed_sig payload) →
    rejected query_params
| not_complete encoded_data payload :
    query_params !! "data" = Some encoded_data →
    decoded encoded_data = Ok (PyDict payload) →
    get payload "status" ≠ PyStr "COMPLETE" →
    rejected query_params.

End callback.

Section transitions.
Context `{Config} `{Library}.

(** The events that mark the order [o] COMPLETED: the payment callback
    whose payload is verified (its signature is the computed one and its
    status is COMPLETE) and names the transaction id of [o], and the
    admin confirmation of that transaction id. *)
Definition completes (e : event) (o : Order.row) : Prop :=
  match e with
  | Request (EsewaCallback query_params) =>
      ∃ encoded_data payload key,
        query_params !! "data" = Some encoded_data
        ∧ decoded encoded_data = Ok (PyDict payload)
        ∧ get payload "signature" = PyStr (computed_sig payload)
        ∧ get payload "status" = PyStr "COMPLETE"
        ∧ Sqlite.bind_param (get payload "transaction_uuid") = Ok key
        ∧ uuid_matches key o = true
  | Request (AdminConfirmOrder transaction_uuid) =>
      Order.transaction_uuid o = transaction_uuid
  | _ => False
  end.

(** The events that may add an order. *)
Definition creates (e : event) : Prop :=
  match e with
  | Request (ApiCreateOrder _ _ _) => True
  | _ => False
  end.

(** How one event may change the orders table: a row stays where it
    is, unchanged or, if the event [completes] it, with status COMPLETED
    and every other column as it was; a row that was not there comes
    from an event that [creates], with status INITIATED. *)
Definition orders_step (e : event) (os os' : list Order.row) : Prop :=
  (∀ i o, os !! i = Some o →
     ∃ o', os' !! i = Some o'
           ∧ (o' = o
              ∨ (completes e o ∧ Order.status o' = "COMPLETED"
                 ∧ same_but_status o o')))
  ∧ (∀ i o', os' !! i = Some o' → os !! i = None →
       creates e ∧ Order.status o' = "INITIATED").

End transitions.

Definition success_page : response := RedirectResponse "/success.html" 307.
Definition failure_page : response := RedirectResponse "/failure.html" 307.

(** A decimal digit. *)
Definition is_digit (c : ascii) : bool :=
  (48 <=? nat_of_ascii c)%nat && (nat_of_ascii c <=? 57)%nat.

Fixpoint all_digits (s : string) : bool :=
  match s with
  | "" => true
  | String c s => is_digit c && all_digits s
  end.

(** An amount written with exactly two decimal places: an optional
    minus sign, at least one digit, a point and two digits. *)
Definition two_decimals (s : string) : Prop :=
  ∃ sign whole d1 d2,
    s = sign +:+ whole +:+ "." +:+ String d1 (String d2 "")
    ∧ (sign = "" ∨ sign = "-")
    ∧ whole ≠ "" ∧ all_digits whole = true
    ∧ is_digit d1 = true ∧ is_digit d2 = true.

(** *** The catalogue and the ledger *)

(** A row of the products table as the handlers leave it: an id the
    counter has handed out, a price that is a number other than zero,
    and no empty text. *)
Definition product_ok (seq : Z) (p : Product.row) : Prop :=
  (0 < Product.id p ≤ seq)%Z
  ∧ is_nan (Product.price p) = false ∧ is_zero (Product.price p) = false
  ∧ Product.name p ≠ "" ∧ Product.description p ≠ ""
  ∧ Product.image_url p ≠ "".

(** The products table is well formed: the counter is a rowid, ids are
    unique, every row is as above. *)
Definition catalogue_ok (d : database) : Prop :=
  (0 ≤ products_seq d < 2 ^ 63)%Z
  ∧ NoDup (Product.id <$> products d)
  ∧ Forall (product_ok (products_seq d)) (products d).

(** The orders table is well formed: ids and transaction ids are
    unique, and every id has been handed out by the counter. *)
Definition ledger_ok (d : database) : Prop :=
  (0 ≤ orders_seq d < 2 ^ 63)%Z
  ∧ NoDup (Order.id <$> orders d)
  ∧ NoDup (Order.transaction_uuid <$> orders d)
  ∧ Forall (λ o, 0 < Order.id o ≤ orders_seq d)%Z (orders d).

(** [total_amount == round(amount + tax_amount + service_charge +
    delivery_charge, 2)] on a stored row. *)
Definition balanced (o : Order.row) : Prop :=
  (Order.total_amount o
     =? Float.round2 (Order.amount o + Order.tax_amount o
                      + Order.service_charge o + Order.delivery_charge o))%float
  = true.

(** Two floats that Python's [==] cannot tell apart although neither
    is NaN: the same float, or two zeros. *)
Definition alike (x y : float) : Prop :=
  x = y ∨ (is_zero x = true ∧ is_zero y = true).

(** The fields of a product row other than its id. *)
Definition product_fields (p : Product.row) : string * string * float * string :=
  (Product.name p, Product.description p, Product.price p, Product.image_url p).



(** How an item row stands to the cart entry it was written for. *)
Definition item_of (d : database) (order_id : Z) (item : cart_item)
    (row : OrderItem.row) : Prop :=
  OrderItem.order_id row = order_id
  ∧ item !! "productId" = Some (OrderItem.product_id row)
  ∧ OrderItem.quantity row = quantity_of item
  ∧ int64 (OrderItem.quantity row)
  ∧ Sqlite.real_not_null (unit_price d item) = Ok (OrderItem.price row).

(** The order_items table is well formed: ids are unique and handed
    out by the counter, every row belongs to a stored order, its
    quantity fits 64 bits and its price is a number. *)
Definition items_ok (d : database) : Prop :=
  (0 ≤ order_items_seq d)%Z
  ∧ NoDup (OrderItem.id <$> order_items d)
  ∧ Forall (λ it, (0 < OrderItem.id it ≤ order_items_seq d)%Z
                  ∧ OrderItem.order_id it ∈ Order.id <$> orders d
                  ∧ int64 (OrderItem.quantity it)
                  ∧ is_nan (OrderItem.price it) = false) (order_items d).


(** What an event may do to the catalogue: the counter does not go
    back, and a row either has an id that was in the catalogue or an id
    the counter had not handed out. *)
Definition catalogue_step (d d' : database) : Prop :=
  (products_seq d ≤ products_seq d')%Z
  ∧ Forall (λ p', Product.id p' ∈ Product.id <$> products d
                  ∨ (products_seq d < Product.id p')%Z) (products d').

(** A seed row fit for the catalogue. *)
Definition seed_ok (row : string * string * float * string) : Prop :=
  row.1.1.1 ≠ "" ∧ row.1.1.2 ≠ "" ∧ row.2 ≠ ""
  ∧ is_nan row.1.2 = false ∧ is_zero row.1.2 = false.

(** ** A reference library

    The library functions as Python and hashlib compute them, for use
    where a statement is evaluated on concrete data.  [repr] and
    [real_to_text] are left trivial: the data used holds strings only. *)

Module Reference.

Definition bytes_of (s : string) : list Z :=
  (Z.of_nat ∘ nat_of_ascii) <$> list_ascii_of_string s.

Definition string_of (l : list Z) : string :=
  string_of_list_ascii ((ascii_of_nat ∘ Z.to_nat) <$> l).

(** *** SHA-256 (FIPS 180-4) on 32-bit words held in [Z] *)

Definition w32 (x : Z) : Z := Z.land x 0xffffffff.
Definition add32 (x y : Z) : Z := w32 (x + y).
Definition rotr (n x : Z) : Z := Z.lor (Z.shiftr x n) (w32 (Z.shiftl x (32 - n))).
Definition ch (x y z : Z) : Z :=
  Z.lxor (Z.land x y) (Z.land (Z.lxor x 0xffffffff) z).
Definition maj (x y z : Z) : Z :=
  Z.lxor (Z.land x y) (Z.lxor (Z.land x z) (Z.land y z)).
Definition bsig0 (x : Z) : Z := Z.lxor (rotr 2 x) (Z.lxor (rotr 13 x) (rotr 22 x)).
Definition bsig1 (x : Z) : Z := Z.lxor (rotr 6 x) (Z.lxor (rotr 11 x) (rotr 25 x)).
Definition ssig0 (x : Z) : Z := Z.lxor (rotr 7 x) (Z.lxor (rotr 18 x) (Z.shiftr x 3)).
Definition ssig1 (x : Z) : Z := Z.lxor (rotr 17 x) (Z.lxor (rotr 19 x) (Z.shiftr x 10)).

(** The first [n] primes, by trial division. *)
Definition is_prime (p : Z) : bool :=
  forallb (λ q, negb (p mod q =? 0)%Z) (seqZ 2 (p - 2)).
Definition primes (n : nat) : list Z := take n (filter is_prime (seqZ 2 400)).

(** The integer cube root, bit by bit from bit 40 down. *)
Definition cube_root (n : Z) : Z :=
  foldl (λ x b, let y := (x + 2 ^ b)%Z in if (y * y * y <=? n)%Z then y else x)
        0%Z ((λ b, 40 - b)%Z <$> seqZ 0 41).

(** The round constants: the first 32 bits of the fractional parts of
    the cube roots of the first 64 primes. *)
Definition K : list Z := (λ p, w32 (cube_root (p * 2 ^ 96))) <$> primes 64.

(** The initial hash value: the same of the square roots of the first
    8 primes. *)
Definition H0 : list Z := (λ p, w32 (Z.sqrt (p * 2 ^ 64))) <$> primes 8.

(** Big-endian bytes of a number, [n] of them. *)
Fixpoint be_bytes (n : nat) (x : Z) : list Z :=
  match n with
  | O => []
  | S n => be_bytes n (Z.shiftr x 8) ++ [Z.land x 0xff]
  end.

Definition be_word (l : list Z) : Z :=
  foldl (λ acc b, Z.lor (Z.shiftl acc 8) b) 0%Z l.

Definition pad (msg : list Z) : list Z :=
  let len := Z.of_nat (length msg) in
  msg ++ [0x80%Z] ++ replicate (Z.to_nat ((55 - len) mod 64)) 0%Z
      ++ be_bytes 8 (8 * len).

(** Splits a list into chunks of [n] (the last may be shorter). *)
Fixpoint chunks_aux {A} (fuel n : nat) (l : list A) : list (list A) :=
  match fuel, l with
  | _, [] | O, _ => []
  | S fuel, _ => take n l :: chunks_aux fuel n (drop n l)
  end.
Definition chunks {A} (n : nat) (l : list A) : list (list A) :=
  chunks_aux (length l) n l.

(** The message schedule, most recent word first. *)
Fixpoint schedule (n : nat) (rev_w : list Z) : list Z :=
  match n with
  | O => rev_w
  | S n =>
      let w t := default 0%Z (rev_w !! t) in
      schedule n (add32 (add32 (ssig1 (w 1%nat)) (w 6%nat))
                        (add32 (ssig0 (w 14%nat)) (w 15%nat)) :: rev_w)
  end.

Definition round (st : list Z) (kw : Z * Z) : list Z :=
  match st with
  | [a; b; c; d; e; f; g; h] =>
      let t1 := add32 (add32 (add32 h (bsig1 e)) (add32 (ch e f g) kw.1)) kw.2 in
      let t2 := add32 (bsig0 a) (maj a b c) in
      [add32 t1 t2; a; b; c; add32 d t1; e; f; g]
  | _ => st
  end.

Definition compress (st : list Z) (block : list Z) : list Z :=
  let w := reverse (schedule 48 (reverse (be_word <$> chunks 4 block))) in
  zip_with add32 st (foldl round st (zip K w)).

Definition sha256 (msg : list Z) : list Z :=
  foldl compress H0 (chunks 64 (pad msg)) ≫= be_bytes 4.

(** *** HMAC (RFC 2104) with SHA-256 *)

Definition hmac (key msg : list Z) : list Z :=
  let key := if (64 <? Z.of_nat (length key))%Z then sha256 key else key in
  let key := key ++ replicate (64 - length key) 0%Z in
  sha256 ((Z.lxor 0x5c <$> key) ++ sha256 ((Z.lxor 0x36 <$> key) ++ msg)).

Definition hmac_sha256 (key msg : string) : string :=
  string_of (hmac (bytes_of key) (bytes_of msg)).

(** *** Base64 (RFC 4648, as [base64] and [binascii] implement it) *)

Definition alphabet : list ascii :=
  list_ascii_of_string
    "ABCDEFGHIJKLMNOPQRSTUVWXYZabcdefghijklmnopqrstuvwxyz0123456789+/".

Definition b64char (v : Z) : ascii := default "="%char (alphabet !! Z.to_nat v).

Fixpoint encode_groups (groups : list (list Z)) : list ascii :=
  match groups with
  | [] => []
  | [a; b; c] :: groups =>
      [ b64char (Z.shiftr a 2);
        b64char (Z.lor (Z.shiftl (Z.land a 3) 4) (Z.shiftr b 4));
        b64char (Z.lor (Z.shiftl (Z.land b 15) 2) (Z.shiftr c 6));
        b64char (Z.land c 63) ] ++ encode_groups groups
  | [a; b] :: groups =>
      [ b64char (Z.shiftr a 2);
        b64char (Z.lor (Z.shiftl (Z.land a 3) 4) (Z.shiftr b 4));
        b64char (Z.shiftl (Z.land b 15) 2); "="%char ] ++ encode_groups groups
  | [a] :: groups =>
      [ b64char (Z.shiftr a 2); b64char (Z.shiftl (Z.land a 3) 4);
        "="%char; "="%char ] ++ encode_groups groups
  | _ :: groups => encode_groups groups
  end.

Definition b64encode (b : string) : string :=
  string_of_list_ascii (encode_groups (chunks 3 (bytes_of b))).

(** The value of a character of the alphabet. *)
Definition b64value (c : ascii) : option Z :=
  let n := Z.of_nat (nat_of_ascii c) in
  if bool_decide (65 ≤ n ≤ 90)%Z then Some (n - 65)%Z
  else if bool_decide (97 ≤ n ≤ 122)%Z then Some (n - 71)%Z
  else if bool_decide (48 ≤ n ≤ 57)%Z then Some (n + 4)%Z
  else if bool_decide (n = 43)%Z then Some 62%Z
  else if bool_decide (n = 47)%Z then Some 63%Z
  else None.

(** [binascii.a2b_base64] without strict mode: characters outside the
    alphabet are skipped; padding that completes a quad ends the
    input; leftover characters are an error.  [quad_pos] counts the
    characters of the current quad, [leftchar] holds its pending bits,
    [pads] the padding characters seen since the last data character. *)
Fixpoint a2b_base64 (l : list ascii) (quad_pos leftchar pads : Z)
    : result (list Z) :=
  match l with
  | [] => if bool_decide (quad_pos = 0)%Z then Ok [] else Raise DecodeError
  | c :: l =>
      if bool_decide (c = "="%char) then
        if bool_decide (2 ≤ quad_pos)%Z then
          if bool_decide (4 ≤ quad_pos + (pads + 1))%Z then Ok []
          else a2b_base64 l quad_pos leftchar (pads + 1)
        else a2b_base64 l quad_pos leftchar pads
      else
        match b64value c with
        | None => a2b_base64 l quad_pos leftchar pads
        | Some v =>
            if bool_decide (quad_pos = 0)%Z then a2b_base64 l 1 v 0
            else if bool_decide (quad_pos = 1)%Z then
              out ← a2b_base64 l 2 (Z.land v 15) 0;
              Ok (Z.lor (Z.shiftl leftchar 2) (Z.shiftr v 4) :: out)
            else if bool_decide (quad_pos = 2)%Z then
              out ← a2b_base64 l 3 (Z.land v 3) 0;
              Ok (Z.lor (Z.shiftl leftchar 4) (Z.shiftr v 2) :: out)
            else
              out ← a2b_base64 l 0 0 0;
              Ok (Z.lor (Z.shiftl leftchar 6) v :: out)
        end
  end.

(** [base64.b64decode(s)] for a [str]: it must be ASCII. *)
Definition b64decode (s : string) : result string :=
  let l := list_ascii_of_string s in
  if forallb (λ c, (nat_of_ascii c <? 128)%nat) l
  then out ← a2b_base64 l 0 0 0; Ok (string_of out)
  else Raise (ValueError "string argument should contain only ASCII characters").

(** *** UTF-8 *)

Definition continuation (b : Z) : bool := bool_decide (0x80 ≤ b ≤ 0xbf)%Z.

(** Well-formed UTF-8 (Unicode, table 3-7), by fuel on the length. *)
Fixpoint utf8_valid (fuel : nat) (l : list Z) : bool :=
  match fuel with
  | O => false
  | S fuel =>
      match l with
      | [] => true
      | b0 :: l =>
          if bool_decide (b0 ≤ 0x7f)%Z then utf8_valid fuel l
          else if bool_decide (0xc2 ≤ b0 ≤ 0xdf)%Z then
            match l with
            | b1 :: l => continuation b1 && utf8_valid fuel l
            | _ => false
            end
          else if bool_decide (0xe0 ≤ b0 ≤ 0xef)%Z then
            match l with
            | b1 :: b2 :: l =>
                (if bool_decide (b0 = 0xe0)%Z then bool_decide (0xa0 ≤ b1 ≤ 0xbf)%Z
                 else if bool_decide (b0 = 0xed)%Z then bool_decide (0x80 ≤ b1 ≤ 0x9f)%Z
                 else continuation b1)
                && continuation b2 && utf8_valid fuel l
            | _ => false
            end
          else if bool_decide (0xf0 ≤ b0 ≤ 0xf4)%Z then
            match l with
            | b1 :: b2 :: b3 :: l =>
                (if bool_decide (b0 = 0xf0)%Z then bool_decide (0x90 ≤ b1 ≤ 0xbf)%Z
                 else if bool_decide (b0 = 0xf4)%Z then bool_decide (0x80 ≤ b1 ≤ 0x8f)%Z
                 else continuation b1)
                && continuation b2 && continuation b3 && utf8_valid fuel l
            | _ => false
            end
          else false
      end
  end.

(** [b.decode()]. *)
Definition utf8_decode (b : string) : result string :=
  let l := bytes_of b in
  if utf8_valid (S (length l)) l then Ok b else Raise DecodeError.

(** *** JSON ([json.loads] with its default decoder) *)

Definition code (c : ascii) : Z := Z.of_nat (nat_of_ascii c).
Definition char (n : Z) : ascii := ascii_of_nat (Z.to_nat n).

Definition is_ws (c : ascii) : bool :=
  bool_decide (code c = 32 ∨ code c = 9 ∨ code c = 10 ∨ code c = 13)%Z.

Fixpoint skip_ws (l : list ascii) : list ascii :=
  match l with
  | c :: l' => if is_ws c then skip_ws l' else l
  | [] => []
  end.

(** [l] without the prefix [p], when it starts with it. *)
Fixpoint strip (p l : list ascii) : option (list ascii) :=
  match p, l with
  | [], _ => Some l
  | a :: p, b :: l => if bool_decide (a = b) then strip p l else None
  | _ :: _, [] => None
  end.

Definition hex_value (c : ascii) : option Z :=
  let n := code c in
  if bool_decide (48 ≤ n ≤ 57)%Z then Some (n - 48)%Z
  else if bool_decide (97 ≤ n ≤ 102)%Z then Some (n - 87)%Z
  else if bool_decide (65 ≤ n ≤ 70)%Z then Some (n - 55)%Z
  else None.

(** Four hexadecimal digits. *)
Definition hex4 (l : list ascii) : option (Z * list ascii) :=
  match l with
  | a :: b :: c :: d :: l =>
      a ← hex_value a; b ← hex_value b; c ← hex_value c; d ← hex_value d;
      Some (((a * 16 + b) * 16 + c) * 16 + d, l)%Z
  | _ => None
  end.

(** The UTF-8 bytes of a code point. *)
Definition utf8_encode (cp : Z) : list ascii :=
  let cont k := char (Z.lor 0x80 (Z.land (Z.shiftr cp k) 0x3f)) in
  if bool_decide (cp < 0x80)%Z then [char cp]
  else if bool_decide (cp < 0x800)%Z then
    [char (Z.lor 0xc0 (Z.shiftr cp 6)); cont 0%Z]
  else if bool_decide (cp < 0x10000)%Z then
    [char (Z.lor 0xe0 (Z.shiftr cp 12)); cont 6%Z; cont 0%Z]
  else [char (Z.lor 0xf0 (Z.shiftr cp 18)); cont 12%Z; cont 6%Z; cont 0%Z].

Definition simple_escape (c : ascii) : option ascii :=
  let n := code c in
  if bool_decide (n = 34 ∨ n = 92 ∨ n = 47)%Z then Some c
  else if bool_decide (n = 98)%Z then Some (char 8)
  else if bool_decide (n = 102)%Z then Some (char 12)
  else if bool_decide (n = 110)%Z then Some (char 10)
  else if bool_decide (n = 114)%Z then Some (char 13)
  else if bool_decide (n = 116)%Z then Some (char 9)
  else None.

(** The string that starts after an opening quote, and what follows
    its closing quote.  Control characters are refused (strict mode);
    a [\u] escape of a surrogate that is not half of a pair would make
    a string with a lone surrogate and is refused as well. *)
Fixpoint scan_string (fuel : nat) (l : list ascii) : result (list ascii * list ascii) :=
  match fuel with
  | O => Raise DecodeError
  | S fuel =>
      match l with
      | [] => Raise DecodeError
      | c :: l =>
          if bool_decide (code c = 34)%Z then Ok ([], l)
          else if bool_decide (code c = 92)%Z then
            match l with
            | [] => Raise DecodeError
            | e :: l =>
                if bool_decide (code e = 117)%Z then
                  match hex4 l with
                  | None => Raise DecodeError
                  | Some (cp, l) =>
                      if bool_decide (0xd800 ≤ cp ≤ 0xdbff)%Z then
                        match strip [char 92; char 117] l ≫= hex4 with
                        | Some (lo, l) =>
                            if bool_decide (0xdc00 ≤ lo ≤ 0xdfff)%Z then
                              r ← scan_string fuel l;
                              Ok (utf8_encode
                                    (0x10000 + Z.lor (Z.shiftl (cp - 0xd800) 10)
                                                     (lo - 0xdc00)) ++ r.1, r.2)
                            else Raise DecodeError
                        | None => Raise DecodeError
                        end
                      else if bool_decide (0xdc00 ≤ cp ≤ 0xdfff)%Z then Raise DecodeError
                      else r ← scan_string fuel l; Ok (utf8_encode cp ++ r.1, r.2)
                  end
                else
                  match simple_escape e with
                  | None => Raise DecodeError
                  | Some c => r ← scan_string fuel l; Ok (c :: r.1, r.2)
                  end
            end
          else if bool_decide (code c < 32)%Z then Raise DecodeError
          else r ← scan_string fuel l; Ok (c :: r.1, r.2)
      end
  end.

(** The leading decimal digits of [l], and the rest. *)
Fixpoint span_digits (l : list ascii) : list ascii * list ascii :=
  match l with
  | c :: l' =>
      if is_digit c then let r := span_digits l' in (c :: r.1, r.2) else ([], l)
  | [] => ([], [])
  end.

Definition digits_value (ds : list ascii) : Z :=
  foldl (λ acc c, 10 * acc + (code c - 48))%Z 0%Z ds.

(** [float(text)] for the decimal [digits * 10^e10] with a sign:
    the nearest float. *)
Definition decimal_float (neg : bool) (digits e10 : Z) : float :=
  match digits with
  | Z.pos n =>
      if bool_decide (0 ≤ e10)%Z then
        SF2Prim (binary_normalize prec emax
                   ((if neg then -1 else 1) * digits * 10 ^ e10) 0 false)
      else
        SF2Prim (SFdiv prec emax (S754_finite neg n 0)
                   (S754_finite false (Z.to_pos (10 ^ (- e10))) 0))
  | _ => SF2Prim (S754_zero neg)
  end.

(** A number at the head of [l]: an optional minus sign, an integer
    part without leading zeros, then optionally a fraction and an
    exponent, which make it a float. *)
Definition match_number (l : list ascii) : result (pyval * list ascii) :=
  let (neg, l) := match strip [char 45] l with Some l => (true, l) | None => (false, l) end in
  let (int_part, l) :=
    match l with
    | c :: l' => if bool_decide (code c = 48)%Z then ([c], l') else span_digits l
    | [] => ([], [])
    end in
  if bool_decide (int_part = []) then Raise DecodeError else
  let (frac, l) :=
    match l with
    | p :: l' =>
        if bool_decide (code p = 46)%Z then
          let r := span_digits l' in
          if bool_decide (r.1 = []) then ([], l) else r
        else ([], l)
    | [] => ([], l)
    end in
  let '(exp, l) :=
    match l with
    | e :: l' =>
        if bool_decide (code e = 101 ∨ code e = 69)%Z then
          let '(eneg, l'') :=
            match l' with
            | s :: l'' =>
                if bool_decide (code s = 45)%Z then (true, l'')
                else if bool_decide (code s = 43)%Z then (false, l'')
                else (false, l')
            | [] => (false, l')
            end in
          let r := span_digits l'' in
          if bool_decide (r.1 = []) then (None, l)
          else (Some ((if eneg then -1 else 1) * digits_value r.1)%Z, r.2)
        else (None, l)
    | [] => (None, l)
    end in
  match frac, exp with
  | [], None =>
      if bool_decide (4300 < length int_part)%nat
      then Raise (ValueError "Exceeds the limit (4300 digits) for integer string conversion")
      else Ok (PyInt ((if neg then -1 else 1) * digits_value int_part), l)
  | _, _ =>
      Ok (PyFloat (decimal_float neg (digits_value (int_part ++ frac))
                     (default 0%Z exp - Z.of_nat (length frac))), l)
  end.

Definition keyword (l : list ascii) : option (pyval * list ascii) :=
  let try (k : string) (v : pyval) := (λ l, (v, l)) <$> strip (list_ascii_of_string k) l in
  match try "null" PyNone, try "true" (PyBool true), try "false" (PyBool false),
        try "NaN" (PyFloat nan), try "Infinity" (PyFloat infinity),
        try "-Infinity" (PyFloat neg_infinity) with
  | Some r, _, _, _, _, _ | _, Some r, _, _, _, _ | _, _, Some r, _, _, _
  | _, _, _, Some r, _, _ | _, _, _, _, Some r, _ | _, _, _, _, _, Some r => Some r
  | _, _, _, _, _, _ => None
  end.

(** A value at the head of [l], and what follows it; [elements] and
    [members] continue an array and an object at the head of their
    next element or key. *)
Fixpoint value (fuel : nat) (l : list ascii) : result (pyval * list ascii) :=
  match fuel with
  | O => Raise DecodeError
  | S fuel =>
      match l with
      | [] => Raise DecodeError
      | c :: l' =>
          if bool_decide (code c = 34)%Z then
            r ← scan_string (length l) l'; Ok (PyStr (string_of_list_ascii r.1), r.2)
          else if bool_decide (code c = 123)%Z then
            match skip_ws l' with
            | c' :: l'' =>
                if bool_decide (code c' = 125)%Z then Ok (PyDict ∅, l'')
                else members fuel (c' :: l'') ∅
            | [] => Raise DecodeError
            end
          else if bool_decide (code c = 91)%Z then
            match skip_ws l' with
            | c' :: l'' =>
                if bool_decide (code c' = 93)%Z then Ok (PyList [], l'')
                else elements fuel (c' :: l'') []
            | [] => Raise DecodeError
            end
          else
            match keyword l with
            | Some r => Ok r
            | None => match_number l
            end
      end
  end
with elements (fuel : nat) (l : list ascii) (acc : list pyval)
    : result (pyval * list ascii) :=
  match fuel with
  | O => Raise DecodeError
  | S fuel =>
      v ← value fuel l;
      match skip_ws v.2 with
      | c :: l' =>
          if bool_decide (code c = 93)%Z then Ok (PyList (acc ++ [v.1]), l')
          else if bool_decide (code c = 44)%Z then elements fuel (skip_ws l') (acc ++ [v.1])
          else Raise DecodeError
      | [] => Raise DecodeError
      end
  end
with members (fuel : nat) (l : list ascii) (acc : gmap string pyval)
    : result (pyval * list ascii) :=
  match fuel with
  | O => Raise DecodeError
  | S fuel =>
      match l with
      | q :: l' =>
          if bool_decide (code q = 34)%Z then
            k ← scan_string (length l) l';
            match skip_ws k.2 with
            | c :: l'' =>
                if bool_decide (code c = 58)%Z then
                  v ← value fuel (skip_ws l'');
                  let acc := <[string_of_list_ascii k.1 := v.1]> acc in
                  match skip_ws v.2 with
                  | c :: l''' =>
                      if bool_decide (code c = 125)%Z then Ok (PyDict acc, l''')
                      else if bool_decide (code c = 44)%Z then members fuel (skip_ws l''') acc
                      else Raise DecodeError
                  | [] => Raise DecodeError
                  end
                else Raise DecodeError
            | [] => Raise DecodeError
            end
          else Raise DecodeError
      | [] => Raise DecodeError
      end
  end.

(** [json.loads(s)]: one value between optional whitespace. *)
Definition json_loads (s : string) : result pyval :=
  let l := list_ascii_of_string s in
  r ← value (2 * length l + 4) (skip_ws l);
  match skip_ws r.2 with
  | [] => Ok r.1
  | _ :: _ => Raise DecodeError
  end.

Definition library : Library :=
  Build_Library hmac_sha256 b64encode b64decode utf8_decode json_loads
    (λ _, "") (λ _, "").

End Reference.

(** ** Sample data

    The catalogue right after the first start, an order for two pairs of
    product 1, and callbacks as the gateway would send them for it, signed
    with the default secret. *)

Module Example.

Definition seeded : database := init_db empty_database.

Definition two_aviators : list cart_item :=
  [ {[ "productId" := 1%Z; "quantity" := 2%Z ]} ].

Definition uuid : string := "3f2b8c1e-6d4a-4c59-9b7e-0a1d2e3f4a5b".

Definition request : order_request :=
  OrderRequest "Asha Rai" "asha@example.com" "9800000000" "Kathmandu"
    two_aviators 5 2 3.

(** The file once the order is placed. *)
Definition ordered : database :=
  (api_create_order request uuid "2024-05-01 10:00:00" seeded).2.

Definition signed_field_names : string :=
  "transaction_code,status,total_amount,transaction_uuid,product_code,signed_field_names".

Definition payload (status transaction_uuid signature : string) : gmap string pyval :=
  list_to_map
    [ ("transaction_code", PyStr "000AWEO"); ("status", PyStr status);
      ("total_amount", PyStr "129.98"); ("transaction_uuid", PyStr transaction_uuid);
      ("product_code", PyStr "EPAYTEST");
      ("signed_field_names", PyStr signed_field_names);
      ("signature", PyStr signature) ].

(** The callback for the paid order. *)
Definition paid_payload : gmap string pyval :=
  payload "COMPLETE" uuid "Y7ZlsCkwdbaENnAwnTuox0Idvzw2y3dN+c7ehn18nZY=".
Definition paid_data : string :=
  "eyJ0cmFuc2FjdGlvbl9jb2RlIjoiMDAwQVdFTyIsInN0YXR1cyI6IkNPTVBMRVRFIiwidG90YWxfYW1vdW50IjoiMTI5Ljk4IiwidHJhbnNhY3Rpb25fdXVpZCI6IjNmMmI4YzFlLTZkNGEtNGM1OS05YjdlLTBhMWQyZTNmNGE1YiIsInByb2R1Y3RfY29kZSI6IkVQQVlURVNUIiwic2lnbmVkX2ZpZWxkX25hbWVzIjoidHJhbnNhY3Rpb25fY29kZSxzdGF0dXMsdG90YWxfYW1vdW50LHRyYW5zYWN0aW9uX3V1aWQscHJvZHVjdF9jb2RlLHNpZ25lZF9maWVsZF9uYW1lcyIsInNpZ25hdHVyZSI6Ilk3WmxzQ2t3ZGJhRU5uQXduVHVveDBJZHZ6dzJ5M2ROK2M3ZWhuMThuWlk9In0=".
Definition paid : gmap string string := {[ "data" := paid_data ]}.

(** The same with the first character of the signature changed. *)
Definition tampered_payload : gmap string pyval :=
  payload "COMPLETE" uuid "A7ZlsCkwdbaENnAwnTuox0Idvzw2y3dN+c7ehn18nZY=".
Definition tampered_data : string :=
  "eyJ0cmFuc2FjdGlvbl9jb2RlIjoiMDAwQVdFTyIsInN0YXR1cyI6IkNPTVBMRVRFIiwidG90YWxfYW1vdW50IjoiMTI5Ljk4IiwidHJhbnNhY3Rpb25fdXVpZCI6IjNmMmI4YzFlLTZkNGEtNGM1OS05YjdlLTBhMWQyZTNmNGE1YiIsInByb2R1Y3RfY29kZSI6IkVQQVlURVNUIiwic2lnbmVkX2ZpZWxkX25hbWVzIjoidHJhbnNhY3Rpb25fY29kZSxzdGF0dXMsdG90YWxfYW1vdW50LHRyYW5zYWN0aW9uX3V1aWQscHJvZHVjdF9jb2RlLHNpZ25lZF9maWVsZF9uYW1lcyIsInNpZ25hdHVyZSI6IkE3WmxzQ2t3ZGJhRU5uQXduVHVveDBJZHZ6dzJ5M2ROK2M3ZWhuMThuWlk9In0=".
Definition tampered : gmap string string := {[ "data" := tampered_data ]}.

(** A correctly signed callback whose status is PENDING. *)
Definition pending_payload : gmap string pyval :=
  payload "PENDING" uuid "NMKT6u+LB1kxqr1Bn07aHOQ/ElG4jZ37iF01NoPgAw8=".
Definition pending_data : string :=
  "eyJ0cmFuc2FjdGlvbl9jb2RlIjoiMDAwQVdFTyIsInN0YXR1cyI6IlBFTkRJTkciLCJ0b3RhbF9hbW91bnQiOiIxMjkuOTgiLCJ0cmFuc2FjdGlvbl91dWlkIjoiM2YyYjhjMWUtNmQ0YS00YzU5LTliN2UtMGExZDJlM2Y0YTViIiwicHJvZHVjdF9jb2RlIjoiRVBBWVRFU1QiLCJzaWduZWRfZmllbGRfbmFtZXMiOiJ0cmFuc2FjdGlvbl9jb2RlLHN0YXR1cyx0b3RhbF9hbW91bnQsdHJhbnNhY3Rpb25fdXVpZCxwcm9kdWN0X2NvZGUsc2lnbmVkX2ZpZWxkX25hbWVzIiwic2lnbmF0dXJlIjoiTk1LVDZ1K0xCMWt4cXIxQm4wN2FIT1EvRWxHNGpaMzdpRjAxTm9QZ0F3OD0ifQ==".
Definition pending : gmap string string := {[ "data" := pending_data ]}.

(** A correctly signed COMPLETE callback for a transaction id that no
    order has. *)
Definition stray_uuid : string := "00000000-0000-4000-8000-000000000000".
Definition stray_payload : gmap string pyval :=
  payload "COMPLETE" stray_uuid "QdM8oN2iSqb64s7wO/mM2RcriVJLmwgVsW+I+LayJHY=".
Definition stray_data : string :=
  "eyJ0cmFuc2FjdGlvbl9jb2RlIjoiMDAwQVdFTyIsInN0YXR1cyI6IkNPTVBMRVRFIiwidG90YWxfYW1vdW50IjoiMTI5Ljk4IiwidHJhbnNhY3Rpb25fdXVpZCI6IjAwMDAwMDAwLTAwMDAtNDAwMC04MDAwLTAwMDAwMDAwMDAwMCIsInByb2R1Y3RfY29kZSI6IkVQQVlURVNUIiwic2lnbmVkX2ZpZWxkX25hbWVzIjoidHJhbnNhY3Rpb25fY29kZSxzdGF0dXMsdG90YWxfYW1vdW50LHRyYW5zYWN0aW9uX3V1aWQscHJvZHVjdF9jb2RlLHNpZ25lZF9maWVsZF9uYW1lcyIsInNpZ25hdHVyZSI6IlFkTThvTjJpU3FiNjRzN3dPL21NMlJjcmlWSkxtd2dWc1crSStMYXlKSFk9In0=".
Definition stray : gmap string string := {[ "data" := stray_data ]}.

(** The order as stored. *)
Definition order : Order.row :=
  Order.mk 1 uuid "Asha Rai" "asha@example.com" "9800000000" "Kathmandu"
    119.98 5 2 3 129.98 "INITIATED" "2024-05-01 10:00:00".

(** A later order by someone else. *)
Definition later : database :=
  (api_create_order
     (OrderRequest "Bina Thapa" "bina@example.com" "9811111111" "Pokhara"
        [ {[ "productId" := 4%Z ]} ] 0 0 1)
     "9a8b7c6d-5e4f-4a3b-8c2d-1e0f9a8b7c6d" "2024-05-02 09:30:00" ordered).2.

(** The events that place the order and deliver its callback. *)
Definition events : list event :=
  [ Request (ApiCreateOrder request uuid "2024-05-01 10:00:00");
    Request (EsewaCallback paid) ].

(** A correctly signed COMPLETE callback whose transaction id is the
    JSON number 2^70. *)
Definition bignum_payload : gmap string pyval :=
  <["transaction_uuid" := PyInt (2 ^ 70)]>
    (payload "COMPLETE" "" "Xc4Pp35jfXH78mn2heX+fiE0vIjXBKTVp3fEY2Zokmo=").
Definition bignum_data : string :=
  "eyJ0cmFuc2FjdGlvbl9jb2RlIjoiMDAwQVdFTyIsInN0YXR1cyI6IkNPTVBMRVRFIiwidG90YWxfYW1vdW50IjoiMTI5Ljk4IiwidHJhbnNhY3Rpb25fdXVpZCI6MTE4MDU5MTYyMDcxNzQxMTMwMzQyNCwicHJvZHVjdF9jb2RlIjoiRVBBWVRFU1QiLCJzaWduZWRfZmllbGRfbmFtZXMiOiJ0cmFuc2FjdGlvbl9jb2RlLHN0YXR1cyx0b3RhbF9hbW91bnQsdHJhbnNhY3Rpb25fdXVpZCxwcm9kdWN0X2NvZGUsc2lnbmVkX2ZpZWxkX25hbWVzIiwic2lnbmF0dXJlIjoiWGM0UHAzNWpmWEg3OG1uMmhlWCtmaUUwdklqWEJLVFZwM2ZFWTJab2ttbz0ifQ==".
Definition bignum : gmap string string := {[ "data" := bignum_data ]}.

(** The order placed with an infinite tax amount (the JSON number 1e999). *)
Definition unbounded_events : list event :=
  [ Request (ApiCreateOrder
               (OrderRequest "Asha Rai" "asha@example.com" "9800000000" "Kathmandu"
                  two_aviators infinity 2 3)
               uuid "2024-05-01 10:00:00") ].

(** Fifty-one pairs of product 1, and a tax with three decimals. *)
Definition many_aviators : list cart_item :=
  [ {[ "productId" := 1%Z; "quantity" := 51%Z ]} ].




End Example.

(** ** Further sample data

    The first seed product, the item row of the sample order, the
    seeded catalogue with its four products deleted, and the admin
    request that deletes a product. *)

Module Scenario.

Definition aviator : Product.row :=
  Product.mk 1 "Classic Aviator Sunglasses"
    "Timeless aviator frames with UV400 protection and mirrored lenses."
    59.99 "/static/images/aviator.png".

Definition item : OrderItem.row := OrderItem.mk 1 1 1 2 59.99.

Definition emptied : database :=
  foldl (λ d i, (delete_product i d).2) Example.seeded [1; 2; 3; 4]%Z.

Definition delete (i : Z) : event := Request (AdminProducts None (Some i)).

Definition now : string := "2024-05-01 10:00:00".

End Scenario.

(** ** Properties *)

(** *** The status update *)

Section status_update.
Context `{Library}.

Lemma uuid_matches_set_status key s o :
  uuid_matches key (Order.set_status s o) = uuid_matches key o.
Proof. by destruct key. Qed.

Lemma set_status_twice s o :
  Order.set_status s (Order.set_status s o) = Order.set_status s o.
Proof. done. Qed.

Lemma set_status_same s o : same_but_status o (Order.set_status s o).
Proof. unfold same_but_status. by destruct o. Qed.

Lemma same_but_status_refl o : same_but_status o o.
Proof. by unfold same_but_status. Qed.

(** A row is fixed by its status and its other columns. *)
Lemma same_but_status_eq s o o' :
  Order.status o' = s → same_but_status o o' → o' = Order.set_status s o.
Proof.
  destruct o'. unfold same_but_status, Order.set_status. simpl.
  intros <- (-> & -> & -> & -> & -> & -> & -> & -> & -> & -> & -> & ->). done.
Qed.

(** The table after an update, row by row. *)
Lemma update_rows (f : Order.row → bool) status os i o :
  os !! i = Some o →
  ∃ o', map (λ o, if f o then Order.set_status status o else o) os !! i = Some o'
        ∧ same_but_status o o'
        ∧ Order.status o' = if f o then status else Order.status o.
Proof.
  intros Hi. rewrite list_lookup_fmap, Hi. simpl. eexists. split; [done|].
  destruct (f o); [|by split; [apply same_but_status_refl|]].
  split; [apply set_status_same|done].
Qed.

(** What [update_order_status] does, in one equation. *)
Lemma update_order_status_eq transaction_uuid status d :
  update_order_status transaction_uuid status d =
    match Sqlite.bind_param transaction_uuid with
    | Raise e => (Raise e, d)
    | Ok key =>
        (Ok (), with_orders
                  (map (λ o, if uuid_matches key o
                             then Order.set_status status o else o) (orders d))
                  (orders_seq d) d)
    end.
Proof. unfold update_order_status. by destruct (Sqlite.bind_param _). Qed.

Lemma with_orders_same d : with_orders (orders d) (orders_seq d) d = d.
Proof. by destruct d. Qed.

Lemma update_no_match key status os :
  Forall (λ o, uuid_matches key o = false) os →
  map (λ o, if uuid_matches key o then Order.set_status status o else o) os = os.
Proof.
  induction 1 as [|o os Ho _ IH]; simpl; [done|].
  by rewrite Ho, IH.
Qed.

Lemma update_twice key status os :
  let f := λ o, if uuid_matches key o then Order.set_status status o else o in
  map f (map f os) = map f os.
Proof.
  intros f. rewrite map_map. apply map_ext. intros o. unfold f.
  destruct (uuid_matches key o) eqn:Hm; [|by rewrite Hm].
  by rewrite uuid_matches_set_status, Hm.
Qed.

End status_update.

(** C7. The status update is idempotent: a second [update_order_status]
    with the same transaction id and status returns the same and leaves
    the file as the first left it; so does a second delivery of the same
    callback, and a second admin confirmation. *)
Theorem update_order_status_idempotent `{Config} `{Library}
    (transaction_uuid : pyval) (status : string)
    (query_params : gmap string string) (uuid : string) (d : database) :
  update_order_status transaction_uuid status
      (update_order_status transaction_uuid status d).2
    = update_order_status transaction_uuid status d
  ∧ esewa_callback query_params (esewa_callback query_params d).2
    = esewa_callback query_params d
  ∧ admin_confirm_order uuid (admin_confirm_order uuid d).2
    = admin_confirm_order uuid d.
Proof.
  assert (Hupd : ∀ u s d0, update_order_status u s (update_order_status u s d0).2
                           = update_order_status u s d0).
  { intros u s d0. rewrite !update_order_status_eq.
    destruct (Sqlite.bind_param u) as [key|e]; [|done]. simpl.
    by rewrite update_twice. }
  split_and!.
  - apply Hupd.
  - unfold esewa_callback. case_bool_decide; [done|].
    destruct (query_params !! "data") as [[|c data]|]; [done| |done].
    unfold esewa_callback_try.
    destruct (_ ≫= _) as [[| | | | | |payload]|e]; try done.
    destruct (_ && _); [|done].
    specialize (Hupd (get payload "transaction_uuid") "COMPLETED" d).
    destruct (update_order_status _ _ d) as [[[]|e] d']; cbn [snd] in *; by rewrite Hupd.
  - unfold admin_confirm_order.
    specialize (Hupd (PyStr uuid) "COMPLETED" d).
    destruct (update_order_status _ _ d) as [[[]|e] d']; cbn [snd] in *; by rewrite Hupd.
Qed.

(** *** The payment callback *)

Section callback_facts.
Context `{Config} `{Library}.

Lemma str_eq_true x y : str_eq x y = true ↔ y = PyStr x.
Proof.
  destruct y; simpl; try (split; [done|discriminate]).
  rewrite bool_decide_eq_true. split; congruence.
Qed.

Lemma str_eq_false x y : str_eq x y = false ↔ y ≠ PyStr x.
Proof. rewrite <- str_eq_true. by destruct (str_eq x y). Qed.

(** The callback once its parameter is decoded to an object. *)
Lemma esewa_callback_decoded query_params encoded_data payload d :
  query_params !! "status" ≠ Some "fail" →
  query_params !! "data" = Some encoded_data →
  encoded_data ≠ "" →
  decoded encoded_data = Ok (PyDict payload) →
  esewa_callback query_params d =
    if str_eq (computed_sig payload) (get payload "signature")
       && str_eq "COMPLETE" (get payload "status")
    then
      match Sqlite.bind_param (get payload "transaction_uuid") with
      | Ok key =>
          (success_page, with_orders (mark_completed key (orders d)) (orders_seq d) d)
      | Raise _ => (failure_page, d)
      end
    else (failure_page, d).
Proof.
  intros Hflag Hdata Hne Hdec. unfold esewa_callback.
  rewrite bool_decide_eq_false_2 by done. rewrite Hdata.
  destruct encoded_data as [|c s]; [done|].
  unfold esewa_callback_try. unfold decoded in Hdec. rewrite Hdec.
  fold (computed_sig payload).
  destruct (_ && _); [|done].
  rewrite update_order_status_eq.
  by destruct (Sqlite.bind_param _).
Qed.

(** A callback that is not answered with the success page leaves the
    file alone. *)
Lemma esewa_callback_cases query_params d :
  esewa_callback query_params d = (failure_page, d)
  ∨ (esewa_callback query_params d).1 = success_page.
Proof.
  unfold esewa_callback. case_bool_decide; [by left|].
  destruct (query_params !! "data") as [[|c data]|]; [by left| |by left].
  unfold esewa_callback_try.
  destruct (_ ≫= _) as [[| | | | | |payload]|e]; try by left.
  destruct (_ && _); [|by left].
  rewrite update_order_status_eq.
  destruct (Sqlite.bind_param _); [by right|by left].
Qed.

(** The two outcomes of a callback, with what the success rests on. *)
Lemma esewa_callback_outcome query_params d :
  esewa_callback query_params d = (failure_page, d)
  ∨ ∃ encoded_data payload key,
      query_params !! "data" = Some encoded_data
      ∧ decoded encoded_data = Ok (PyDict payload)
      ∧ get payload "signature" = PyStr (computed_sig payload)
      ∧ get payload "status" = PyStr "COMPLETE"
      ∧ Sqlite.bind_param (get payload "transaction_uuid") = Ok key
      ∧ esewa_callback query_params d =
          (success_page,
           with_orders (mark_completed key (orders d)) (orders_seq d) d).
Proof.
  destruct (decide (query_params !! "status" = Some "fail")) as [Hflag|Hflag].
  { left. unfold esewa_callback. by rewrite bool_decide_eq_true_2. }
  destruct (query_params !! "data") as [encoded_data|] eqn:Hdata; cycle 1.
  { left. unfold esewa_callback. rewrite bool_decide_eq_false_2 by done.
    by rewrite Hdata. }
  destruct (decide (encoded_data = "")) as [->|Hne].
  { left. unfold esewa_callback. rewrite bool_decide_eq_false_2 by done.
    by rewrite Hdata. }
  destruct (decoded encoded_data) as [v|e] eqn:Hdec; cycle 1.
  { left. unfold esewa_callback. rewrite bool_decide_eq_false_2 by done.
    rewrite Hdata. destruct encoded_data as [|c s]; [done|].
    unfold esewa_callback_try. unfold decoded in Hdec. by rewrite Hdec. }
  assert (Hother : (∀ payload, v ≠ PyDict payload) →
                   esewa_callback query_params d = (failure_page, d)).
  { intros Hobj. unfold esewa_callback. rewrite bool_decide_eq_false_2 by done.
    rewrite Hdata. destruct encoded_data as [|c s]; [done|].
    unfold esewa_callback_try. unfold decoded in Hdec. rewrite Hdec.
    destruct v as [| | | | | |payload]; try done. by destruct (Hobj payload). }
  destruct v as [| | | | | |payload]; try (left; by apply Hother).
  rewrite (esewa_callback_decoded _ _ payload) by done.
  destruct (str_eq (computed_sig payload) _) eqn:Hsig; [|by left].
  destruct (str_eq "COMPLETE" _) eqn:Hst; [|by left]. simpl.
  destruct (Sqlite.bind_param _) as [key|e] eqn:Hkey; [|by left].
  right. exists encoded_data, payload, key.
  apply str_eq_true in Hsig, Hst. done.
Qed.

End callback_facts.

(** C1. When the [data] parameter decodes to a JSON value, the callback
    either answers with the failure page and leaves the file as it was,
    or answers with the success page; the latter only for an object whose
    signature equals the one computed over the reconstructed string and
    whose status is the string COMPLETE.  In the file it then leaves,
    every order whose transaction id the payload names has status
    COMPLETED, its other columns as before; every other order, the
    products, the item rows and the counters are as they were. *)
Theorem esewa_callback_verified `{Config} `{Library}
    (query_params : gmap string string) (d : database)
    (encoded_data : string) (v : pyval) :
  query_params !! "data" = Some encoded_data →
  decoded encoded_data = Ok v →
  esewa_callback query_params d = (failure_page, d)
  ∨ ∃ payload key d',
      v = PyDict payload
      ∧ get payload "signature" = PyStr (computed_sig payload)
      ∧ get payload "status" = PyStr "COMPLETE"
      ∧ Sqlite.bind_param (get payload "transaction_uuid") = Ok key
      ∧ esewa_callback query_params d = (success_page, d')
      ∧ d' = with_orders (mark_completed key (orders d)) (orders_seq d) d
      ∧ length (orders d') = length (orders d)
      ∧ (∀ i o, orders d !! i = Some o →
           ∃ o', orders d' !! i = Some o'
                 ∧ same_but_status o o'
                 ∧ Order.status o'
                   = if uuid_matches key o then "COMPLETED" else Order.status o)
      ∧ (∀ u o', get payload "transaction_uuid" = PyStr u →
           o' ∈ orders d' → Order.transaction_uuid o' = u →
           Order.status o' = "COMPLETED")
      ∧ products d' = products d ∧ products_seq d' = products_seq d
      ∧ orders_seq d' = orders_seq d
      ∧ order_items d' = order_items d
      ∧ order_items_seq d' = order_items_seq d.
Proof.
  intros Hdata Hdec.
  destruct (esewa_callback_outcome query_params d)
    as [Hfail|(data & payload & key & Hdata' & Hdec' & Hsig & Hst & Hkey & Hok)];
    [by left|].
  right. rewrite Hdata in Hdata'. injection Hdata' as <-.
  rewrite Hdec in Hdec'. injection Hdec' as ->.
  exists payload, key, (with_orders (mark_completed key (orders d)) (orders_seq d) d).
  assert (Hrows : ∀ i o, orders d !! i = Some o →
            ∃ o', mark_completed key (orders d) !! i = Some o'
                  ∧ same_but_status o o'
                  ∧ Order.status o'
                    = if uuid_matches key o then "COMPLETED" else Order.status o).
  { intros i o Hi. by apply update_rows. }
  split_and!; try done.
  - simpl. unfold mark_completed. by rewrite length_map.
  - intros u o' Hu Ho' Huuid. simpl in Ho'.
    apply list_elem_of_lookup in Ho' as [i Hi].
    destruct (orders d !! i) as [o|] eqn:Hoi; cycle 1.
    { apply lookup_ge_None in Hoi. apply lookup_lt_Some in Hi.
      unfold mark_completed in Hi. rewrite length_map in Hi. lia. }
    destruct (Hrows i o Hoi) as (o'' & Hi' & Hsame & Hstatus).
    assert (o'' = o') as -> by congruence.
    rewrite Hu in Hkey. injection Hkey as <-.
    destruct Hsame as (_ & Htx & _). simpl in Hstatus.
    rewrite bool_decide_eq_true_2 in Hstatus by congruence. done.
Qed.

(** C2. A callback without [data], with [data] that does not decode
    to JSON, with a signature other than the one computed over the
    payload, or with a status other than COMPLETE is answered with the
    failure page, and the file is as before. *)
Theorem esewa_callback_rejected `{Config} `{Library}
    (query_params : gmap string string) (d : database) :
  rejected query_params →
  esewa_callback query_params d = (failure_page, d).
Proof.
  intros Hrej.
  destruct (decide (query_params !! "status" = Some "fail")) as [Hflag|Hflag].
  { unfold esewa_callback. by rewrite bool_decide_eq_true_2. }
  assert (Hempty : query_params !! "data" = Some "" →
                   esewa_callback query_params d = (failure_page, d)).
  { intros Hdata. unfold esewa_callback.
    rewrite bool_decide_eq_false_2 by done. by rewrite Hdata. }
  inversion Hrej as [Hdata|data e Hdata Hdec|data payload Hdata Hdec Hsig
                    |data payload Hdata Hdec Hst].
  - unfold esewa_callback. rewrite bool_decide_eq_false_2 by done.
    by rewrite Hdata.
  - destruct (decide (data = "")) as [->|Hne]; [by apply Hempty|].
    unfold esewa_callback. rewrite bool_decide_eq_false_2 by done.
    rewrite Hdata. destruct data as [|c s]; [done|].
    unfold esewa_callback_try. unfold decoded in Hdec. by rewrite Hdec.
  - destruct (decide (data = "")) as [->|Hne]; [by apply Hempty|].
    rewrite (esewa_callback_decoded _ _ payload) by done.
    apply str_eq_false in Hsig. by rewrite Hsig.
  - destruct (decide (data = "")) as [->|Hne]; [by apply Hempty|].
    rewrite (esewa_callback_decoded _ _ payload) by done.
    apply str_eq_false in Hst. rewrite Hst. by rewrite andb_false_r.
Qed.

(** C10 as amended. A callback without the failure flag whose payload
    carries the computed signature and the status COMPLETE, and whose
    transaction id is a value SQLite binds as a parameter that equals the
    id of no stored order, is answered with the success page while the
    file stays as it was. *)
Theorem esewa_callback_unknown_order `{Config} `{Library}
    (query_params : gmap string string) (d : database)
    (encoded_data : string) (payload : gmap string pyval) (key : Sqlite.value) :
  query_params !! "status" ≠ Some "fail" →
  query_params !! "data" = Some encoded_data →
  encoded_data ≠ "" →
  decoded encoded_data = Ok (PyDict payload) →
  get payload "signature" = PyStr (computed_sig payload) →
  get payload "status" = PyStr "COMPLETE" →
  Sqlite.bind_param (get payload "transaction_uuid") = Ok key →
  Forall (λ o, uuid_matches key o = false) (orders d) →
  esewa_callback query_params d = (success_page, d).
Proof.
  intros Hflag Hdata Hne Hdec Hsig Hst Hkey Hnone.
  rewrite (esewa_callback_decoded _ _ payload) by done.
  apply str_eq_true in Hsig, Hst. rewrite Hsig, Hst, Hkey. simpl.
  unfold mark_completed. rewrite update_no_match by done.
  by rewrite with_orders_same.
Qed.

(** *** The payment request *)

Section amounts.

Lemma string_of_uint_digits u :
  all_digits (NilEmpty.string_of_uint u) = true.
Proof. induction u; simpl; by rewrite ?IHu. Qed.

Lemma str_of_int_digits (z : Z) :
  (0 ≤ z)%Z → all_digits (str_of_int z) = true ∧ str_of_int z ≠ "".
Proof.
  intros Hz. unfold str_of_int. destruct z as [|p|p]; [done| |lia].
  simpl. unfold NilZero.string_of_uint.
  destruct (Pos.to_uint p) eqn:Hu; try (split; [|done]);
    try (rewrite <- Hu; apply string_of_uint_digits); done.
Qed.

Lemma digit_is_digit (k : Z) : (0 ≤ k < 10)%Z → is_digit (Float.digit k) = true.
Proof.
  intros Hk. unfold Float.digit, is_digit.
  assert (Hn : (Z.to_nat k < 10)%nat) by lia.
  rewrite nat_ascii_embedding by lia.
  apply andb_true_intro; split; apply Nat.leb_le; lia.
Qed.

Lemma div_half_even_nonneg a b : (0 ≤ a)%Z → (0 < b)%Z → (0 ≤ Float.div_half_even a b)%Z.
Proof.
  intros Ha Hb. unfold Float.div_half_even.
  assert (0 ≤ a / b)%Z by (apply Z.div_pos; lia).
  destruct (_ ?= _)%Z; [destruct (Z.even _)| |]; lia.
Qed.

Lemma hundredths_nonneg m e : (0 ≤ Float.hundredths m e)%Z.
Proof.
  unfold Float.hundredths. destruct (0 <=? e)%Z eqn:He.
  - apply Z.leb_le in He. assert (0 < 2 ^ e)%Z by (apply Z.pow_pos_nonneg; lia). lia.
  - apply Z.leb_gt in He. apply div_half_even_nonneg; [lia|].
    apply Z.pow_pos_nonneg; lia.
Qed.

Lemma fixed2_two_decimals (sign : string) (n : Z) :
  (0 ≤ n)%Z → sign = "" ∨ sign = "-" →
  two_decimals (sign +:+ Float.fixed2 n).
Proof.
  intros Hn Hsign. unfold Float.fixed2.
  exists sign, (str_of_int (n / 100)),
    (Float.digit (n mod 100 / 10)), (Float.digit (n mod 10)).
  destruct (str_of_int_digits (n / 100)) as [Hd Hne]; [apply Z.div_pos; lia|].
  split_and!; try done.
  - apply digit_is_digit.
    assert (0 ≤ n mod 100 < 100)%Z by (apply Z.mod_pos_bound; lia).
    split; [apply Z.div_pos; lia|apply Z.div_lt_upper_bound; lia].
  - apply digit_is_digit. apply Z.mod_pos_bound; lia.
Qed.

(** A finite amount is printed with exactly two decimal places. *)
Lemma format_2f_two_decimals (x : float) :
  is_finite x = true → two_decimals (Float.format_2f x).
Proof.
  unfold is_finite. intros Hfin.
  apply negb_true_iff, orb_false_iff in Hfin as [Hnan Hinf].
  unfold Float.format_2f, Prim2SF. rewrite Hnan, Hinf.
  destruct (is_zero x).
  - destruct (get_sign x).
    + apply (fixed2_two_decimals "-" 0); [done|by right].
    + apply (fixed2_two_decimals "" 0); [done|by left].
  - destruct (Z.frexp x) as [r e].
    destruct (shr_fexp _ _ _ _ _) as [shr e'].
    destruct (shr_m shr) as [|m|m].
    + apply (fixed2_two_decimals "" 0); [done|by left].
    + apply fixed2_two_decimals; [apply hundredths_nonneg|].
      destruct (get_sign x); auto.
    + apply (fixed2_two_decimals "" 0); [done|by left].
Qed.

Lemma inf_not_two_decimals : ¬ two_decimals "inf".
Proof.
  intros (sign & whole & d1 & d2 & Heq & Hsign & Hne & _).
  destruct Hsign as [-> | ->]; [|discriminate].
  destruct whole as [|a [|b [|c whole]]]; try done; simpl in Heq; try discriminate.
  injection Heq as _ _ _ Heq. by destruct whole.
Qed.

End amounts.

Section payment_facts.
Context `{Config} `{Library}.

Lemma form_data_signature order :
  form_data order !! "signature" =
    Some (PyStr (generate_signature (Float.format_2f (Order.total_amount order))
                   (Order.transaction_uuid order))).
Proof. unfold form_data. simpl. by simplify_map_eq. Qed.

Lemma api_initiate_payment_found (order_id : Z) order d :
  order_id ≠ 0%Z → int64 order_id → select_order d order_id = Some order →
  api_initiate_payment (Some order_id) d =
    (JSONResponse
       (PyDict (list_to_map [ ("formData", PyDict (form_data order));
                              ("gatewayUrl", PyStr ESEWA_FORM_URL) ])), d).
Proof.
  intros Hnz Hrange Hsel. unfold api_initiate_payment, get_order_by_id.
  destruct order_id as [|p|p]; [done| |];
    unfold Sqlite.integer; rewrite bool_decide_eq_true_2 by done; simpl;
    by rewrite Hsel.
Qed.

Lemma api_initiate_payment_reads order_id d :
  (api_initiate_payment order_id d).2 = d.
Proof.
  unfold api_initiate_payment.
  destruct order_id as [[|p|p]|]; try done;
    by destruct (get_order_by_id _ d) as [[o|]|e].
Qed.

Lemma form_data_total_amount order :
  form_data order !! "total_amount" =
    Some (PyStr (Float.format_2f (Order.total_amount order))).
Proof. unfold form_data. simpl. by simplify_map_eq. Qed.

End payment_facts.

(** X17. The request built for a stored order carries as signature
    the base64 encoding of the HMAC-SHA256, under the configured secret,
    of the string
    total_amount=<total>,transaction_uuid=<uuid>,product_code=<code>,
    in which the total is written by the two-decimal format, and the same
    text as its total_amount field; when the total is finite it is
    written with exactly two decimal places. *)
Theorem payment_request_signature `{Config} `{Library}
    (d : database) (order_id : Z) (order : Order.row) :
  order_id ≠ 0%Z → int64 order_id → select_order d order_id = Some order →
  ∃ fields,
    api_initiate_payment (Some order_id) d =
      (JSONResponse
         (PyDict (list_to_map [ ("formData", PyDict fields);
                                ("gatewayUrl", PyStr ESEWA_FORM_URL) ])), d)
    ∧ fields !! "signature" =
        Some (PyStr (b64encode (hmac_sha256 ESEWA_SECRET_KEY
          ("total_amount=" +:+ Float.format_2f (Order.total_amount order)
             +:+ ",transaction_uuid=" +:+ Order.transaction_uuid order
             +:+ ",product_code=" +:+ ESEWA_PRODUCT_CODE))))
    ∧ fields !! "total_amount" =
        Some (PyStr (Float.format_2f (Order.total_amount order)))
    ∧ (is_finite (Order.total_amount order) = true →
       two_decimals (Float.format_2f (Order.total_amount order))).
Proof.
  intros Hnz Hrange Hsel. exists (form_data order). split_and!.
  - by apply api_initiate_payment_found.
  - apply form_data_signature.
  - apply form_data_total_amount.
  - apply format_2f_two_decimals.
Qed.

(** C8. Building the payment request reads the file and leaves it as
    it is; two calls that find the same order row answer alike, and the
    signature is the same whenever the total and the transaction id are. *)
Theorem payment_request_deterministic `{Config} `{Library}
    (order_id : Z) (d d' : database) (order order' : Order.row) :
  select_order d order_id = Some order →
  select_order d' order_id = Some order' →
  Order.total_amount order = Order.total_amount order' →
  Order.transaction_uuid order = Order.transaction_uuid order' →
  (api_initiate_payment (Some order_id) d).2 = d
  ∧ (api_initiate_payment (Some order_id) d').2 = d'
  ∧ form_data order !! "signature" = form_data order' !! "signature"
  ∧ (order = order' →
     (api_initiate_payment (Some order_id) d).1
       = (api_initiate_payment (Some order_id) d').1).
Proof.
  intros Hsel Hsel' Htotal Huuid. split_and!.
  - apply api_initiate_payment_reads.
  - apply api_initiate_payment_reads.
  - by rewrite !form_data_signature, Htotal, Huuid.
  - intros <-. unfold api_initiate_payment, get_order_by_id.
    destruct order_id as [|p|p]; [done| |];
      unfold Sqlite.integer; case_bool_decide; simpl; try done;
      by rewrite Hsel, Hsel'.
Qed.

(** *** Order creation *)

Section create_order_facts.

Lemma integer_ok z : int64 z → Sqlite.integer z = Ok z.
Proof. intros Hz. unfold Sqlite.integer. by rewrite bool_decide_eq_true_2. Qed.

Lemma integer_inv z i : Sqlite.integer z = Ok i → i = z ∧ int64 z.
Proof.
  unfold Sqlite.integer. case_bool_decide; [|done]. by intros [= <-].
Qed.

Lemma of_int_ok z : int64 z → Float.of_int z = Ok (Float.nearest z).
Proof.
  intros [Hlo Hhi]. unfold Float.of_int.
  assert (Hlt : (Z.abs z <? 2 ^ 1024 - 2 ^ 970)%Z = true); [|by rewrite Hlt].
  apply Z.ltb_lt.
  assert (2 ^ 63 < 2 ^ 1024 - 2 ^ 970)%Z by done. lia.
Qed.

Lemma of_int_inv z x : Float.of_int z = Ok x → x = Float.nearest z.
Proof. unfold Float.of_int. destruct (_ <? _)%Z; [|done]. by intros [= <-]. Qed.

Lemma mul_int_ok x z : int64 z → Float.mul_int x z = Ok (x * Float.nearest z)%float.
Proof. intros Hz. unfold Float.mul_int. by rewrite of_int_ok. Qed.


Lemma mul_int_inv x z y : Float.mul_int x z = Ok y → y = (x * Float.nearest z)%float.
Proof.
  unfold Float.mul_int. destruct (Float.of_int z) as [q|e] eqn:Hq; [|done].
  apply of_int_inv in Hq as ->. by intros [= <-].
Qed.

Lemma real_not_null_ok x :
  is_nan x = false → ∃ y, Sqlite.real_not_null x = Ok y ∧ (x =? y)%float = true.
Proof.
  intros Hnan. unfold Sqlite.real_not_null. rewrite Hnan.
  destruct (is_zero x) eqn:Hz; eexists; (split; [done|]); [done|].
  unfold is_nan in Hnan. by apply negb_false_iff in Hnan.
Qed.

Lemma real_not_null_inv x y :
  Sqlite.real_not_null x = Ok y → (x =? y)%float = true.
Proof.
  unfold Sqlite.real_not_null. destruct (is_nan x) eqn:Hnan; [done|].
  destruct (is_zero x) eqn:Hz; intros [= <-]; [done|].
  unfold is_nan in Hnan. by apply negb_false_iff in Hnan.
Qed.

Lemma select_price_known d item pid p :
  item !! "productId" = Some pid → int64 pid → select_product d pid = Some p →
  select_price d (item !! "productId") = Ok (Some (Product.price p))
  ∧ unit_price d item = Product.price p.
Proof.
  intros Hpid Hrange Hsel. unfold select_price, unit_price.
  rewrite Hpid, integer_ok by done. simpl. by rewrite Hsel.
Qed.

Lemma select_price_inv d item price :
  select_price d (item !! "productId") = Ok (Some price) →
  unit_price d item = price ∧ ∃ pid, item !! "productId" = Some pid ∧ int64 pid.
Proof.
  unfold select_price, unit_price.
  destruct (item !! "productId") as [pid|]; [|done].
  destruct (Sqlite.integer pid) as [i|e] eqn:Hi; [|done].
  apply integer_inv in Hi as [-> Hrange]. simpl.
  destruct (select_product d pid) as [p|]; [|done].
  intros [= <-]. eauto.
Qed.

(** The loop computes the left-to-right sum. *)
Lemma subtotal_inv d cart amount s :
  subtotal d cart amount = Ok s → s = sum_from d cart amount.
Proof.
  revert amount. induction cart as [|item cart IH]; intros amount; simpl.
  { by intros [= <-]. }
  destruct (select_price d _) as [[price|]|e] eqn:Hprice; try done. simpl.
  apply select_price_inv in Hprice as [<- _].
  destruct (Float.mul_int _ _) as [p|e] eqn:Hp; [|done]. simpl.
  apply mul_int_inv in Hp as ->. apply IH.
Qed.

Lemma subtotal_ok d cart amount :
  Forall (known d) cart → Forall in_range cart →
  subtotal d cart amount = Ok (sum_from d cart amount).
Proof.
  intros Hknown Hrange. revert amount.
  induction cart as [|item cart IH]; intros amount; simpl; [done|].
  apply Forall_cons in Hknown as [(pid & p & Hpid & Hsel) Hknown].
  apply Forall_cons in Hrange as [[Hpr Hqr] Hrange].
  destruct (select_price_known d item pid p) as [-> ->]; auto. simpl.
  rewrite mul_int_ok by done. simpl. by apply IH.
Qed.




(** [create_order] without the connection bookkeeping. *)
Lemma create_order_eq customer_name customer_email customer_phone customer_address
    cart tax_amount service_charge delivery_charge uuid4 now d :
  create_order customer_name customer_email customer_phone customer_address cart
      tax_amount service_charge delivery_charge uuid4 now d =
    match subtotal d cart 0%float with
    | Raise e => (Raise e, d)
    | Ok amount =>
        match insert_order uuid4 customer_name customer_email customer_phone
                customer_address (Float.round2 amount) tax_amount service_charge
                delivery_charge
                (Float.round2 (Float.round2 amount + tax_amount + service_charge
                               + delivery_charge))
                "INITIATED" now d with
        | Raise e => (Raise e, d)
        | Ok (order_id, d1) =>
            match insert_items order_id cart d1 with
            | Raise e => (Raise e, d)
            | Ok d2 =>
                match select_order d2 order_id with
                | None => (Raise TypeError, d2)
                | Some order_row => (Ok order_row, d2)
                end
            end
        end
    end.
Proof.
  unfold create_order. simpl.
  destruct (subtotal d cart 0%float) as [amount|e]; [|done].
  destruct (insert_order _ _ _ _ _ _ _ _ _ _ _ _ d) as [[order_id d1]|e]; [|done].
  simpl. destruct (insert_items order_id cart d1) as [d2|e]; [|done].
  simpl. by destruct (select_order d2 order_id).
Qed.

(** An item row is appended; the other tables are left alone. *)
Lemma insert_order_item_inv order_id pid qty price d d' :
  insert_order_item order_id pid qty price d = Ok d' →
  products d' = products d ∧ orders d' = orders d ∧ orders_seq d' = orders_seq d
  ∧ ∃ row, order_items d' = order_items d ++ [row]
           ∧ OrderItem.order_id row = order_id
           ∧ Some (OrderItem.product_id row) = pid
           ∧ OrderItem.quantity row = qty.
Proof.
  unfold insert_order_item.
  destruct (Sqlite.integer order_id) as [oid|e] eqn:Ho; [|done]. simpl.
  apply integer_inv in Ho as [-> _].
  destruct pid as [pid|]; simpl.
  - destruct (Sqlite.integer pid) as [i|e] eqn:Hi; [|done]. simpl.
    apply integer_inv in Hi as [-> _].
    destruct (Sqlite.integer qty) as [q|e] eqn:Hq; [|done]. simpl.
    apply integer_inv in Hq as [-> _].
    destruct (Sqlite.real_not_null price) as [x|e]; [|done]. simpl.
    destruct (Sqlite.next_rowid _) as [id|e]; [|done]. simpl.
    intros [= <-]. split_and!; try done. by eexists.
  - destruct (Sqlite.integer qty) as [q|e]; done.
Qed.

Lemma insert_items_inv order_id cart d d' :
  insert_items order_id cart d = Ok d' →
  products d' = products d ∧ orders d' = orders d ∧ orders_seq d' = orders_seq d
  ∧ ∃ rows, order_items d' = order_items d ++ rows
            ∧ Forall (λ row, OrderItem.order_id row = order_id) rows
            ∧ OrderItem.quantity <$> rows = quantity_of <$> cart
            ∧ Some ∘ OrderItem.product_id <$> rows = (.!! "productId") <$> cart.
Proof.
  revert d. induction cart as [|item cart IH]; intros d; simpl.
  { intros [= <-]. split_and!; try done. exists []. by rewrite app_nil_r. }
  destruct (select_price d _) as [[price|]|e]; try done. simpl.
  destruct (insert_order_item _ _ _ _ d) as [d1|e] eqn:Hitem; [|done]. simpl.
  apply insert_order_item_inv in Hitem
    as (Hp & Ho & Hs & row & Hrows & Hoid & Hpid & Hqty).
  intros (Hp' & Ho' & Hs' & rows & Hrows' & Hoids & Hqtys & Hpids)%IH.
  split_and!; try congruence.
  exists (row :: rows). rewrite Hrows', Hrows, <- app_assoc. simpl.
  split_and!; [done|by constructor| |].
  - f_equal; [exact Hqty|exact Hqtys].
  - f_equal; [exact Hpid|exact Hpids].
Qed.

Lemma next_rowid_inv seq id : Sqlite.next_rowid seq = Ok id → id = (seq + 1)%Z.
Proof. unfold Sqlite.next_rowid. case_bool_decide; [|done]. by intros [= <-]. Qed.

(** An order row is appended under the next rowid; the amounts it
    stores equal the ones given. *)
Lemma insert_order_inv transaction_uuid customer_name customer_email customer_phone
    customer_address amount tax_amount service_charge delivery_charge total_amount
    status now d order_id d' :
  insert_order transaction_uuid customer_name customer_email customer_phone
    customer_address amount tax_amount service_charge delivery_charge total_amount
    status now d = Ok (order_id, d') →
  order_id = (orders_seq d + 1)%Z
  ∧ products d' = products d ∧ order_items d' = order_items d
  ∧ orders_seq d' = order_id
  ∧ ∃ row, orders d' = orders d ++ [row]
           ∧ Order.id row = order_id
           ∧ Order.transaction_uuid row = transaction_uuid
           ∧ (amount =? Order.amount row)%float = true
           ∧ (total_amount =? Order.total_amount row)%float = true
           ∧ Order.status row = status.
Proof.
  unfold insert_order.
  destruct (Sqlite.real_not_null amount) as [a|e] eqn:Ha; [|done]. simpl.
  destruct (Sqlite.real_not_null tax_amount) as [t|e]; [|done]. simpl.
  destruct (Sqlite.real_not_null service_charge) as [sc|e]; [|done]. simpl.
  destruct (Sqlite.real_not_null delivery_charge) as [dc|e]; [|done]. simpl.
  destruct (Sqlite.real_not_null total_amount) as [ta|e] eqn:Hta; [|done]. simpl.
  destruct (existsb _ _); [done|].
  destruct (Sqlite.next_rowid _) as [id|e] eqn:Hid; [|done]. simpl.
  apply next_rowid_inv in Hid as ->. intros [= <- <-].
  apply real_not_null_inv in Ha, Hta.
  split_and!; try done. eexists. by split_and!.
Qed.

Lemma insert_order_items_seq transaction_uuid customer_name customer_email
    customer_phone customer_address amount tax_amount service_charge delivery_charge
    total_amount status now d order_id d' :
  insert_order transaction_uuid customer_name customer_email customer_phone
    customer_address amount tax_amount service_charge delivery_charge total_amount
    status now d = Ok (order_id, d') →
  order_items_seq d' = order_items_seq d.
Proof.
  unfold insert_order.
  destruct (Sqlite.real_not_null amount); [|done]. simpl.
  destruct (Sqlite.real_not_null tax_amount); [|done]. simpl.
  destruct (Sqlite.real_not_null service_charge); [|done]. simpl.
  destruct (Sqlite.real_not_null delivery_charge); [|done]. simpl.
  destruct (Sqlite.real_not_null total_amount); [|done]. simpl.
  destruct (existsb _ _); [done|].
  destruct (Sqlite.next_rowid _); [|done]. simpl.
  by intros [= <- <-].
Qed.

Lemma find_app_last {A} (f : A → bool) (l : list A) (x : A) :
  Forall (λ y, f y = false) l → f x = true → find f (l ++ [x]) = Some x.
Proof.
  induction 1 as [|y l Hy _ IH]; intros Hx; simpl.
  - by rewrite Hx.
  - rewrite Hy. by apply IH.
Qed.

(** In a consistent file the row read back is the row just written. *)
Lemma select_order_new d d' row :
  consistent d → orders d' = orders d ++ [row] →
  Order.id row = (orders_seq d + 1)%Z →
  select_order d' (orders_seq d + 1) = Some row.
Proof.
  intros [_ Hids] Hrows Hid. unfold select_order. rewrite Hrows.
  apply find_app_last.
  - eapply Forall_impl; [exact Hids|]. intros o Ho. simpl in Ho.
    apply bool_decide_eq_false_2. lia.
  - by apply bool_decide_eq_true_2.
Qed.

(** Atomicity: whatever [create_order] raises, the file is as before. *)
Lemma create_order_atomic customer_name customer_email customer_phone
    customer_address cart tax_amount service_charge delivery_charge uuid4 now d e d' :
  create_order customer_name customer_email customer_phone customer_address cart
      tax_amount service_charge delivery_charge uuid4 now d = (Raise e, d') →
  d' = d.
Proof.
  rewrite create_order_eq.
  destruct (subtotal d cart 0%float) as [amount|e0]; [|by intros [= _ <-]].
  destruct (insert_order _ _ _ _ _ _ _ _ _ _ _ _ d) as [[order_id d1]|e0] eqn:Hord;
    [|by intros [= _ <-]].
  destruct (insert_items order_id cart d1) as [d2|e0] eqn:Hitems; [|by intros [= _ <-]].
  destruct (select_order d2 order_id) as [row|] eqn:Hsel; [done|].
  apply insert_order_inv in Hord as (_ & _ & _ & _ & row & Hrows & Hid & _).
  apply insert_items_inv in Hitems as (_ & Ho & _).
  unfold select_order in Hsel. rewrite Ho, Hrows in Hsel.
  eapply find_none in Hsel; [|apply in_or_app; right; by left].
  by rewrite bool_decide_eq_true_2 in Hsel.
Qed.

(** The steps behind a call that returns. *)
Lemma create_order_ok_inv customer_name customer_email customer_phone
    customer_address cart tax_amount service_charge delivery_charge uuid4 now d o d' :
  create_order customer_name customer_email customer_phone customer_address cart
      tax_amount service_charge delivery_charge uuid4 now d = (Ok o, d') →
  ∃ amount order_id d1,
    subtotal d cart 0%float = Ok amount
    ∧ insert_order uuid4 customer_name customer_email customer_phone customer_address
        (Float.round2 amount) tax_amount service_charge delivery_charge
        (Float.round2 (Float.round2 amount + tax_amount + service_charge
                       + delivery_charge))
        "INITIATED" now d = Ok (order_id, d1)
    ∧ insert_items order_id cart d1 = Ok d'
    ∧ select_order d' order_id = Some o.
Proof.
  rewrite create_order_eq.
  destruct (subtotal d cart 0%float) as [amount|e0]; [|done].
  destruct (insert_order _ _ _ _ _ _ _ _ _ _ _ _ d) as [[order_id d1]|e0] eqn:Hord;
    [|done].
  destruct (insert_items order_id cart d1) as [d2|e0] eqn:Hitems; [|done].
  destruct (select_order d2 order_id) as [row|] eqn:Hsel; [|done].
  intros [= <- <-]. by exists amount, order_id, d1.
Qed.

(** Both loops read an entry through its product id and its quantity
    (1 when there is none) only. *)
Lemma loops_ext d cart cart' :
  (.!! "productId") <$> cart = (.!! "productId") <$> cart' →
  quantity_of <$> cart = quantity_of <$> cart' →
  (∀ amount, subtotal d cart amount = subtotal d cart' amount)
  ∧ (∀ order_id d1, insert_items order_id cart d1 = insert_items order_id cart' d1).
Proof.
  revert cart'. induction cart as [|item cart IH]; intros [|item' cart']; try done.
  rewrite !fmap_cons. intros [= Hpid Hpids] [= Hqty Hqtys].
  destruct (IH cart' Hpids Hqtys) as [IH1 IH2].
  unfold quantity_of in Hqty.
  split; intros; simpl; rewrite <- Hpid, <- Hqty.
  - destruct (select_price d _) as [[price|]|e]; simpl; try done.
    destruct (Float.mul_int _ _); simpl; [apply IH1|done].
  - destruct (select_price d1 _) as [[price|]|e]; simpl; try done.
    destruct (insert_order_item _ _ _ _ _); simpl; [apply IH2|done].
Qed.

Lemma create_order_ext customer_name customer_email customer_phone
    customer_address cart cart' tax_amount service_charge delivery_charge uuid4 now d :
  (.!! "productId") <$> cart = (.!! "productId") <$> cart' →
  quantity_of <$> cart = quantity_of <$> cart' →
  create_order customer_name customer_email customer_phone customer_address cart
      tax_amount service_charge delivery_charge uuid4 now d
  = create_order customer_name customer_email customer_phone customer_address cart'
      tax_amount service_charge delivery_charge uuid4 now d.
Proof.
  intros Hpids Hqtys. destruct (loops_ext d cart cart' Hpids Hqtys) as [H1 H2].
  rewrite !create_order_eq, H1.
  destruct (subtotal d cart' 0%float) as [amount|e0]; [|done].
  destruct (insert_order _ _ _ _ _ _ _ _ _ _ _ _ d) as [[order_id d1]|e0]; [|done].
  by rewrite H2.
Qed.

Lemma next_rowid_ok seq : (seq + 1 < 2 ^ 63)%Z → Sqlite.next_rowid seq = Ok (seq + 1)%Z.
Proof. intros Hseq. unfold Sqlite.next_rowid. by rewrite bool_decide_eq_true_2. Qed.

Lemma insert_order_ok transaction_uuid customer_name customer_email customer_phone
    customer_address amount tax_amount service_charge delivery_charge total_amount
    status now d :
  is_nan amount = false → is_nan tax_amount = false →
  is_nan service_charge = false → is_nan delivery_charge = false →
  is_nan total_amount = false →
  Forall (λ o, Order.transaction_uuid o ≠ transaction_uuid) (orders d) →
  (orders_seq d + 1 < 2 ^ 63)%Z →
  ∃ d', insert_order transaction_uuid customer_name customer_email customer_phone
          customer_address amount tax_amount service_charge delivery_charge
          total_amount status now d = Ok ((orders_seq d + 1)%Z, d').
Proof.
  intros Ha Ht Hs Hd Hta Huuid Hseq. unfold insert_order.
  destruct (real_not_null_ok _ Ha) as (a & -> & _).
  destruct (real_not_null_ok _ Ht) as (t & -> & _).
  destruct (real_not_null_ok _ Hs) as (sc & -> & _).
  destruct (real_not_null_ok _ Hd) as (dc & -> & _).
  destruct (real_not_null_ok _ Hta) as (ta & -> & _). simpl.
  assert (Hex : existsb (λ o, bool_decide (Order.transaction_uuid o = transaction_uuid))
                  (orders d) = false).
  { induction Huuid as [|o os Ho _ IH]; simpl; [done|].
    by rewrite bool_decide_eq_false_2. }
  rewrite Hex, next_rowid_ok by done. simpl. by eexists.
Qed.

Lemma select_product_elem d pid p : select_product d pid = Some p → p ∈ products d.
Proof.
  unfold select_product. intros Hfind. apply find_some in Hfind as [Hin _].
  by apply list_elem_of_In.
Qed.

Lemma insert_items_ok d order_id cart d1 :
  products d1 = products d →
  Forall (known d) cart → Forall in_range cart →
  Forall (λ p, is_nan (Product.price p) = false) (products d) →
  int64 order_id →
  (order_items_seq d1 + Z.of_nat (length cart) < 2 ^ 63)%Z →
  ∃ d2, insert_items order_id cart d1 = Ok d2.
Proof.
  intros Hprod Hknown Hrange Hprices Hoid. revert d1 Hprod.
  induction cart as [|item cart IH]; intros d1 Hprod Hseq; simpl; [by eexists|].
  apply Forall_cons in Hknown as [(pid & p & Hpid & Hsel) Hknown].
  apply Forall_cons in Hrange as [[Hpr Hqr] Hrange].
  assert (Hsel1 : select_product d1 pid = Some p).
  { unfold select_product in *. by rewrite Hprod. }
  destruct (select_price_known d1 item pid p) as [-> _]; auto. simpl.
  unfold insert_order_item. rewrite Hpid.
  rewrite (integer_ok order_id) by done. simpl.
  rewrite (integer_ok pid) by auto. simpl.
  fold (quantity_of item). rewrite (integer_ok (quantity_of item)) by done. simpl.
  assert (Hnan : is_nan (Product.price p) = false).
  { rewrite Forall_forall in Hprices. apply Hprices.
    by apply (select_product_elem d pid). }
  destruct (real_not_null_ok _ Hnan) as (x & -> & _). simpl.
  simpl in Hseq. rewrite next_rowid_ok by lia. simpl.
  apply IH; [done|done| |]; simpl; [done|lia].
Qed.

Lemma create_order_ok customer_name customer_email customer_phone customer_address
    cart tax_amount service_charge delivery_charge uuid4 now d :
  creatable d cart tax_amount service_charge delivery_charge uuid4 →
  ∃ o d', create_order customer_name customer_email customer_phone customer_address
            cart tax_amount service_charge delivery_charge uuid4 now d = (Ok o, d').
Proof.
  intros [Hknown Hrange Hprices Hsub Htax Hserv Hdel Htotal Huuid Hoseq [Hi0 Hiseq]].
  rewrite create_order_eq, subtotal_ok by done.
  fold (cart_sum d cart).
  destruct (insert_order_ok uuid4 customer_name customer_email customer_phone
              customer_address (Float.round2 (cart_sum d cart)) tax_amount
              service_charge delivery_charge
              (Float.round2 (Float.round2 (cart_sum d cart) + tax_amount
                             + service_charge + delivery_charge))
              "INITIATED" now d) as [d1 Hord]; try done; [lia|].
  rewrite Hord.
  pose proof Hord as (_ & Hp & Hits & _ & row & Hrows & Hid & _)%insert_order_inv.
  destruct (insert_items_ok d (orders_seq d + 1) cart d1) as [d2 Hitems]; try done.
  { unfold int64. lia. }
  { rewrite (insert_order_items_seq _ _ _ _ _ _ _ _ _ _ _ _ _ _ _ Hord). lia. }
  rewrite Hitems.
  destruct (select_order d2 (orders_seq d + 1)) as [o|] eqn:Hsel; [by eexists _, _|].
  apply insert_items_inv in Hitems as (_ & Ho & _).
  unfold select_order in Hsel. rewrite Ho, Hrows in Hsel.
  eapply find_none in Hsel; [|apply in_or_app; right; by left].
  by rewrite bool_decide_eq_true_2 in Hsel.
Qed.

End create_order_facts.

(** C9. An entry without a quantity is treated as the same entry with
    quantity 1: the call returns (or raises) the same and leaves the same
    file, and when an order is created the item row written for the entry
    has quantity 1. *)
Theorem create_order_default_quantity
    (customer_name customer_email customer_phone customer_address : string)
    (cart : list cart_item) (tax_amount service_charge delivery_charge : float)
    (uuid4 now : string) (d : database) (i : nat) (item : cart_item) :
  cart !! i = Some item →
  item !! "quantity" = None →
  create_order customer_name customer_email customer_phone customer_address cart
      tax_amount service_charge delivery_charge uuid4 now d
  = create_order customer_name customer_email customer_phone customer_address
      (<[i := <["quantity" := 1%Z]> item]> cart)
      tax_amount service_charge delivery_charge uuid4 now d
  ∧ ∀ o d',
      create_order customer_name customer_email customer_phone customer_address cart
        tax_amount service_charge delivery_charge uuid4 now d = (Ok o, d') →
      ∃ rows, order_items d' = order_items d ++ rows
              ∧ OrderItem.quantity <$> rows !! i = Some 1%Z.
Proof.
  intros Hi Hq. split.
  - apply create_order_ext; rewrite list_fmap_insert; symmetry; apply list_insert_id;
      rewrite list_lookup_fmap, Hi; simpl; f_equal.
    + by rewrite lookup_insert_ne.
    + unfold quantity_of. by rewrite lookup_insert_eq, Hq.
  - intros o d' (amount & order_id & d1 & _ & Hord & Hitems & _)%create_order_ok_inv.
    apply insert_order_inv in Hord as (_ & _ & Hsame & _).
    apply insert_items_inv in Hitems as (_ & _ & _ & rows & Hrows & _ & Hqtys & _).
    exists rows. split; [congruence|].
    rewrite <- list_lookup_fmap, Hqtys, list_lookup_fmap, Hi. simpl.
    unfold quantity_of. by rewrite Hq.
Qed.


(** C3 as amended. In a consistent file (every reachable one is, see
    [reachable_consistent]), the order [create_order] returns is stored
    with status INITIATED, its [amount] equals the sum of price times
    quantity rounded to two decimals, and its [total_amount] equals that
    rounded subtotal plus tax, service and delivery charge, rounded to
    two decimals again; an order is returned whenever the cart is
    [creatable].  For the cart of two of product 1 at 59.99 with tax 5,
    service 2 and delivery 3, the order has amount 119.98 and
    total_amount 129.98. *)
Theorem create_order_total
    (customer_name customer_email customer_phone customer_address : string)
    (cart : list cart_item) (tax_amount service_charge delivery_charge : float)
    (uuid4 now : string) (d : database) :
  consistent d →
  (∀ o d',
     create_order customer_name customer_email customer_phone customer_address
       cart tax_amount service_charge delivery_charge uuid4 now d = (Ok o, d') →
     o ∈ orders d'
     ∧ Order.status o = "INITIATED"
     ∧ (Float.round2 (cart_sum d cart) =? Order.amount o)%float = true
     ∧ (rounded_total d cart tax_amount service_charge delivery_charge
          =? Order.total_amount o)%float = true)
  ∧ (creatable d cart tax_amount service_charge delivery_charge uuid4 →
     ∃ o d',
       create_order customer_name customer_email customer_phone customer_address
         cart tax_amount service_charge delivery_charge uuid4 now d = (Ok o, d'))
  ∧ (∃ o d',
       create_order customer_name customer_email customer_phone customer_address
         Example.two_aviators 5 2 3 uuid4 now Example.seeded = (Ok o, d')
       ∧ o ∈ orders d'
       ∧ Order.amount o = 119.98%float
       ∧ Order.total_amount o = 129.98%float).
Proof.
  intros Hcons. split_and!.
  - intros o d' (amount & order_id & d1 & Hsub & Hord & Hitems & Hsel)%create_order_ok_inv.
    apply subtotal_inv in Hsub as ->. fold (cart_sum d cart) in Hord.
    apply insert_order_inv in Hord
      as (-> & _ & _ & _ & row & Hrows & Hid & _ & Hamount & Htotal & Hstatus).
    apply insert_items_inv in Hitems as (_ & Ho & _).
    rewrite (select_order_new d d' row) in Hsel by congruence.
    injection Hsel as <-. split_and!; try done.
    rewrite Ho, Hrows. apply elem_of_app. right. by apply list_elem_of_singleton.
  - apply create_order_ok.
  - eexists _, _. split; [by vm_compute|]. split_and!; try done.
    apply list_elem_of_singleton. reflexivity.
Qed.

(** *** The life of an order *)

Section lifecycle.
Context `{Config} `{Library}.

Lemma orders_step_same e os : orders_step e os os.
Proof.
  split.
  - intros i o Hi. exists o. auto.
  - intros i o' Hi Hnone. congruence.
Qed.

Lemma orders_step_update e (f : Order.row → bool) os :
  (∀ o, f o = true → completes e o) →
  orders_step e os (map (λ o, if f o then Order.set_status "COMPLETED" o else o) os).
Proof.
  intros He. split.
  - intros i o Hi.
    destruct (update_rows f "COMPLETED" os i o Hi) as (o' & Hi' & Hsame & Hst).
    exists o'. split; [done|].
    rewrite list_lookup_fmap, Hi in Hi'. simpl in Hi'. injection Hi' as <-.
    destruct (f o) eqn:Hf; [right|by left].
    split; [by apply He|]. split; [done|apply set_status_same].
  - intros i o'. rewrite list_lookup_fmap. intros Hi Hnone.
    by rewrite Hnone in Hi.
Qed.

Lemma orders_step_insert e os row :
  creates e → Order.status row = "INITIATED" → orders_step e os (os ++ [row]).
Proof.
  intros He Hrow. split.
  - intros i o Hi. exists o. split; [|auto].
    by apply lookup_app_l_Some.
  - intros i o' Hi Hnone. split; [done|].
    apply lookup_ge_None in Hnone. rewrite lookup_app_r in Hi by done.
    apply list_lookup_singleton_Some in Hi as [_ <-]. done.
Qed.

Lemma insert_products_orders rows d d' :
  insert_products rows d = Ok d' → orders d' = orders d.
Proof.
  revert d. induction rows as [|[[[name description] price] image_url] rows IH];
    intros d; simpl.
  { by intros [= <-]. }
  unfold insert_product.
  destruct (Sqlite.real_not_null price) as [x|e]; [|done]. simpl.
  destruct (Sqlite.next_rowid _) as [id|e]; [|done]. simpl.
  intros Hrest. by rewrite (IH _ Hrest).
Qed.

Lemma init_db_orders d : orders (init_db d) = orders d.
Proof.
  unfold init_db. case_bool_decide; [|done].
  destruct (insert_products seed_products _) as [d'|e] eqn:Hins; [|done].
  apply insert_products_orders in Hins. exact Hins.
Qed.

Lemma create_product_orders name description price image_url d :
  orders (create_product name description price image_url d).2 = orders d.
Proof.
  unfold create_product, insert_product. simpl.
  destruct (Sqlite.real_not_null price) as [x|e]; [|done]. simpl.
  by destruct (Sqlite.next_rowid _) as [id|e].
Qed.

Lemma update_product_orders product_id name description price image_url d :
  orders (update_product product_id name description price image_url d).2 = orders d.
Proof.
  unfold update_product. simpl.
  destruct (Sqlite.integer product_id) as [i|e]; [|done]. simpl.
  destruct (select_product d i); [|done].
  by destruct (Sqlite.real_not_null price) as [x|e].
Qed.

Lemma delete_product_orders product_id d :
  orders (delete_product product_id d).2 = orders d.
Proof. unfold delete_product. by destruct (Sqlite.integer product_id). Qed.

Lemma admin_products_orders edit_id delete_id d :
  orders (admin_products edit_id delete_id d).2 = orders d.
Proof.
  unfold admin_products. destruct (int_truthy delete_id).
  - pose proof (delete_product_orders (default 0%Z delete_id) d) as Hdel.
    by destruct (delete_product _ d) as [[[]|e] d'].
  - destruct (int_truthy edit_id); [|done].
    by destruct (get_product _ d).
Qed.

Lemma admin_save_product_orders id name description price image_url d :
  orders (admin_save_product id name description price image_url d).2 = orders d.
Proof.
  unfold admin_save_product. destruct (negb _); [done|]. cbn [snd].
  destruct (int_truthy id); auto using create_product_orders, update_product_orders.
Qed.

Lemma api_create_order_step data uuid4 now d :
  orders_step (Request (ApiCreateOrder data uuid4 now)) (orders d)
    (orders (api_create_order data uuid4 now d).2).
Proof.
  unfold api_create_order.
  destruct (create_order _ _ _ _ _ _ _ _ _ _ d) as [[o|e] d'] eqn:Hcreate.
  - simpl.
    apply create_order_ok_inv in Hcreate
      as (amount & order_id & d1 & _ & Hord & Hitems & _).
    apply insert_order_inv in Hord
      as (_ & _ & _ & _ & row & Hrows & _ & _ & _ & _ & Hstatus).
    apply insert_items_inv in Hitems as (_ & Ho & _).
    rewrite Ho, Hrows. by apply orders_step_insert.
  - apply create_order_atomic in Hcreate as ->.
    destruct e; apply orders_step_same.
Qed.

Lemma esewa_callback_step query_params d :
  orders_step (Request (EsewaCallback query_params)) (orders d)
    (orders (esewa_callback query_params d).2).
Proof.
  destruct (esewa_callback_outcome query_params d)
    as [->|(data & payload & key & Hdata & Hdec & Hsig & Hst & Hkey & ->)];
    [apply orders_step_same|].
  simpl. apply orders_step_update. intros o Ho.
  by exists data, payload, key.
Qed.

Lemma admin_confirm_order_step transaction_uuid d :
  orders_step (Request (AdminConfirmOrder transaction_uuid)) (orders d)
    (orders (admin_confirm_order transaction_uuid d).2).
Proof.
  unfold admin_confirm_order. rewrite update_order_status_eq. simpl.
  apply orders_step_update. intros o Ho%bool_decide_eq_true. exact Ho.
Qed.

(** Every event changes the orders table as [orders_step] allows. *)
Lemma step_orders e d : orders_step e (orders d) (orders (step e d)).
Proof.
  destruct e as [|[filename|data uuid4 now|order_id|query_params|edit_id delete_id
                  |id name description price image_url|transaction_uuid]];
    unfold step, handle.
  - rewrite init_db_orders. apply orders_step_same.
  - apply orders_step_same.
  - apply api_create_order_step.
  - rewrite api_initiate_payment_reads. apply orders_step_same.
  - apply esewa_callback_step.
  - rewrite admin_products_orders. apply orders_step_same.
  - rewrite admin_save_product_orders. apply orders_step_same.
  - apply admin_confirm_order_step.
Qed.

Lemma orders_step_status_ok e os os' :
  orders_step e os os' → Forall status_ok os → Forall status_ok os'.
Proof.
  intros [Hold Hnew] Hok. apply Forall_lookup. intros i o' Hi.
  destruct (os !! i) as [o|] eqn:Hoi.
  - destruct (Hold i o Hoi) as (o'' & Hi' & Hcase).
    assert (o'' = o') as -> by congruence.
    destruct Hcase as [->|(_ & Hst & _)].
    + by eapply Forall_lookup_1.
    + by right.
  - destruct (Hnew i o' Hi Hoi) as [_ Hst]. by left.
Qed.

Lemma reachable_status_ok d : reachable d → Forall status_ok (orders d).
Proof.
  intros [es ->]. induction es as [|e es IH] using rev_ind.
  - unfold run. cbn [foldl]. rewrite init_db_orders. constructor.
  - unfold run in *. rewrite foldl_snoc.
    eapply orders_step_status_ok; [apply step_orders|apply IH].
Qed.

(** The orders counter moves with the orders table only. *)
Lemma insert_products_orders_seq rows d d' :
  insert_products rows d = Ok d' → orders_seq d' = orders_seq d.
Proof.
  revert d. induction rows as [|[[[name description] price] image_url] rows IH];
    intros d; simpl.
  { by intros [= <-]. }
  unfold insert_product.
  destruct (Sqlite.real_not_null price) as [x|e]; [|done]. simpl.
  destruct (Sqlite.next_rowid _) as [id|e]; [|done]. simpl.
  intros Hrest. by rewrite (IH _ Hrest).
Qed.

Lemma init_db_orders_seq d : orders_seq (init_db d) = orders_seq d.
Proof.
  unfold init_db. case_bool_decide; [|done].
  destruct (insert_products seed_products _) as [d'|e] eqn:Hins; [|done].
  apply insert_products_orders_seq in Hins. exact Hins.
Qed.

Lemma create_product_orders_seq name description price image_url d :
  orders_seq (create_product name description price image_url d).2 = orders_seq d.
Proof.
  unfold create_product, insert_product. simpl.
  destruct (Sqlite.real_not_null price) as [x|e]; [|done]. simpl.
  by destruct (Sqlite.next_rowid _) as [id|e].
Qed.

Lemma update_product_orders_seq product_id name description price image_url d :
  orders_seq (update_product product_id name description price image_url d).2
  = orders_seq d.
Proof.
  unfold update_product. simpl.
  destruct (Sqlite.integer product_id) as [i|e]; [|done]. simpl.
  destruct (select_product d i); [|done].
  by destruct (Sqlite.real_not_null price) as [x|e].
Qed.

Lemma delete_product_orders_seq product_id d :
  orders_seq (delete_product product_id d).2 = orders_seq d.
Proof. unfold delete_product. by destruct (Sqlite.integer product_id). Qed.

Lemma admin_products_orders_seq edit_id delete_id d :
  orders_seq (admin_products edit_id delete_id d).2 = orders_seq d.
Proof.
  unfold admin_products. destruct (int_truthy delete_id).
  - pose proof (delete_product_orders_seq (default 0%Z delete_id) d) as Hdel.
    by destruct (delete_product _ d) as [[[]|e] d'].
  - destruct (int_truthy edit_id); [|done].
    by destruct (get_product _ d).
Qed.

Lemma admin_save_product_orders_seq id name description price image_url d :
  orders_seq (admin_save_product id name description price image_url d).2
  = orders_seq d.
Proof.
  unfold admin_save_product. destruct (negb _); [done|]. cbn [snd].
  destruct (int_truthy id);
    auto using create_product_orders_seq, update_product_orders_seq.
Qed.

Lemma consistent_same d d' :
  orders d' = orders d → orders_seq d' = orders_seq d →
  consistent d → consistent d'.
Proof. unfold consistent. by intros -> ->. Qed.

Lemma consistent_update (f : Order.row → bool) status d :
  consistent d →
  consistent (with_orders
                (map (λ o, if f o then Order.set_status status o else o) (orders d))
                (orders_seq d) d).
Proof.
  intros [Hseq Hids]. split; [by destruct d|].
  destruct d as [ps pseq os oseq its iseq]. simpl in *.
  apply Forall_fmap. eapply Forall_impl; [exact Hids|].
  intros o Ho. simpl. by destruct (f o).
Qed.

Lemma create_order_consistent customer_name customer_email customer_phone
    customer_address cart tax_amount service_charge delivery_charge uuid4 now d :
  consistent d →
  consistent (create_order customer_name customer_email customer_phone
                customer_address cart tax_amount service_charge delivery_charge
                uuid4 now d).2.
Proof.
  intros Hcons.
  destruct (create_order _ _ _ _ _ _ _ _ _ _ d) as [[o|e] d'] eqn:Hcreate.
  - apply create_order_ok_inv in Hcreate
      as (amount & order_id & d1 & _ & Hord & Hitems & _).
    apply insert_order_inv in Hord
      as (-> & _ & _ & Hseq & row & Hrows & Hid & _).
    apply insert_items_inv in Hitems as (_ & Ho & Hs & _).
    destruct Hcons as [Hpos Hids]. cbn [snd]. split.
    + rewrite Hs, Hseq. lia.
    + rewrite Ho, Hrows, Hs, Hseq. apply Forall_app. split.
      * eapply Forall_impl; [exact Hids|]. intros x Hx. simpl in Hx. lia.
      * apply Forall_singleton. lia.
  - by apply create_order_atomic in Hcreate as ->.
Qed.

(** Every event keeps the file consistent. *)
Lemma step_consistent e d : consistent d → consistent (step e d).
Proof.
  intros Hcons.
  destruct e as [|[filename|data uuid4 now|order_id|query_params|edit_id delete_id
                  |id name description price image_url|transaction_uuid]];
    unfold step, handle.
  - eapply consistent_same; eauto using init_db_orders, init_db_orders_seq.
  - done.
  - unfold api_create_order.
    pose proof (create_order_consistent (customerName data) (customerEmail data)
                  (customerPhone data) (customerAddress data) (cart data)
                  (tax_amount data) (service_charge data) (delivery_charge data)
                  uuid4 now d Hcons) as Hnew.
    by destruct (create_order _ _ _ _ _ _ _ _ _ _ d) as [[o|[]] d'].
  - by rewrite api_initiate_payment_reads.
  - unfold esewa_callback. case_bool_decide; [done|].
    destruct (query_params !! "data") as [[|c data]|]; try done.
    unfold esewa_callback_try.
    destruct (_ ≫= _) as [[| | | | | |payload]|e]; try done.
    destruct (_ && _); [|done].
    rewrite update_order_status_eq.
    destruct (Sqlite.bind_param _) as [key|e]; [|done].
    by apply consistent_update.
  - eapply consistent_same;
      eauto using admin_products_orders, admin_products_orders_seq.
  - eapply consistent_same;
      eauto using admin_save_product_orders, admin_save_product_orders_seq.
  - unfold admin_confirm_order. rewrite update_order_status_eq. simpl.
    by apply consistent_update.
Qed.

(** Every state the server reaches is consistent. *)
Lemma reachable_consistent d : reachable d → consistent d.
Proof.
  intros [es ->]. induction es as [|e es IH] using rev_ind.
  - unfold run. cbn [foldl].
    eapply (consistent_same empty_database);
      eauto using init_db_orders, init_db_orders_seq.
    split; [done|constructor].
  - unfold run in *. rewrite foldl_snoc. by apply step_consistent.
Qed.

End lifecycle.

(** C6. In every state the server reaches, each order has status
    INITIATED or COMPLETED.  An event leaves every stored order in its
    place, unchanged or marked COMPLETED with its other columns as they
    were, the latter only by a payment callback whose payload is
    verified (the signature is the computed one, the status is COMPLETE)
    and names the order's transaction id, or by the admin confirmation of
    that transaction id; an order that was not there is
    added by order creation only, with status INITIATED; and an order
    that is COMPLETED stays COMPLETED. *)
Theorem order_status_lifecycle `{Config} `{Library} (d : database) :
  reachable d →
  Forall status_ok (orders d)
  ∧ (∀ e, orders_step e (orders d) (orders (step e d)))
  ∧ (∀ e i o, orders d !! i = Some o → Order.status o = "COMPLETED" →
       ∃ o', orders (step e d) !! i = Some o'
             ∧ Order.id o' = Order.id o ∧ Order.status o' = "COMPLETED").
Proof.
  intros Hreach. split_and!.
  - by apply reachable_status_ok.
  - intros e. apply step_orders.
  - intros e i o Hi Hst.
    destruct (step_orders e d) as [Hold _].
    destruct (Hold i o Hi) as (o' & Hi' & [->|(_ & Hst' & Hid & _)]); eauto.
Qed.

(** *** The catalogue *)

Section catalogue_facts.

Lemma insert_product_inv name description price image_url d id d' :
  insert_product name description price image_url d = Ok (id, d') →
  id = (products_seq d + 1)%Z
  ∧ ∃ x, Sqlite.real_not_null price = Ok x
         ∧ d' = with_products
                  (products d ++ [Product.mk id name description x image_url]) id d.
Proof.
  unfold insert_product.
  destruct (Sqlite.real_not_null price) as [x|e]; [|done]. simpl.
  destruct (Sqlite.next_rowid _) as [i|e] eqn:Hid; [|done]. simpl.
  apply next_rowid_inv in Hid as ->. intros [= <- <-]. eauto.
Qed.

Lemma next_rowid_bound seq id : Sqlite.next_rowid seq = Ok id → (id < 2 ^ 63)%Z.
Proof. unfold Sqlite.next_rowid. case_bool_decide; [|done]. by intros [= <-]. Qed.

Lemma insert_product_bound name description price image_url d id d' :
  insert_product name description price image_url d = Ok (id, d') →
  (id < 2 ^ 63)%Z.
Proof.
  unfold insert_product.
  destruct (Sqlite.real_not_null price) as [x|e]; [|done]. simpl.
  destruct (Sqlite.next_rowid _) as [i|e] eqn:Hid; [|done]. simpl.
  apply next_rowid_bound in Hid. by intros [= <- <-].
Qed.

(** The three product writes without the connection bookkeeping. *)
Lemma create_product_eq name description price image_url d :
  create_product name description price image_url d =
    match insert_product name description price image_url d with
    | Ok (product_id, d') => (Ok product_id, d')
    | Raise e => (Raise e, d)
    end.
Proof.
  unfold create_product. simpl.
  by destruct (insert_product _ _ _ _ d) as [[??]|?].
Qed.

Lemma update_product_eq product_id name description price image_url d :
  update_product product_id name description price image_url d =
    match Sqlite.integer product_id with
    | Raise e => (Raise e, d)
    | Ok i =>
        match select_product d i with
        | None => (Ok (), d)
        | Some _ =>
            match Sqlite.real_not_null price with
            | Raise e => (Raise e, d)
            | Ok x =>
                (Ok (), with_products
                          (map (λ p, if bool_decide (Product.id p = i)
                                     then Product.mk i name description x image_url
                                     else p) (products d))
                          (products_seq d) d)
            end
        end
    end.
Proof.
  unfold update_product. simpl.
  destruct (Sqlite.integer product_id) as [i|e]; [|done]. simpl.
  destruct (select_product d i); [|done].
  by destruct (Sqlite.real_not_null price).
Qed.

Lemma delete_product_eq product_id d :
  delete_product product_id d =
    match Sqlite.integer product_id with
    | Raise e => (Raise e, d)
    | Ok i =>
        (Ok (), with_products (filter (λ p, Product.id p ≠ i) (products d))
                  (products_seq d) d)
    end.
Proof. unfold delete_product. by destruct (Sqlite.integer product_id). Qed.

Lemma with_products_same d : with_products (products d) (products_seq d) d = d.
Proof. by destruct d. Qed.

(** A price that is a number other than zero is stored as it is. *)
Lemma real_not_null_nonzero x :
  is_nan x = false → is_zero x = false → Sqlite.real_not_null x = Ok x.
Proof. intros Hnan Hz. unfold Sqlite.real_not_null. by rewrite Hnan, Hz. Qed.

Lemma real_not_null_number x y : Sqlite.real_not_null x = Ok y → is_nan y = false.
Proof.
  unfold Sqlite.real_not_null. destruct (is_nan x) eqn:Hnan; [done|].
  destruct (is_zero x); by intros [= <-].
Qed.

Lemma real_not_null_keeps x y :
  Sqlite.real_not_null x = Ok y → is_zero x = false → y = x.
Proof.
  unfold Sqlite.real_not_null. destruct (is_nan x); [done|].
  destruct (is_zero x); [done|]. by intros [= <-].
Qed.

(** The rows [executemany] appends, given the counter before. *)
Lemma insert_products_inv rows d d' :
  insert_products rows d = Ok d' →
  ∃ ps, d' = with_products (products d ++ ps)
               (products_seq d + Z.of_nat (length rows)) d
        ∧ length ps = length rows
        ∧ ∀ (k : nat) name description price image_url,
            rows !! k = Some (name, description, price, image_url) →
            ∃ x, Sqlite.real_not_null price = Ok x
                 ∧ ps !! k = Some (Product.mk (products_seq d + Z.of_nat (S k))
                                     name description x image_url).
Proof.
  revert d. induction rows as [|[[[name description] price] image_url] rows IH];
    intros d; simpl.
  { intros [= <-]. exists []. rewrite app_nil_r, Z.add_0_r.
    split_and!; [by destruct d|done|done]. }
  destruct (insert_product _ _ _ _ d) as [[id d1]|e] eqn:Hins; [|done]. simpl.
  apply insert_product_inv in Hins as (-> & x & Hx & ->).
  intros (ps & -> & Hlen & Hrows)%IH. simpl in *.
  exists (Product.mk (products_seq d + 1) name description x image_url :: ps).
  split_and!.
  - unfold with_products. simpl. rewrite <- app_assoc. simpl. f_equal. lia.
  - simpl. by rewrite Hlen.
  - intros [|k] n de p u Hk; simpl in *.
    + injection Hk as <- <- <- <-. exists x. split; [done|]. do 2 f_equal.
    + destruct (Hrows k n de p u Hk) as (y & Hy & Hps). exists y. split; [done|].
      rewrite Hps. do 2 f_equal. lia.
Qed.

Lemma insert_products_ok rows d :
  Forall (λ row, is_nan row.1.2 = false) rows →
  (products_seq d + Z.of_nat (length rows) < 2 ^ 63)%Z →
  ∃ d', insert_products rows d = Ok d'.
Proof.
  intros Hrows. revert d.
  induction Hrows as [|[[[name description] price] image_url] rows Hnan _ IH];
    intros d Hseq; simpl in *; [by eexists|].
  unfold insert_product.
  destruct (real_not_null_ok _ Hnan) as (x & -> & _). simpl.
  rewrite next_rowid_ok by lia. simpl. apply IH. simpl. lia.
Qed.

Lemma init_db_eq d :
  init_db d =
    match products d with
    | [] =>
        match insert_products seed_products d with
        | Ok d' => d'
        | Raise _ => d
        end
    | _ => d
    end.
Proof.
  unfold init_db. simpl. destruct (products d) as [|p ps] eqn:Hps; simpl.
  - by destruct (insert_products seed_products d).
  - done.
Qed.

(** The start-up leaves the file as it is or fills the empty catalogue. *)
Lemma init_db_cases d :
  init_db d = d
  ∨ ∃ ps, ps ≠ [] ∧ init_db d = with_products ps (products_seq d + 4) d.
Proof.
  rewrite init_db_eq. destruct (products d) as [|p ps] eqn:Hps; [|by left].
  destruct (insert_products seed_products d) as [d'|e] eqn:Hins; [|by left].
  apply insert_products_inv in Hins as (rows & -> & Hlen & _). right.
  rewrite Hps. simpl. exists rows. split; [|done].
  intros ->. done.
Qed.

End catalogue_facts.

(** X1. Starting the server twice is starting it once: [init_db] run on
    the file it left changes nothing, a catalogue that is not empty is
    left as it is, and the orders and their items are never touched. *)
Theorem init_db_idempotent (d : database) :
  init_db (init_db d) = init_db d
  ∧ (products d ≠ [] → init_db d = d)
  ∧ orders (init_db d) = orders d
  ∧ orders_seq (init_db d) = orders_seq d
  ∧ order_items (init_db d) = order_items d
  ∧ order_items_seq (init_db d) = order_items_seq d.
Proof.
  assert (Hkeep : ∀ d0, products d0 ≠ [] → init_db d0 = d0).
  { intros d0 Hne. rewrite init_db_eq. by destruct (products d0). }
  pose proof (init_db_cases d) as Hcases.
  split_and!.
  - destruct Hcases as [Heq|(ps & Hne & Heq)]; [by rewrite !Heq|].
    rewrite Heq. by apply Hkeep.
  - apply Hkeep.
  - by destruct Hcases as [Heq|(ps & Hne & Heq)]; rewrite Heq.
  - by destruct Hcases as [Heq|(ps & Hne & Heq)]; rewrite Heq.
  - by destruct Hcases as [Heq|(ps & Hne & Heq)]; rewrite Heq.
  - by destruct Hcases as [Heq|(ps & Hne & Heq)]; rewrite Heq.
Qed.

(** X2. When the catalogue is empty and the counter leaves room for
    four rows, [init_db] stores the four seed products under the four
    ids after the counter, whatever ids were in use before; nothing
    else in the file changes. *)
Theorem init_db_seeds_fresh_ids (d : database) :
  products d = [] →
  (products_seq d + 4 < 2 ^ 63)%Z →
  Product.id <$> products (init_db d)
    = [ products_seq d + 1; products_seq d + 2;
        products_seq d + 3; products_seq d + 4 ]%Z
  ∧ product_fields <$> products (init_db d) = seed_products
  ∧ init_db d = with_products (products (init_db d)) (products_seq d + 4) d.
Proof.
  intros Hempty Hseq. rewrite init_db_eq, Hempty.
  destruct (insert_products_ok seed_products d) as [d' Hins];
    [repeat constructor|simpl; lia|].
  rewrite Hins. apply insert_products_inv in Hins as (ps & -> & Hlen & Hrows).
  rewrite Hempty. simpl in *.
  destruct ps as [|p1 [|p2 [|p3 [|p4 [|p5 ps]]]]]; try done.
  destruct (Hrows 0%nat _ _ _ _ eq_refl) as (x1 & Hx1 & [= ->]).
  destruct (Hrows 1%nat _ _ _ _ eq_refl) as (x2 & Hx2 & [= ->]).
  destruct (Hrows 2%nat _ _ _ _ eq_refl) as (x3 & Hx3 & [= ->]).
  destruct (Hrows 3%nat _ _ _ _ eq_refl) as (x4 & Hx4 & [= ->]).
  vm_compute in Hx1, Hx2, Hx3, Hx4.
  injection Hx1 as <-. injection Hx2 as <-. injection Hx3 as <-.
  injection Hx4 as <-.
  split_and!; [|done|done].
  simpl. repeat f_equal; lia.
Qed.

(** *** What a created order leaves in the file *)

Section ledger_facts.

Lemma existsb_false {A} (f : A → bool) (l : list A) :
  existsb f l = false → Forall (λ x, f x = false) l.
Proof.
  induction l as [|x l IH]; simpl; [by constructor|].
  intros [Hx Hl]%orb_false_iff. constructor; auto.
Qed.

(** The row [INSERT INTO orders] appends. *)
Lemma insert_order_row transaction_uuid customer_name customer_email customer_phone
    customer_address amount tax_amount service_charge delivery_charge total_amount
    status now d order_id d' :
  insert_order transaction_uuid customer_name customer_email customer_phone
    customer_address amount tax_amount service_charge delivery_charge total_amount
    status now d = Ok (order_id, d') →
  ∃ a t s c T,
    Sqlite.real_not_null amount = Ok a
    ∧ Sqlite.real_not_null tax_amount = Ok t
    ∧ Sqlite.real_not_null service_charge = Ok s
    ∧ Sqlite.real_not_null delivery_charge = Ok c
    ∧ Sqlite.real_not_null total_amount = Ok T
    ∧ Forall (λ o, Order.transaction_uuid o ≠ transaction_uuid) (orders d)
    ∧ order_id = (orders_seq d + 1)%Z
    ∧ d' = with_orders
             (orders d ++ [Order.mk order_id transaction_uuid customer_name
                             customer_email customer_phone customer_address
                             a t s c T status now])
             order_id d.
Proof.
  unfold insert_order.
  destruct (Sqlite.real_not_null amount) as [a|e]; [|done]. simpl.
  destruct (Sqlite.real_not_null tax_amount) as [t|e]; [|done]. simpl.
  destruct (Sqlite.real_not_null service_charge) as [s|e]; [|done]. simpl.
  destruct (Sqlite.real_not_null delivery_charge) as [c|e]; [|done]. simpl.
  destruct (Sqlite.real_not_null total_amount) as [T|e]; [|done]. simpl.
  destruct (existsb _ _) eqn:Hex; [done|].
  destruct (Sqlite.next_rowid _) as [id|e] eqn:Hid; [|done]. simpl.
  apply next_rowid_inv in Hid as ->. intros [= <- <-].
  exists a, t, s, c, T. split_and!; try done.
  apply existsb_false in Hex. eapply Forall_impl; [exact Hex|].
  intros o Ho. simpl in Ho. by apply bool_decide_eq_false in Ho.
Qed.

(** The row [INSERT INTO order_items] appends. *)
Lemma insert_order_item_row order_id pid qty price d d' :
  insert_order_item order_id pid qty price d = Ok d' →
  ∃ i x,
    pid = Some i ∧ int64 order_id ∧ int64 i ∧ int64 qty
    ∧ Sqlite.real_not_null price = Ok x
    ∧ d' = with_order_items
             (order_items d
                ++ [OrderItem.mk (order_items_seq d + 1) order_id i qty x])
             (order_items_seq d + 1) d.
Proof.
  unfold insert_order_item.
  destruct (Sqlite.integer order_id) as [oid|e] eqn:Ho; [|done]. simpl.
  apply integer_inv in Ho as [-> Horange].
  destruct pid as [pid|]; simpl.
  - destruct (Sqlite.integer pid) as [i|e] eqn:Hi; [|done]. simpl.
    apply integer_inv in Hi as [-> Hirange].
    destruct (Sqlite.integer qty) as [q|e] eqn:Hq; [|done]. simpl.
    apply integer_inv in Hq as [-> Hqrange].
    destruct (Sqlite.real_not_null price) as [x|e]; [|done]. simpl.
    destruct (Sqlite.next_rowid _) as [id|e] eqn:Hid; [|done]. simpl.
    apply next_rowid_inv in Hid as ->.
    intros [= <-]. by exists pid, x.
  - destruct (Sqlite.integer qty) as [q|e]; done.
Qed.

(** The rows the second loop appends: one for each entry, in order. *)
Lemma insert_items_rows order_id cart d d' :
  insert_items order_id cart d = Ok d' →
  ∃ rows,
    d' = with_order_items (order_items d ++ rows)
           (order_items_seq d + Z.of_nat (length cart)) d
    ∧ Forall2 (item_of d order_id) cart rows
    ∧ NoDup (OrderItem.id <$> rows)
    ∧ Forall (λ row, order_items_seq d < OrderItem.id row
                     ≤ order_items_seq d + Z.of_nat (length cart))%Z rows.
Proof.
  revert d. induction cart as [|item cart IH]; intros d; simpl.
  { intros [= <-]. exists []. rewrite app_nil_r, Z.add_0_r.
    split_and!; [by destruct d|constructor|constructor|constructor]. }
  destruct (select_price d _) as [[price|]|e] eqn:Hprice; try done. simpl.
  apply select_price_inv in Hprice as [<- _].
  destruct (insert_order_item _ _ _ _ d) as [d1|e] eqn:Hitem; [|done]. simpl.
  apply insert_order_item_row in Hitem
    as (i & x & Hpid & Horange & Hirange & Hqrange & Hx & ->).
  intros (rows & -> & Hrows & Hnodup & Hids)%IH. simpl in *.
  exists (OrderItem.mk (order_items_seq d + 1) order_id i
            (default 1%Z (item !! "quantity")) x :: rows).
  split_and!.
  - unfold with_order_items. simpl. rewrite <- app_assoc. simpl. f_equal. lia.
  - constructor; [by split_and!|].
    eapply Forall2_impl; [exact Hrows|].
    intros it row (? & ? & ? & ? & ?). by split_and!.
  - apply NoDup_cons. split; [|done].
    intros (row & Heq & Hrow)%list_elem_of_fmap. simpl in Heq.
    rewrite Forall_forall in Hids. specialize (Hids row Hrow). lia.
  - constructor; simpl; [lia|].
    eapply Forall_impl; [exact Hids|]. intros row Hrow. simpl in Hrow. lia.
Qed.

(** What a call of [create_order] that returns has done to the file:
    one order row under the next id, with the amounts as SQLite stores
    them, and one item row for each cart entry. *)
Lemma create_order_rows customer_name customer_email customer_phone
    customer_address cart tax_amount service_charge delivery_charge uuid4 now
    d o d' :
  create_order customer_name customer_email customer_phone customer_address cart
      tax_amount service_charge delivery_charge uuid4 now d = (Ok o, d') →
  ∃ a t s c T rows,
    let subtotal := Float.round2 (cart_sum d cart) in
    let row := Order.mk (orders_seq d + 1) uuid4 customer_name customer_email
                 customer_phone customer_address a t s c T "INITIATED" now in
    Sqlite.real_not_null subtotal = Ok a
    ∧ Sqlite.real_not_null tax_amount = Ok t
    ∧ Sqlite.real_not_null service_charge = Ok s
    ∧ Sqlite.real_not_null delivery_charge = Ok c
    ∧ Sqlite.real_not_null
        (Float.round2 (subtotal + tax_amount + service_charge + delivery_charge))
      = Ok T
    ∧ Forall (λ o, Order.transaction_uuid o ≠ uuid4) (orders d)
    ∧ Forall2 (item_of d (orders_seq d + 1)) cart rows
    ∧ NoDup (OrderItem.id <$> rows)
    ∧ Forall (λ row, order_items_seq d < OrderItem.id row
                     ≤ order_items_seq d + Z.of_nat (length cart))%Z rows
    ∧ d' = Database (products d) (products_seq d)
             (orders d ++ [row]) (orders_seq d + 1)
             (order_items d ++ rows)
             (order_items_seq d + Z.of_nat (length cart))
    ∧ select_order d' (orders_seq d + 1) = Some o.
Proof.
  intros (amount & order_id & d1 & Hsub & Hord & Hitems & Hsel)%create_order_ok_inv.
  apply subtotal_inv in Hsub as ->. fold (cart_sum d cart) in Hord.
  apply insert_order_row in Hord
    as (a & t & s & c & T & Ha & Ht & Hs & Hc & HT & Huuid & -> & ->).
  apply insert_items_rows in Hitems as (rows & -> & Hrows & Hnodup & Hids).
  exists a, t, s, c, T, rows. simpl in *. by split_and!.
Qed.

Lemma insert_order_bound transaction_uuid customer_name customer_email
    customer_phone customer_address amount tax_amount service_charge
    delivery_charge total_amount status now d order_id d' :
  insert_order transaction_uuid customer_name customer_email customer_phone
    customer_address amount tax_amount service_charge delivery_charge total_amount
    status now d = Ok (order_id, d') →
  (order_id < 2 ^ 63)%Z.
Proof.
  unfold insert_order.
  destruct (Sqlite.real_not_null amount) as [a|e]; [|done]. simpl.
  destruct (Sqlite.real_not_null tax_amount) as [t|e]; [|done]. simpl.
  destruct (Sqlite.real_not_null service_charge) as [s|e]; [|done]. simpl.
  destruct (Sqlite.real_not_null delivery_charge) as [c|e]; [|done]. simpl.
  destruct (Sqlite.real_not_null total_amount) as [T|e]; [|done]. simpl.
  destruct (existsb _ _); [done|].
  destruct (Sqlite.next_rowid _) as [id|e] eqn:Hid; [|done]. simpl.
  apply next_rowid_bound in Hid. by intros [= <- <-].
Qed.

Lemma create_order_bound customer_name customer_email customer_phone
    customer_address cart tax_amount service_charge delivery_charge uuid4 now
    d o d' :
  create_order customer_name customer_email customer_phone customer_address cart
      tax_amount service_charge delivery_charge uuid4 now d = (Ok o, d') →
  (orders_seq d + 1 < 2 ^ 63)%Z.
Proof.
  intros (amount & order_id & d1 & _ & Hord & _)%create_order_ok_inv.
  pose proof (insert_order_bound _ _ _ _ _ _ _ _ _ _ _ _ _ _ _ Hord) as Hbound.
  apply insert_order_inv in Hord as (-> & _). exact Hbound.
Qed.

(** In a file whose order ids do not exceed the counter, the row
    returned is the row written. *)
Lemma create_order_returns customer_name customer_email customer_phone
    customer_address cart tax_amount service_charge delivery_charge uuid4 now
    d o d' :
  consistent d →
  create_order customer_name customer_email customer_phone customer_address cart
      tax_amount service_charge delivery_charge uuid4 now d = (Ok o, d') →
  orders d' = orders d ++ [o]
  ∧ Order.id o = (orders_seq d + 1)%Z
  ∧ Order.transaction_uuid o = uuid4
  ∧ Order.status o = "INITIATED".
Proof.
  intros Hcons (a & t & s & c & T & rows & Hrows)%create_order_rows.
  simpl in Hrows.
  destruct Hrows as (_ & _ & _ & _ & _ & _ & _ & _ & _ & -> & Hsel).
  erewrite (select_order_new d) in Hsel; [|done|reflexivity|reflexivity].
  by injection Hsel as <-.
Qed.

(** The events that do not create an order rewrite the status of some
    order rows at most; an event that creates one is a call of
    [create_order] that returns. *)
Lemma step_shape `{Config} `{Library} e d :
  (∃ (f : Order.row → bool) status,
     step e d = Database (products (step e d)) (products_seq (step e d))
                  (map (λ o, if f o then Order.set_status status o else o)
                       (orders d))
                  (orders_seq d) (order_items d) (order_items_seq d))
  ∨ (∃ data uuid4 now o,
       e = Request (ApiCreateOrder data uuid4 now)
       ∧ create_order (customerName data) (customerEmail data)
           (customerPhone data) (customerAddress data) (cart data)
           (tax_amount data) (service_charge data) (delivery_charge data)
           uuid4 now d = (Ok o, step e d)).
Proof.
  assert (Hsame : ∀ d', orders d' = orders d → orders_seq d' = orders_seq d →
            order_items d' = order_items d →
            order_items_seq d' = order_items_seq d →
            ∃ (f : Order.row → bool) status,
              d' = Database (products d') (products_seq d')
                     (map (λ o, if f o then Order.set_status status o else o)
                          (orders d))
                     (orders_seq d) (order_items d) (order_items_seq d)).
  { intros d' <- <- <- <-. exists (λ _, false), "".
    rewrite map_id. by destruct d'. }
  assert (Hupd : ∀ u status,
            ∃ (f : Order.row → bool) status',
              (update_order_status u status d).2
              = Database (products (update_order_status u status d).2)
                  (products_seq (update_order_status u status d).2)
                  (map (λ o, if f o then Order.set_status status' o else o)
                       (orders d))
                  (orders_seq d) (order_items d) (order_items_seq d)).
  { intros u status. rewrite update_order_status_eq.
    destruct (Sqlite.bind_param u) as [key|e0]; [|by apply Hsame].
    by exists (uuid_matches key), status. }
  destruct e as [|[filename|data uuid4 now|order_id|query_params|edit_id delete_id
                  |id name description price image_url|transaction_uuid]];
    unfold step, handle.
  - left. by destruct (init_db_cases d) as [Heq|(ps & _ & Heq)];
      rewrite Heq; apply Hsame.
  - left. by apply Hsame.
  - unfold api_create_order.
    destruct (create_order _ _ _ _ _ _ _ _ _ _ d) as [[o|e] d'] eqn:Hcreate.
    + right. by exists data, uuid4, now, o.
    + left. apply create_order_atomic in Hcreate as ->.
      destruct e; by apply Hsame.
  - left. rewrite api_initiate_payment_reads. by apply Hsame.
  - left. unfold esewa_callback. case_bool_decide; [by apply Hsame|].
    destruct (query_params !! "data") as [[|c data]|]; try by apply Hsame.
    unfold esewa_callback_try.
    destruct (_ ≫= _) as [[| | | | | |payload]|e]; try by apply Hsame.
    destruct (_ && _); [|by apply Hsame].
    destruct (Hupd (get payload "transaction_uuid") "COMPLETED") as (f & s & Heq).
    destruct (update_order_status _ _ d) as [[[]|e] d']; by exists f, s.
  - left. unfold admin_products. destruct (int_truthy delete_id).
    + rewrite delete_product_eq.
      destruct (Sqlite.integer _); by apply Hsame.
    + destruct (int_truthy edit_id); [|by apply Hsame].
      destruct (get_product _ d); by apply Hsame.
  - left. unfold admin_save_product. destruct (negb _); [by apply Hsame|].
    cbn [snd]. destruct (int_truthy id).
    + rewrite update_product_eq.
      destruct (Sqlite.integer _) as [i|e]; [|by apply Hsame]. simpl.
      destruct (select_product d i); [|by apply Hsame].
      destruct (Sqlite.real_not_null _); by apply Hsame.
    + rewrite create_product_eq.
      destruct (insert_product _ _ _ _ d) as [[pid d']|e] eqn:Hins;
        [|by apply Hsame].
      apply insert_product_inv in Hins as (_ & x & _ & ->). by apply Hsame.
  - left. unfold admin_confirm_order.
    destruct (Hupd (PyStr transaction_uuid) "COMPLETED") as (f & s & Heq).
    destruct (update_order_status _ _ d) as [[[]|e] d']; by exists f, s.
Qed.

End ledger_facts.

(** *** Amounts as stored *)

Section float_facts.

Lemma is_zero_spec x : is_zero x = true ↔ ∃ s, Prim2SF x = S754_zero s.
Proof.
  unfold is_zero. rewrite FloatAxioms.eqb_spec.
  change (Prim2SF PrimFloat.zero) with (S754_zero false).
  destruct (Prim2SF x) as [s|s| |s m e]; simpl.
  - split; eauto.
  - split; [by destruct s|]. by intros [? ?].
  - split; [done|by intros [? ?]].
  - split; [by destruct s|by intros [? ?]].
Qed.

Lemma not_zero_spec x s : is_zero x = false → Prim2SF x ≠ S754_zero s.
Proof.
  intros Hx Heq. assert (is_zero x = true) by (apply is_zero_spec; eauto).
  congruence.
Qed.

Lemma add_zero_zero x y :
  is_zero x = true → is_zero y = true → is_zero (x + y) = true.
Proof.
  intros [sx Hx]%is_zero_spec [sy Hy]%is_zero_spec. apply is_zero_spec.
  rewrite add_spec, Hx, Hy. destruct sx, sy; simpl; eauto.
Qed.

Lemma add_zero_l x y :
  is_zero x = true → is_zero y = false → (x + y)%float = y.
Proof.
  intros [sx Hx]%is_zero_spec Hy. apply Prim2SF_inj.
  rewrite add_spec, Hx.
  pose proof (λ s, not_zero_spec y s Hy) as Hny.
  destruct (Prim2SF y) as [s|s| |s m e]; simpl; try done. by destruct (Hny s).
Qed.

Lemma add_zero_r x y :
  is_zero y = true → is_zero x = false → (x + y)%float = x.
Proof.
  intros [sy Hy]%is_zero_spec Hx. apply Prim2SF_inj.
  rewrite add_spec, Hy.
  pose proof (λ s, not_zero_spec x s Hx) as Hnx.
  destruct (Prim2SF x) as [s|s| |s m e]; simpl; try done. by destruct (Hnx s).
Qed.

Lemma alike_sym x y : alike x y → alike y x.
Proof. intros [->|[??]]; [by left|by right]. Qed.

Lemma alike_trans x y z : alike x y → alike y z → alike x z.
Proof.
  intros [->|[Hx Hy]] [->|[Hy' Hz]]; try by left.
  - by right.
  - by right.
  - by right.
Qed.

(** Float addition cannot tell apart what [==] cannot. *)
Lemma alike_add x x' y y' :
  alike x x' → alike y y' → alike (x + y)%float (x' + y')%float.
Proof.
  intros [->|[Hx Hx']] [->|[Hy Hy']].
  - by left.
  - destruct (is_zero x') eqn:Hz.
    + right. split; by apply add_zero_zero.
    + left. by rewrite !add_zero_r.
  - destruct (is_zero y') eqn:Hz.
    + right. split; by apply add_zero_zero.
    + left. by rewrite !add_zero_l.
  - right. split; by apply add_zero_zero.
Qed.

Lemma round2_zero x : is_zero x = true → Float.round2 x = x.
Proof. intros [s Hx]%is_zero_spec. unfold Float.round2. by rewrite Hx. Qed.

Lemma alike_round2 x y : alike x y → alike (Float.round2 x) (Float.round2 y).
Proof.
  intros [->|[Hx Hy]]; [by left|]. right. by rewrite !round2_zero.
Qed.

Lemma alike_eqb x y : alike x y → is_nan x = false → (x =? y)%float = true.
Proof.
  intros [->|[[sx Hx]%is_zero_spec [sy Hy]%is_zero_spec]] Hnan.
  - unfold is_nan in Hnan. by apply negb_false_iff in Hnan.
  - by rewrite FloatAxioms.eqb_spec, Hx, Hy.
Qed.

(** SQLite gives back a float that [==] cannot tell from the one stored. *)
Lemma real_not_null_alike x y : Sqlite.real_not_null x = Ok y → alike x y.
Proof.
  unfold Sqlite.real_not_null. destruct (is_nan x); [done|].
  destruct (is_zero x) eqn:Hz; intros [= <-]; [by right|by left].
Qed.

(** The row [create_order] writes is balanced. *)
Lemma balanced_row id transaction_uuid customer_name customer_email customer_phone
    customer_address status now (amount tax_amount service_charge delivery_charge
    a t s c T : float) :
  Sqlite.real_not_null amount = Ok a →
  Sqlite.real_not_null tax_amount = Ok t →
  Sqlite.real_not_null service_charge = Ok s →
  Sqlite.real_not_null delivery_charge = Ok c →
  Sqlite.real_not_null
    (Float.round2 (amount + tax_amount + service_charge + delivery_charge)) = Ok T →
  balanced (Order.mk id transaction_uuid customer_name customer_email customer_phone
              customer_address a t s c T status now).
Proof.
  intros Ha Ht Hs Hc HT. unfold balanced. simpl.
  pose proof (real_not_null_number _ _ HT) as Hnan.
  apply real_not_null_alike in Ha, Ht, Hs, Hc, HT.
  apply alike_eqb; [|done].
  eapply alike_trans; [apply alike_sym, HT|].
  by apply alike_round2; repeat apply alike_add.
Qed.

End float_facts.

(** *** What every state of the server has *)

Section invariants.
Context `{Config} `{Library}.

(** A property of order rows that a change of status keeps, and that
    the row of every created order has, holds of every row in every
    state. *)
Lemma reachable_orders (P : Order.row → Prop) :
  (∀ s o, P o → P (Order.set_status s o)) →
  (∀ customer_name customer_email customer_phone customer_address cart
     tax_amount service_charge delivery_charge uuid4 now d o d',
     create_order customer_name customer_email customer_phone customer_address
       cart tax_amount service_charge delivery_charge uuid4 now d = (Ok o, d') →
     consistent d → P o) →
  ∀ d, reachable d → Forall P (orders d).
Proof.
  intros Hset Hnew d Hreach.
  pose proof Hreach as [es ->]. clear Hreach.
  induction es as [|e es IH] using rev_ind.
  - unfold run. cbn [foldl]. rewrite init_db_orders. constructor.
  - assert (Hcons : consistent (run es (init_db empty_database))).
    { apply reachable_consistent. by exists es. }
    unfold run in *. rewrite foldl_snoc.
    set (d := foldl (λ d e, step e d) (init_db empty_database) es) in *.
    destruct (step_shape e d) as [(f & s & ->)|(data & uuid4 & now & o & _ & Hcreate)].
    + simpl. apply Forall_fmap. eapply Forall_impl; [exact IH|].
      intros o Ho. simpl. destruct (f o); auto.
    + pose proof (create_order_returns _ _ _ _ _ _ _ _ _ _ _ _ _ Hcons Hcreate)
        as (-> & _).
      apply Forall_app. split; [done|]. apply Forall_singleton. eauto.
Qed.

End invariants.

(** X3. In every state the server reaches, the total of each stored
    order equals, as Python compares floats, the sum of its stored
    subtotal, tax, service charge and delivery charge rounded to two
    decimals. *)
Theorem reachable_orders_balanced `{Config} `{Library} (d : database) :
  reachable d → Forall balanced (orders d).
Proof.
  apply reachable_orders.
  - intros s o Ho. exact Ho.
  - intros cn ce cp ca cart t s c uuid4 now d0 o d' Hcreate Hcons.
    pose proof (create_order_returns _ _ _ _ _ _ _ _ _ _ _ _ _ Hcons Hcreate)
      as (Ho & _).
    apply create_order_rows in Hcreate
      as (a' & t' & s' & c' & T & rows & Hrows). simpl in Hrows.
    destruct Hrows as (Ha & Ht & Hs & Hc & HT & _ & _ & _ & _ & -> & _).
    simpl in Ho. apply app_inj_tail in Ho as [_ <-].
    by eapply balanced_row.
Qed.

(** *** The tables stay well formed *)

Section tables.
Context `{Config} `{Library}.

Lemma fmap_map_keep {A B} (g : A → B) (f : A → A) (l : list A) :
  (∀ x, g (f x) = g x) → g <$> map f l = g <$> l.
Proof.
  intros Hkeep. induction l as [|x l IH]; simpl; [done|].
  rewrite Hkeep. f_equal. exact IH.
Qed.

Lemma NoDup_fmap_filter {A B} (g : A → B) (P : A → Prop)
    `{∀ x, Decision (P x)} (l : list A) :
  NoDup (g <$> l) → NoDup (g <$> filter P l).
Proof.
  induction l as [|x l IH]; simpl; [done|].
  rewrite NoDup_cons. intros [Hx Hl]. rewrite filter_cons.
  destruct (decide (P x)); [|auto].
  rewrite fmap_cons. apply NoDup_cons. split; [|auto].
  intros (y & Heq & [_ Hy]%list_elem_of_filter)%list_elem_of_fmap.
  apply Hx. rewrite Heq. by apply list_elem_of_fmap_2.
Qed.

(** A property of every state the server reaches. *)
Lemma reachable_ind (I : database → Prop) :
  I (init_db empty_database) →
  (∀ e d, reachable d → I d → I (step e d)) →
  ∀ d, reachable d → I d.
Proof.
  intros Hinit Hstep d [es ->].
  induction es as [|e es IH] using rev_ind; [done|].
  unfold run in *. rewrite foldl_snoc. apply Hstep; [by exists es|done].
Qed.

(** **** The catalogue *)

Lemma catalogue_frame d d' :
  products d' = products d → products_seq d' = products_seq d →
  catalogue_ok d → catalogue_ok d' ∧ catalogue_step d d'.
Proof.
  intros Hp Hs (Hseq & Hnd & Hok). unfold catalogue_ok, catalogue_step.
  rewrite Hp, Hs. split_and!; try done; try lia.
  apply Forall_forall. intros p Hin. left. by apply list_elem_of_fmap_2.
Qed.

Lemma catalogue_step_trans d1 d2 d3 :
  catalogue_step d1 d2 → catalogue_step d2 d3 → catalogue_step d1 d3.
Proof.
  intros [Hs1 H1] [Hs2 H2]. split; [lia|].
  apply Forall_forall. intros p Hp. rewrite Forall_forall in H1, H2.
  destruct (H2 p Hp) as [(q & Heq & Hq)%list_elem_of_fmap|Hlt]; [|right; lia].
  rewrite Heq. destruct (H1 q Hq) as [?|?]; [by left|by right].
Qed.

Lemma catalogue_insert name description price image_url d id d' :
  catalogue_ok d →
  name ≠ "" → description ≠ "" → image_url ≠ "" → is_zero price = false →
  insert_product name description price image_url d = Ok (id, d') →
  catalogue_ok d' ∧ catalogue_step d d'.
Proof.
  intros (Hseq & Hnd & Hok) Hn Hde Hu Hz Hins.
  pose proof (insert_product_bound _ _ _ _ _ _ _ Hins) as Hbound.
  apply insert_product_inv in Hins as (-> & x & Hx & ->).
  pose proof (real_not_null_number _ _ Hx) as Hnan.
  apply real_not_null_keeps in Hx as ->; [|done].
  unfold catalogue_ok, catalogue_step. simpl. split_and!.
  - lia.
  - lia.
  - rewrite fmap_app. apply NoDup_app. split_and!; [done| |apply NoDup_singleton].
    intros i (p & -> & Hp)%list_elem_of_fmap Hi%list_elem_of_singleton.
    rewrite Forall_forall in Hok. destruct (Hok p Hp) as [? _]. simpl in Hi. lia.
  - apply Forall_app. split.
    + eapply Forall_impl; [exact Hok|]. intros p (? & ?). split; [lia|done].
    + apply Forall_singleton. unfold product_ok. simpl. split_and!; try done; lia.
  - lia.
  - apply Forall_app. split.
    + apply Forall_forall. intros p Hp. left. by apply list_elem_of_fmap_2.
    + apply Forall_singleton. right. simpl. lia.
Qed.

Lemma catalogue_insert_all rows d d' :
  catalogue_ok d → Forall seed_ok rows → insert_products rows d = Ok d' →
  catalogue_ok d' ∧ catalogue_step d d'.
Proof.
  intros Hok Hrows. revert d Hok.
  induction Hrows
    as [|[[[name description] price] image_url] rows (Hn & Hde & Hu & Hnan & Hz) _ IH];
    intros d Hok; simpl.
  - intros [= <-]. by apply catalogue_frame.
  - destruct (insert_product _ _ _ _ d) as [[id d1]|e] eqn:Hins; [|done]. simpl.
    intros Hrest. simpl in *.
    destruct (catalogue_insert _ _ _ _ _ _ _ Hok Hn Hde Hu Hz Hins) as [Hok1 Hstep1].
    destruct (IH d1 Hok1 Hrest) as [Hok2 Hstep2]. split; [done|].
    by eapply catalogue_step_trans.
Qed.

Lemma seed_products_ok : Forall seed_ok seed_products.
Proof.
  unfold seed_products.
  repeat (apply Forall_cons_2; [by split_and!|]). apply Forall_nil_2.
Qed.

Lemma catalogue_update i name description x image_url d :
  catalogue_ok d →
  name ≠ "" → description ≠ "" → image_url ≠ "" →
  is_nan x = false → is_zero x = false →
  let d' := with_products
              (map (λ p, if bool_decide (Product.id p = i)
                         then Product.mk i name description x image_url else p)
                   (products d))
              (products_seq d) d in
  catalogue_ok d' ∧ catalogue_step d d'.
Proof.
  intros (Hseq & Hnd & Hok) Hn Hde Hu Hnan Hz d'.
  assert (Hids : Product.id <$> products d' = Product.id <$> products d).
  { unfold d'. simpl. apply fmap_map_keep. intros p. by case_bool_decide. }
  unfold catalogue_ok, catalogue_step. rewrite Hids.
  split_and!; try done; try (unfold d'; simpl; lia).
  - unfold d'. simpl. apply Forall_fmap. eapply Forall_impl; [exact Hok|].
    intros p (Hid & Hp). simpl. case_bool_decide as Hi; [|done].
    unfold product_ok. simpl. by rewrite <- Hi.
  - apply Forall_forall. intros p Hp. left. rewrite <- Hids.
    by apply list_elem_of_fmap_2.
Qed.

Lemma catalogue_delete i d :
  catalogue_ok d →
  let d' := with_products (filter (λ p, Product.id p ≠ i) (products d))
              (products_seq d) d in
  catalogue_ok d' ∧ catalogue_step d d'.
Proof.
  intros (Hseq & Hnd & Hok) d'. unfold catalogue_ok, catalogue_step, d'. simpl.
  rewrite Forall_forall in Hok. split_and!; try done; try lia.
  - by apply NoDup_fmap_filter.
  - apply Forall_forall. intros p [_ Hp]%list_elem_of_filter. auto.
  - apply Forall_forall. intros p [_ Hp]%list_elem_of_filter. left.
    by apply list_elem_of_fmap_2.
Qed.

(** The events on orders leave the catalogue alone. *)
Lemma step_keeps_catalogue e d :
  match e with
  | Restart | Request (AdminProducts _ _) | Request (AdminSaveProduct _ _ _ _ _) =>
      True
  | _ => products (step e d) = products d
         ∧ products_seq (step e d) = products_seq d
  end.
Proof.
  assert (Hupd : ∀ u status,
            products (update_order_status u status d).2 = products d
            ∧ products_seq (update_order_status u status d).2 = products_seq d).
  { intros u status. rewrite update_order_status_eq.
    by destruct (Sqlite.bind_param u). }
  destruct e as [|[filename|data uuid4 now|order_id|query_params|edit_id delete_id
                  |id name description price image_url|transaction_uuid]];
    unfold step, handle; try done.
  - unfold api_create_order.
    destruct (create_order _ _ _ _ _ _ _ _ _ _ d) as [[o|e] d'] eqn:Hcreate.
    + apply create_order_rows in Hcreate as (a & t & s & c & T & rows & Hrows).
      simpl in Hrows. by destruct Hrows as (_ & _ & _ & _ & _ & _ & _ & _ & _ & -> & _).
    + apply create_order_atomic in Hcreate as ->. by destruct e.
  - by rewrite api_initiate_payment_reads.
  - unfold esewa_callback. case_bool_decide; [done|].
    destruct (query_params !! "data") as [[|c data]|]; try done.
    unfold esewa_callback_try.
    destruct (_ ≫= _) as [[| | | | | |payload]|e]; try done.
    destruct (_ && _); [|done].
    specialize (Hupd (get payload "transaction_uuid") "COMPLETED").
    by destruct (update_order_status _ _ d) as [[[]|e] d'].
Qed.

Lemma str_truthy_inv s : str_truthy s = true → ∃ x, s = Some x ∧ x ≠ "".
Proof. destruct s as [[|c s]|]; try done. by eexists. Qed.

Lemma float_truthy_inv p : float_truthy p = true → ∃ x, p = Some x ∧ is_zero x = false.
Proof.
  destruct p as [x|]; [|done]. simpl. intros Hx%negb_true_iff. by exists x.
Qed.

(** Every event keeps the catalogue well formed and moves it as
    [catalogue_step] allows. *)
Lemma step_catalogue e d :
  catalogue_ok d → catalogue_ok (step e d) ∧ catalogue_step d (step e d).
Proof.
  intros Hok. pose proof (step_keeps_catalogue e d) as Hkeep.
  destruct e as [|[filename|data uuid4 now|order_id|query_params|edit_id delete_id
                  |id name description price image_url|transaction_uuid]];
    try (by apply catalogue_frame; [apply Hkeep|apply Hkeep|]).
  - unfold step. rewrite init_db_eq.
    destruct (products d) as [|p ps] eqn:Hps; [|by apply catalogue_frame].
    destruct (insert_products seed_products d) as [d'|e] eqn:Hins;
      [|by apply catalogue_frame].
    eapply catalogue_insert_all; [done|apply seed_products_ok|done].
  - unfold step, handle, admin_products. destruct (int_truthy delete_id).
    + rewrite delete_product_eq.
      destruct (Sqlite.integer _) as [i|e]; [|by apply catalogue_frame].
      by apply catalogue_delete.
    + destruct (int_truthy edit_id); [|by apply catalogue_frame].
      destruct (get_product _ d); by apply catalogue_frame.
  - unfold step, handle, admin_save_product.
    destruct (_ && _) eqn:Hall; simpl; [|by apply catalogue_frame].
    apply andb_true_iff in Hall as [Hall Hurl].
    apply andb_true_iff in Hall as [Hall Hprice].
    apply andb_true_iff in Hall as [Hname Hdesc].
    apply str_truthy_inv in Hname as (n & -> & Hn), Hdesc as (de & -> & Hde),
      Hurl as (u & -> & Hu).
    apply float_truthy_inv in Hprice as (x & -> & Hx). simpl.
    destruct (int_truthy id).
    + rewrite update_product_eq.
      destruct (Sqlite.integer _) as [i|e]; [|by apply catalogue_frame]. simpl.
      destruct (select_product d i); [|by apply catalogue_frame].
      destruct (Sqlite.real_not_null x) as [y|e] eqn:Hy; [|by apply catalogue_frame].
      pose proof (real_not_null_number _ _ Hy) as Hnan.
      apply real_not_null_keeps in Hy as ->; [|done].
      by apply catalogue_update.
    + rewrite create_product_eq.
      destruct (insert_product _ _ _ _ d) as [[pid d']|e] eqn:Hins;
        [|by apply catalogue_frame].
      exact (catalogue_insert _ _ _ _ _ _ _ Hok Hn Hde Hu Hx Hins).
Qed.

Lemma reachable_catalogue_ok d : reachable d → catalogue_ok d.
Proof.
  apply reachable_ind.
  - apply (step_catalogue Restart empty_database).
    split_and!; [done|done|constructor|constructor].
  - intros e d0 _ Hok. by apply step_catalogue.
Qed.

Lemma select_product_None d i :
  select_product d i = None ↔ i ∉ Product.id <$> products d.
Proof.
  unfold select_product. split.
  - intros Hfind (p & -> & Hp)%list_elem_of_fmap.
    apply list_elem_of_In in Hp.
    apply (find_none _ _ Hfind) in Hp. by rewrite bool_decide_eq_true_2 in Hp.
  - intros Hnot. destruct (find _ _) as [p|] eqn:Hfind; [|done].
    apply find_some in Hfind as [Hin Hid%bool_decide_eq_true].
    destruct Hnot. rewrite <- Hid. apply list_elem_of_fmap_2.
    by apply list_elem_of_In.
Qed.

(** **** The orders and their items *)

Lemma ledger_consistent d : ledger_ok d → consistent d.
Proof.
  intros (Hseq & _ & _ & Hids). split; [lia|].
  eapply Forall_impl; [exact Hids|]. intros o Ho. simpl in Ho. lia.
Qed.

Lemma step_ledger e d : ledger_ok d → ledger_ok (step e d).
Proof.
  intros Hok. pose proof (ledger_consistent d Hok) as Hcons.
  destruct Hok as (Hseq & Hnd & Hnu & Hids).
  destruct (step_shape e d) as [(f & s & ->)|(data & uuid4 & now & o & _ & Hcreate)].
  - unfold ledger_ok. simpl. split_and!; try done; try lia.
    + rewrite fmap_map_keep; [done|]. intros o. by destruct (f o).
    + rewrite fmap_map_keep; [done|]. intros o. by destruct (f o).
    + apply Forall_fmap. eapply Forall_impl; [exact Hids|].
      intros o Ho. simpl. by destruct (f o).
  - pose proof (create_order_bound _ _ _ _ _ _ _ _ _ _ _ _ _ Hcreate) as Hbound.
    apply create_order_rows in Hcreate as (a & t & s & c & T & rows & Hrows).
    simpl in Hrows.
    destruct Hrows as (_ & _ & _ & _ & _ & Huuid & _ & _ & _ & -> & _).
    unfold ledger_ok. simpl. rewrite !fmap_app. simpl. split_and!.
    + lia.
    + lia.
    + apply NoDup_app. split_and!; [done| |apply NoDup_singleton].
      intros i (p & -> & Hp)%list_elem_of_fmap Hi%list_elem_of_singleton.
      rewrite Forall_forall in Hids. specialize (Hids p Hp). simpl in Hids. lia.
    + apply NoDup_app. split_and!; [done| |apply NoDup_singleton].
      intros u (p & -> & Hp)%list_elem_of_fmap Hu%list_elem_of_singleton.
      rewrite Forall_forall in Huuid. by apply (Huuid p Hp).
    + apply Forall_app. split.
      * eapply Forall_impl; [exact Hids|]. intros p Hp. simpl in *. lia.
      * apply Forall_singleton. simpl. lia.
Qed.

Lemma reachable_ledger_ok d : reachable d → ledger_ok d.
Proof.
  apply reachable_ind.
  - unfold ledger_ok. rewrite init_db_orders, init_db_orders_seq. simpl.
    split_and!; (done || constructor).
  - intros e d0 _ Hok. by apply step_ledger.
Qed.

Lemma step_items e d : ledger_ok d → items_ok d → items_ok (step e d).
Proof.
  intros Hledger (Hseq & Hnd & Hok).
  destruct (step_shape e d) as [(f & s & ->)|(data & uuid4 & now & o & _ & Hcreate)].
  - unfold items_ok. simpl. split_and!; try done.
    rewrite fmap_map_keep; [done|]. intros o. by destruct (f o).
  - apply create_order_rows in Hcreate as (a & t & s & c & T & rows & Hrows).
    simpl in Hrows.
    destruct Hrows as (_ & _ & _ & _ & _ & _ & Hrows & Hnew & Hids & -> & _).
    unfold items_ok. simpl. rewrite !fmap_app. simpl. split_and!.
    + lia.
    + apply NoDup_app. split_and!; [done| |done].
      intros i (it & -> & Hit)%list_elem_of_fmap (it' & Heq & Hit')%list_elem_of_fmap.
      rewrite Forall_forall in Hok, Hids.
      destruct (Hok it Hit) as [? _]. specialize (Hids it' Hit'). simpl in *. lia.
    + apply Forall_app. split.
      * eapply Forall_impl; [exact Hok|].
        intros it ([? ?] & ? & ? & ?).
        split_and!; [lia|lia|apply elem_of_app; by left|done|done].
      * apply Forall_forall. intros it Hit. rewrite Forall_forall in Hids.
        specialize (Hids it Hit). simpl in Hids.
        apply list_elem_of_lookup in Hit as [k Hk].
        destruct (Forall2_lookup_r _ _ _ _ _ Hrows Hk)
          as (item & _ & Hoid & _ & _ & Hq & Hprice).
        split_and!; try done; try lia.
        -- apply elem_of_app. right. rewrite Hoid. apply list_elem_of_singleton. done.
        -- by eapply real_not_null_number.
Qed.

Lemma reachable_items_ok d : reachable d → items_ok d.
Proof.
  intros Hreach. revert d Hreach. apply reachable_ind.
  - destruct (init_db_cases empty_database) as [Heq|(ps & _ & Heq)]; rewrite Heq;
      (split_and!; [done|constructor|constructor]).
  - intros e d0 Hreach Hok. apply step_items; [|done].
    by apply reachable_ledger_ok.
Qed.

End tables.

Section itemised_facts.
Context `{Config} `{Library}.

Lemma filter_all {A} (P : A → Prop) `{∀ x, Decision (P x)} (l : list A) :
  Forall P l → filter P l = l.
Proof.
  induction 1 as [|x l Hx _ IH]; [done|].
  rewrite filter_cons_True by done. by rewrite IH.
Qed.






(** A list whose images under [g] are pairwise distinct is searched by
    image: the row found is the row at hand. *)
Lemma find_unique {A} (g : A → Z) (l : list A) (x : A) :
  NoDup (g <$> l) → x ∈ l →
  find (λ y, bool_decide (g y = g x)) l = Some x.
Proof.
  induction l as [|y l IH]; simpl; [by intros _ ?%elem_of_nil|].
  rewrite NoDup_cons. intros [Hy Hl] [->|Hx]%elem_of_cons.
  - by rewrite bool_decide_eq_true_2.
  - rewrite bool_decide_eq_false_2; [by apply IH|].
    intros Heq. apply Hy. rewrite Heq. by apply list_elem_of_fmap_2.
Qed.

Lemma find_unique_uuid (l : list Order.row) (x : Order.row) :
  NoDup (Order.transaction_uuid <$> l) → x ∈ l →
  find (uuid_matches (Sqlite.Text (Order.transaction_uuid x))) l = Some x.
Proof.
  induction l as [|y l IH]; simpl; [by intros _ ?%elem_of_nil|].
  rewrite NoDup_cons. intros [Hy Hl] [->|Hx]%elem_of_cons.
  - by rewrite bool_decide_eq_true_2.
  - rewrite bool_decide_eq_false_2; [by apply IH|].
    intros Heq. apply Hy. rewrite Heq. by apply list_elem_of_fmap_2.
Qed.

(** The catalogue of a run from a well-formed catalogue. *)
Lemma run_catalogue es d :
  catalogue_ok d → catalogue_ok (run es d) ∧ catalogue_step d (run es d).
Proof.
  intros Hok. induction es as [|e es [IH1 IH2]] using rev_ind.
  - by apply catalogue_frame.
  - unfold run in *. rewrite foldl_snoc.
    destruct (step_catalogue e _ IH1) as [? ?]. split; [done|].
    by eapply catalogue_step_trans.
Qed.

End itemised_facts.

(** X4. In every state the server reaches, every product of the
    listing is the one found under its id, its price is a number other
    than zero, and its name, description and image are not empty. *)
Theorem reachable_products_well_formed `{Config} `{Library}
    (d : database) (p : Product.row) :
  reachable d → p ∈ get_products d →
  get_product (Product.id p) d = Ok (Some p)
  ∧ (0 < Product.id p)%Z
  ∧ is_nan (Product.price p) = false ∧ is_zero (Product.price p) = false
  ∧ Product.name p ≠ "" ∧ Product.description p ≠ ""
  ∧ Product.image_url p ≠ "".
Proof.
  intros (Hseq & Hnd & Hok)%reachable_catalogue_ok Hp. unfold get_products in Hp.
  rewrite Forall_forall in Hok.
  destruct (Hok p Hp) as (Hid & Hnan & Hz & Hn & Hde & Hu).
  split_and!; try done; [|lia].
  unfold get_product. rewrite integer_ok by (unfold int64; lia). simpl.
  unfold select_product. by rewrite find_unique.
Qed.

(** X5. In every state the server reaches, every stored order is the
    one found under its id and the one found under its transaction id:
    no two orders share either. *)
Theorem reachable_orders_unique `{Config} `{Library}
    (d : database) (o : Order.row) :
  reachable d → o ∈ orders d →
  get_order_by_id (Order.id o) d = Ok (Some o)
  ∧ get_order_by_uuid (PyStr (Order.transaction_uuid o)) d = Ok (Some o)
  ∧ (0 < Order.id o)%Z.
Proof.
  intros (Hseq & Hnd & Hnu & Hids)%reachable_ledger_ok Ho.
  rewrite Forall_forall in Hids. specialize (Hids o Ho). simpl in Hids.
  split_and!; [| |lia].
  - unfold get_order_by_id. rewrite integer_ok by (unfold int64; lia). simpl.
    unfold select_order. by rewrite find_unique.
  - unfold get_order_by_uuid. simpl. by rewrite find_unique_uuid.
Qed.

(** X6. In every state the server reaches, every item row belongs to
    a stored order, which is the one read under the row's order id, no
    two item rows share an id, and each holds a price that is a number. *)
Theorem reachable_items_belong `{Config} `{Library}
    (d : database) (it : OrderItem.row) :
  reachable d → it ∈ order_items d →
  (∃ o, o ∈ orders d ∧ Order.id o = OrderItem.order_id it
        ∧ get_order_by_id (OrderItem.order_id it) d = Ok (Some o))
  ∧ (∀ it', it' ∈ order_items d → OrderItem.id it' = OrderItem.id it → it' = it)
  ∧ (0 < OrderItem.id it)%Z
  ∧ is_nan (OrderItem.price it) = false.
Proof.
  intros Hreach Hit.
  pose proof (reachable_ledger_ok _ Hreach) as (Hoseq & Hond & _ & Hoids).
  pose proof (reachable_items_ok _ Hreach) as (Hseq & Hnd & Hok).
  rewrite Forall_forall in Hok.
  destruct (Hok it Hit) as (Hid & (o & Heq & Ho)%list_elem_of_fmap & Hq & Hp).
  split_and!; [|..|lia|done].
  - exists o. split; [done|]. split; [done|].
    rewrite Forall_forall in Hoids. specialize (Hoids o Ho). simpl in Hoids.
    rewrite Heq. unfold get_order_by_id.
    rewrite integer_ok by (unfold int64; lia). simpl.
    unfold select_order. by rewrite find_unique.
  - intros it' Hit' Heq'.
    pose proof (find_unique OrderItem.id _ _ Hnd Hit) as Hfind.
    pose proof (find_unique OrderItem.id _ _ Hnd Hit') as Hfind'.
    rewrite Heq' in Hfind'. congruence.
Qed.


(** X8. A product id is never given out twice: once a product of some
    state has gone from the catalogue, no later state has a product
    under its id. *)
Theorem product_ids_never_reused `{Config} `{Library}
    (d : database) (p : Product.row) (es es' : list event) :
  reachable d → p ∈ get_products d →
  get_product (Product.id p) (run es d) = Ok None →
  get_product (Product.id p) (run (es ++ es') d) = Ok None.
Proof.
  intros Hok%reachable_catalogue_ok Hp Hgone.
  pose proof Hok as (Hseq & _ & Hrows). unfold get_products in Hp.
  rewrite Forall_forall in Hrows. destruct (Hrows p Hp) as [Hid _].
  destruct (run_catalogue es d Hok) as [Hok1 [Hseq1 _]].
  destruct (run_catalogue es' (run es d) Hok1) as [Hok2 [Hseq2 Hstep]].
  unfold run in *. rewrite foldl_app.
  set (d1 := foldl (λ d e, step e d) d es) in *.
  set (d2 := foldl (λ d e, step e d) d1 es') in *.
  unfold get_product in *. rewrite integer_ok in * by (unfold int64; lia).
  simpl in *. injection Hgone as Hgone. f_equal.
  apply select_product_None in Hgone. apply select_product_None.
  intros (q & Heq & Hq)%list_elem_of_fmap.
  rewrite Forall_forall in Hstep. destruct (Hstep q Hq) as [Hin|Hlt].
  - apply Hgone. by rewrite Heq.
  - lia.
Qed.

(** *** Products written and read back *)

Section lookups.

Lemma find_map_keep {A} (P : A → bool) (f : A → A) (l : list A) :
  (∀ x, P (f x) = P x) → find P (map f l) = f <$> find P l.
Proof.
  intros Hkeep. induction l as [|x l IH]; simpl; [done|].
  rewrite Hkeep. by destruct (P x).
Qed.

Lemma find_app_l {A} (P : A → bool) (l k : list A) (x : A) :
  find P l = Some x → find P (l ++ k) = Some x.
Proof.
  induction l as [|y l IH]; simpl; [done|]. by destruct (P y).
Qed.

Lemma find_app_miss {A} (P : A → bool) (l : list A) (x : A) :
  P x = false → find P (l ++ [x]) = find P l.
Proof.
  intros Hx. induction l as [|y l IH]; simpl; [by rewrite Hx|].
  by destruct (P y).
Qed.

Lemma find_filter {A} (P : A → bool) (Q : A → Prop) `{∀ x, Decision (Q x)}
    (l : list A) :
  (∀ x, P x = true → Q x) → find P (filter Q l) = find P l.
Proof.
  intros HPQ. induction l as [|x l IH]; simpl; [done|].
  rewrite filter_cons. destruct (decide (Q x)) as [Hq|Hq]; simpl.
  - by rewrite IH.
  - destruct (P x) eqn:Hp; [by destruct Hq; auto|done].
Qed.

Lemma find_filter_none {A} (P : A → bool) (Q : A → Prop) `{∀ x, Decision (Q x)}
    (l : list A) :
  (∀ x, P x = true → ¬ Q x) → find P (filter Q l) = None.
Proof.
  intros HPQ. induction l as [|x l IH]; simpl; [done|].
  rewrite filter_cons. destruct (decide (Q x)) as [Hq|Hq]; simpl; [|done].
  destruct (P x) eqn:Hp; [by destruct (HPQ x Hp)|done].
Qed.

Lemma get_product_inv i d r :
  get_product i d = Ok r → int64 i ∧ select_product d i = r.
Proof.
  unfold get_product.
  destruct (Sqlite.integer i) as [j|e] eqn:Hi; [|done]. simpl.
  apply integer_inv in Hi as [-> Hrange]. by intros [= <-].
Qed.

Lemma get_order_by_id_inv i d r :
  get_order_by_id i d = Ok r → int64 i ∧ select_order d i = r.
Proof.
  unfold get_order_by_id.
  destruct (Sqlite.integer i) as [j|e] eqn:Hi; [|done]. simpl.
  apply integer_inv in Hi as [-> Hrange]. by intros [= <-].
Qed.

(** Reading a product goes by the products table only. *)
Lemma get_product_ext i d d' :
  select_product d' i = select_product d i → get_product i d' = get_product i d.
Proof.
  intros Hsel. unfold get_product.
  destruct (Sqlite.integer i) as [j|e] eqn:Hi; [|done]. simpl.
  apply integer_inv in Hi as [-> _]. by rewrite Hsel.
Qed.

End lookups.

(** X9. [create_product] with a price that is a number, in a catalogue
    whose ids do not exceed the counter and whose counter leaves room,
    returns the id after the counter; the product is then read back
    under that id with the fields given, it comes last in the listing,
    and every other id reads as before. *)
Theorem create_product_round_trip
    (name description : string) (price : float) (image_url : string)
    (d : database) :
  Forall (λ p, Product.id p ≤ products_seq d)%Z (products d) →
  (0 ≤ products_seq d)%Z → (products_seq d + 1 < 2 ^ 63)%Z →
  is_nan price = false →
  ∃ x, (price =? x)%float = true
       ∧ let id := (products_seq d + 1)%Z in
         let p := Product.mk id name description x image_url in
         let d' := with_products (products d ++ [p]) id d in
         create_product name description price image_url d = (Ok id, d')
         ∧ get_product id d' = Ok (Some p)
         ∧ get_products d' = get_products d ++ [p]
         ∧ ∀ j, j ≠ id → get_product j d' = get_product j d.
Proof.
  intros Hids Hseq Hroom Hnan.
  destruct (real_not_null_ok _ Hnan) as (x & Hx & Heq).
  exists x. split; [done|]. simpl. split_and!.
  - rewrite create_product_eq. unfold insert_product.
    rewrite Hx. simpl. by rewrite next_rowid_ok.
  - unfold get_product. rewrite integer_ok by (unfold int64; lia). simpl.
    unfold select_product. simpl. rewrite find_app_last; [done| |].
    + eapply Forall_impl; [exact Hids|]. intros p Hp. simpl in Hp.
      apply bool_decide_eq_false_2. lia.
    + by apply bool_decide_eq_true_2.
  - done.
  - intros j Hj. apply get_product_ext. unfold select_product. simpl.
    apply find_app_miss. simpl. by apply bool_decide_eq_false_2.
Qed.

(** X10. [update_product] on the id of a stored product, with a price
    that is a number, rewrites the four fields of that product and
    nothing else: the product reads back with the new fields under the
    same id, every other id reads as before, and the ids of the listing,
    the counter, the orders and the item rows are as they were. *)
Theorem update_product_round_trip
    (i : Z) (name description : string) (price : float) (image_url : string)
    (d : database) (p0 : Product.row) :
  get_product i d = Ok (Some p0) → is_nan price = false →
  ∃ x d', (price =? x)%float = true
    ∧ update_product i name description price image_url d = (Ok (), d')
    ∧ get_product i d' = Ok (Some (Product.mk i name description x image_url))
    ∧ (∀ j, j ≠ i → get_product j d' = get_product j d)
    ∧ Product.id <$> get_products d' = Product.id <$> get_products d
    ∧ products_seq d' = products_seq d
    ∧ orders d' = orders d ∧ order_items d' = order_items d.
Proof.
  intros [Hrange Hsel]%get_product_inv Hnan.
  destruct (real_not_null_ok _ Hnan) as (x & Hx & Heq).
  eexists x, _. split; [done|]. split.
  { rewrite update_product_eq, integer_ok by done. by rewrite Hsel, Hx. }
  set (f := λ p, if bool_decide (Product.id p = i)
                 then Product.mk i name description x image_url else p).
  assert (Hkeep : ∀ j p, bool_decide (Product.id (f p) = j)
                         = bool_decide (Product.id p = j)).
  { intros j p. unfold f. destruct (decide (Product.id p = i)) as [Hp|Hp].
    - rewrite (bool_decide_eq_true_2 (Product.id p = i)) by done. simpl.
      by rewrite Hp.
    - by rewrite (bool_decide_eq_false_2 (Product.id p = i)). }
  split_and!; try done.
  - unfold get_product. rewrite integer_ok by done. simpl.
    unfold select_product in *. simpl. rewrite (find_map_keep _ f) by apply Hkeep.
    rewrite Hsel. simpl. unfold f.
    apply find_some in Hsel as [_ Hid]. by rewrite Hid.
  - intros j Hj. apply get_product_ext. unfold select_product. simpl.
    rewrite (find_map_keep _ f) by apply Hkeep.
    destruct (find _ (products d)) as [p|] eqn:Hfind; [|done]. simpl.
    apply find_some in Hfind as [_ Hid%bool_decide_eq_true].
    unfold f. rewrite bool_decide_eq_false_2; [done|]. congruence.
  - unfold get_products. simpl. apply fmap_map_keep.
    intros p. unfold f. case_bool_decide as Hp; [|done]. simpl. by rewrite Hp.
Qed.

(** X11. [delete_product] on an id within 64 bits removes the product
    of that id and nothing else: the id then reads as absent, every
    other id reads as before, the counter stays, and the orders and item
    rows stay as they are, those that name the product included;
    deleting once more changes nothing, and GET /admin/products with
    this delete_id does the same and redirects to the listing. *)
Theorem delete_product_round_trip (i : Z) (d : database) :
  int64 i →
  ∃ d', delete_product i d = (Ok (), d')
    ∧ get_product i d' = Ok None
    ∧ (∀ j, j ≠ i → get_product j d' = get_product j d)
    ∧ products_seq d' = products_seq d
    ∧ orders d' = orders d ∧ order_items d' = order_items d
    ∧ delete_product i d' = (Ok (), d')
    ∧ (i ≠ 0%Z →
       ∀ edit_id, admin_products edit_id (Some i) d
                  = (RedirectResponse "/admin/products" 303, d')).
Proof.
  intros Hrange. eexists. split.
  { rewrite delete_product_eq, integer_ok by done. done. }
  split_and!; try done.
  - unfold get_product. rewrite integer_ok by done. simpl.
    unfold select_product. simpl. rewrite find_filter_none; [done|].
    intros p Hp%bool_decide_eq_true. auto.
  - intros j Hj. apply get_product_ext. unfold select_product. simpl.
    apply find_filter. intros p Hp%bool_decide_eq_true. congruence.
  - rewrite delete_product_eq, integer_ok by done. simpl.
    unfold with_products. simpl. do 2 f_equal.
    apply filter_all. apply Forall_forall.
    by intros p [Hp _]%list_elem_of_filter.
  - intros Hnz edit_id. unfold admin_products.
    assert (int_truthy (Some i) = true) as -> by by destruct i.
    simpl. by rewrite delete_product_eq, integer_ok.
Qed.

(** X12. GET /admin/save-product with an id that no product has does
    not add the product: whatever the fields, the file stays as it is
    and the answer is the redirect to the listing; [update_product]
    itself raises nothing for such an id when it fits 64 bits.  The id
    0 is read as no id. *)
Theorem admin_save_product_unknown_id
    (i : Z) (name description : option string) (price : option float)
    (image_url : option string) (d : database) :
  i ≠ 0%Z → (∀ p, p ∈ get_products d → Product.id p ≠ i) →
  admin_save_product (Some i) name description price image_url d
    = (RedirectResponse "/admin/products" 303, d)
  ∧ (int64 i →
     ∀ n de x u, update_product i n de x u d = (Ok (), d))
  ∧ admin_save_product (Some 0%Z) name description price image_url d
    = admin_save_product None name description price image_url d.
Proof.
  intros Hnz Hnone.
  assert (Hsel : select_product d i = None).
  { apply select_product_None. intros (p & -> & Hp)%list_elem_of_fmap.
    by apply (Hnone p). }
  split_and!.
  - unfold admin_save_product. destruct (negb _); [done|].
    assert (int_truthy (Some i) = true) as -> by by destruct i.
    simpl. rewrite update_product_eq.
    destruct (Sqlite.integer i) as [j|e] eqn:Hi; [|done]. simpl.
    apply integer_inv in Hi as [-> _]. by rewrite Hsel.
  - intros Hrange n de x u.
    rewrite update_product_eq, integer_ok by done. by rewrite Hsel.
  - done.
Qed.

(** *** Orders written and read back *)

Section order_lookups.
Context `{Config} `{Library}.

Lemma reachable_step e d : reachable d → reachable (step e d).
Proof.
  intros [es ->]. exists (es ++ [e]). unfold run. by rewrite foldl_snoc.
Qed.

Lemma form_data_set_status s o : form_data (Order.set_status s o) = form_data o.
Proof. done. Qed.

(** The answer to POST /api/initiate-payment goes by the order found. *)
Lemma api_initiate_payment_eq (i : Z) d :
  api_initiate_payment (Some i) d =
    if bool_decide (i = 0%Z) then (HTTPException 400 "Missing orderId", d)
    else match get_order_by_id i d with
         | Raise _ => (ServerError, d)
         | Ok None => (HTTPException 404 "Order not found", d)
         | Ok (Some order) =>
             (JSONResponse
                (PyDict (list_to_map [ ("formData", PyDict (form_data order));
                                       ("gatewayUrl", PyStr ESEWA_FORM_URL) ])), d)
         end.
Proof. by destruct i. Qed.

(** The first loop raises a ValueError for a missing product only. *)
Lemma subtotal_value_error d cart amount msg :
  subtotal d cart amount = Raise (ValueError msg) →
  ∃ item, item ∈ cart
          ∧ select_price d (item !! "productId") = Ok None
          ∧ msg = "Product " +:+ str_of_pid (item !! "productId") +:+ " not found".
Proof.
  revert amount. induction cart as [|item cart IH]; intros amount; simpl; [done|].
  destruct (select_price d _) as [[price|]|e] eqn:Hprice; simpl.
  - destruct (Float.mul_int _ _) as [p|e] eqn:Hp; simpl.
    + intros (it & Hit & Hrest)%IH. exists it. split; [by right|done].
    + unfold Float.mul_int, Float.of_int in Hp.
      destruct (_ <? _)%Z; simpl in Hp; congruence.
  - intros [= <-]. exists item. split; [by left|done].
  - unfold select_price in Hprice.
    destruct (item !! "productId") as [pid|]; [|done].
    unfold Sqlite.integer in Hprice. case_bool_decide; simpl in Hprice; congruence.
Qed.

Lemma real_not_null_raises x e : Sqlite.real_not_null x = Raise e → e = IntegrityError.
Proof.
  unfold Sqlite.real_not_null. destruct (is_nan x); [congruence|].
  by destruct (is_zero x).
Qed.

Lemma integer_raises z e : Sqlite.integer z = Raise e → e = OverflowError.
Proof. unfold Sqlite.integer. case_bool_decide; congruence. Qed.

Lemma next_rowid_raises seq e : Sqlite.next_rowid seq = Raise e → e = OperationalError.
Proof. unfold Sqlite.next_rowid. case_bool_decide; congruence. Qed.

Lemma insert_order_raises transaction_uuid customer_name customer_email
    customer_phone customer_address amount tax_amount service_charge
    delivery_charge total_amount status now d e msg :
  insert_order transaction_uuid customer_name customer_email customer_phone
    customer_address amount tax_amount service_charge delivery_charge total_amount
    status now d = Raise e →
  e ≠ ValueError msg.
Proof.
  unfold insert_order.
  destruct (Sqlite.real_not_null amount) as [a|e0] eqn:Ha; simpl;
    [|apply real_not_null_raises in Ha; congruence].
  destruct (Sqlite.real_not_null tax_amount) as [t|e0] eqn:Ht; simpl;
    [|apply real_not_null_raises in Ht; congruence].
  destruct (Sqlite.real_not_null service_charge) as [s|e0] eqn:Hs; simpl;
    [|apply real_not_null_raises in Hs; congruence].
  destruct (Sqlite.real_not_null delivery_charge) as [c|e0] eqn:Hc; simpl;
    [|apply real_not_null_raises in Hc; congruence].
  destruct (Sqlite.real_not_null total_amount) as [T|e0] eqn:HT; simpl;
    [|apply real_not_null_raises in HT; congruence].
  destruct (existsb _ _); [congruence|].
  destruct (Sqlite.next_rowid _) as [id|e0] eqn:Hid; simpl; [done|].
  apply next_rowid_raises in Hid. congruence.
Qed.

Lemma insert_order_item_raises order_id pid qty price d e msg :
  insert_order_item order_id pid qty price d = Raise e → e ≠ ValueError msg.
Proof.
  unfold insert_order_item.
  destruct (Sqlite.integer order_id) as [oid|e0] eqn:Ho; simpl;
    [|apply integer_raises in Ho; congruence].
  destruct pid as [pid|]; simpl.
  - destruct (Sqlite.integer pid) as [i|e0] eqn:Hi; simpl;
      [|apply integer_raises in Hi; congruence].
    destruct (Sqlite.integer qty) as [q|e0] eqn:Hq; simpl;
      [|apply integer_raises in Hq; congruence].
    destruct (Sqlite.real_not_null price) as [x|e0] eqn:Hx; simpl;
      [|apply real_not_null_raises in Hx; congruence].
    destruct (Sqlite.next_rowid _) as [id|e0] eqn:Hid; simpl; [done|].
    apply next_rowid_raises in Hid. congruence.
  - destruct (Sqlite.integer qty) as [q|e0] eqn:Hq; simpl; [congruence|].
    apply integer_raises in Hq. congruence.
Qed.

Lemma insert_items_raises order_id cart d e msg :
  insert_items order_id cart d = Raise e → e ≠ ValueError msg.
Proof.
  revert d. induction cart as [|item cart IH]; intros d; simpl; [done|].
  destruct (select_price d _) as [[price|]|e0] eqn:Hprice; simpl.
  - destruct (insert_order_item _ _ _ _ d) as [d1|e0] eqn:Hitem; simpl.
    + apply IH.
    + intros [= <-]. by eapply insert_order_item_raises.
  - congruence.
  - unfold select_price in Hprice.
    destruct (item !! "productId") as [pid|]; [|done].
    destruct (Sqlite.integer pid) as [i|e1] eqn:Hi; simpl in Hprice; [done|].
    apply integer_raises in Hi. congruence.
Qed.

(** A ValueError out of [create_order] is the one of the first loop. *)
Lemma create_order_value_error customer_name customer_email customer_phone
    customer_address cart tax_amount service_charge delivery_charge uuid4 now
    d msg d' :
  create_order customer_name customer_email customer_phone customer_address cart
      tax_amount service_charge delivery_charge uuid4 now d
    = (Raise (ValueError msg), d') →
  ∃ item, item ∈ cart
          ∧ select_price d (item !! "productId") = Ok None
          ∧ msg = "Product " +:+ str_of_pid (item !! "productId") +:+ " not found".
Proof.
  rewrite create_order_eq.
  destruct (subtotal d cart 0%float) as [amount|e0] eqn:Hsub.
  - destruct (insert_order _ _ _ _ _ _ _ _ _ _ _ _ d) as [[order_id d1]|e0] eqn:Hord.
    + destruct (insert_items order_id cart d1) as [d2|e0] eqn:Hitems.
      * by destruct (select_order d2 order_id).
      * intros [= -> _]. by destruct (insert_items_raises _ _ _ _ msg Hitems).
    + intros [= -> _]. by eapply insert_order_raises in Hord.
  - intros [= -> _]. by apply subtotal_value_error in Hsub.
Qed.

End order_lookups.

(** X13. The orderId that POST /api/order answers leads to the order:
    in the state left, the order is read under that id and under the
    transaction id drawn for it, it is INITIATED and carries the
    customer fields of the request, and POST /api/initiate-payment with
    that id answers the payment form of that order. *)
Theorem order_then_payment `{Config} `{Library}
    (data : order_request) (uuid4 now : string) (d d' : database) (i : Z) :
  reachable d →
  api_create_order data uuid4 now d
    = (JSONResponse (PyDict {[ "orderId" := PyInt i ]}), d') →
  ∃ o, get_order_by_id i d' = Ok (Some o)
       ∧ get_order_by_uuid (PyStr uuid4) d' = Ok (Some o)
       ∧ Order.id o = i
       ∧ Order.transaction_uuid o = uuid4
       ∧ Order.status o = "INITIATED"
       ∧ Order.customer_name o = customerName data
       ∧ Order.customer_email o = customerEmail data
       ∧ Order.customer_phone o = customerPhone data
       ∧ Order.customer_address o = customerAddress data
       ∧ Order.created_at o = now
       ∧ api_initiate_payment (Some i) d'
         = (JSONResponse
              (PyDict (list_to_map [ ("formData", PyDict (form_data o));
                                     ("gatewayUrl", PyStr ESEWA_FORM_URL) ])), d').
Proof.
  intros Hreach Hresp.
  pose proof (reachable_step (Request (ApiCreateOrder data uuid4 now)) d Hreach)
    as Hreach'.
  unfold step, handle in Hreach'. rewrite Hresp in Hreach'. simpl in Hreach'.
  pose proof (reachable_ledger_ok _ Hreach') as (Hseq' & Hnd & Hnu & Hids).
  pose proof (reachable_consistent _ Hreach) as Hcons.
  unfold api_create_order in Hresp.
  destruct (create_order _ _ _ _ _ _ _ _ _ _ d) as [[o|e] d1] eqn:Hcreate;
    [|by destruct e].
  pose proof (f_equal snd Hresp) as Hd. simpl in Hd. subst d1.
  apply (f_equal (λ r, match r.1 with
                       | JSONResponse (PyDict m) => m !! "orderId"
                       | _ => None
                       end)) in Hresp.
  simpl in Hresp. rewrite !lookup_singleton in Hresp. injection Hresp as Hid.
  pose proof (create_order_returns _ _ _ _ _ _ _ _ _ _ _ _ _ Hcons Hcreate)
    as (Horders & _ & Huuid & Hstatus).
  assert (Ho : o ∈ orders d').
  { rewrite Horders. apply elem_of_app. right. by apply list_elem_of_singleton. }
  rewrite Forall_forall in Hids. specialize (Hids o Ho). simpl in Hids.
  assert (Hsel : select_order d' i = Some o).
  { unfold select_order. rewrite <- Hid. by apply find_unique. }
  assert (Hfields :
    Order.customer_name o = customerName data
    ∧ Order.customer_email o = customerEmail data
    ∧ Order.customer_phone o = customerPhone data
    ∧ Order.customer_address o = customerAddress data
    ∧ Order.created_at o = now).
  { apply create_order_rows in Hcreate as (a & t & s & c & T & rows & Hrows).
    simpl in Hrows.
    destruct Hrows as (_ & _ & _ & _ & _ & _ & _ & _ & _ & -> & _).
    simpl in Horders. apply app_inj_tail in Horders as [_ <-]. done. }
  destruct Hfields as (? & ? & ? & ? & ?).
  exists o. split_and!; try done.
  - unfold get_order_by_id. rewrite integer_ok by (unfold int64; lia).
    simpl. by rewrite Hsel.
  - unfold get_order_by_uuid. simpl. rewrite <- Huuid.
    by rewrite find_unique_uuid.
  - apply api_initiate_payment_found; [lia|unfold int64; lia|done].
Qed.

(** X14. [update_order_status] under a transaction id raises nothing
    and writes the status of the order of that id and nothing else: the
    order found under the id before is found under it after with the
    status that was written and every other column as before; when no
    order has the id, none has it after and the file is as it was; the
    orders of other transaction ids read as before, and the products,
    the item rows and the counters stay; GET /admin/orders/confirm does
    this with COMPLETED and redirects. *)
Theorem update_order_status_round_trip `{Config} `{Library}
    (u status : string) (d : database) :
  ∃ r d',
    get_order_by_uuid (PyStr u) d = Ok r
    ∧ update_order_status (PyStr u) status d = (Ok (), d')
    ∧ match r with
      | Some o =>
          ∃ o', get_order_by_uuid (PyStr u) d' = Ok (Some o')
                ∧ Order.status o' = status
                ∧ same_but_status o o'
      | None => get_order_by_uuid (PyStr u) d' = Ok None ∧ d' = d
      end
    ∧ (∀ u', u' ≠ u →
         get_order_by_uuid (PyStr u') d' = get_order_by_uuid (PyStr u') d)
    ∧ length (orders d') = length (orders d)
    ∧ orders_seq d' = orders_seq d
    ∧ products d' = products d ∧ products_seq d' = products_seq d
    ∧ order_items d' = order_items d
    ∧ order_items_seq d' = order_items_seq d
    ∧ admin_confirm_order u d
      = (RedirectResponse "/admin/orders" 303,
         (update_order_status (PyStr u) "COMPLETED" d).2).
Proof.
  exists (find (uuid_matches (Sqlite.Text u)) (orders d)). eexists.
  split; [reflexivity|].
  rewrite update_order_status_eq. simpl. split; [reflexivity|].
  set (g := λ o, if bool_decide (Order.transaction_uuid o = u)
                 then Order.set_status status o else o).
  assert (Hkeep : ∀ u' o, uuid_matches (Sqlite.Text u') (g o)
                          = uuid_matches (Sqlite.Text u') o).
  { intros u' o. unfold g. by case_bool_decide. }
  split_and!; try done.
  - unfold get_order_by_uuid. simpl.
    rewrite (find_map_keep _ g) by apply Hkeep.
    destruct (find _ (orders d)) as [o|] eqn:Hfind; simpl.
    + apply find_some in Hfind as [_ Hm]. simpl in Hm.
      exists (Order.set_status status o). unfold g. rewrite Hm.
      split; [done|]. split; [done|apply set_status_same].
    + split; [done|].
      assert (Hsame : map g (orders d) = orders d);
        [|rewrite Hsame; apply with_orders_same].
      apply (update_no_match (Sqlite.Text u) status).
      apply Forall_forall. intros o Ho%list_elem_of_In.
      by apply (find_none _ _ Hfind).
  - intros u' Hu'. unfold get_order_by_uuid. simpl. f_equal.
    rewrite (find_map_keep _ g) by apply Hkeep.
    destruct (find _ (orders d)) as [o|] eqn:Hfind; [|done]. simpl.
    apply find_some in Hfind as [_ Hm%bool_decide_eq_true]. simpl.
    unfold g. rewrite bool_decide_eq_false_2; [done|]. congruence.
  - simpl. by rewrite length_map.
Qed.

(** X15. What POST /api/initiate-payment answers for a stored order
    does not change with anything that happens later: after any event
    the order is still read under its id, with the same amounts and
    transaction id, and the answer for that id is the same. *)
Theorem payment_form_stable `{Config} `{Library}
    (e : event) (d : database) (i : Z) (o : Order.row) :
  get_order_by_id i d = Ok (Some o) →
  ∃ o', get_order_by_id i (step e d) = Ok (Some o')
    ∧ (o' = o ∨ o' = Order.set_status "COMPLETED" o)
    ∧ form_data o' = form_data o
    ∧ (api_initiate_payment (Some i) (step e d)).1
      = (api_initiate_payment (Some i) d).1.
Proof.
  intros Hget. pose proof Hget as [Hrange Hsel]%get_order_by_id_inv.
  assert (Hfound : ∃ o', select_order (step e d) i = Some o'
                         ∧ (o' = o ∨ o' = Order.set_status "COMPLETED" o)).
  { pose proof (step_orders e d) as [Hold _].
    unfold select_order in *.
    destruct (step_shape e d) as [(f & s & Heq)|(data & uuid4 & now & o1 & _ & Hc)].
    - rewrite Heq. simpl.
      rewrite (find_map_keep _ (λ o, if f o then Order.set_status s o else o)).
      + rewrite Hsel. simpl. eexists. split; [done|].
        apply find_some in Hsel as [Hin _]. apply list_elem_of_In in Hin.
        apply list_elem_of_lookup in Hin as [k Hk].
        destruct (Hold k o Hk) as (o' & Hk' & Hcase).
        rewrite Heq in Hk'. simpl in Hk'.
        rewrite list_lookup_fmap, Hk in Hk'. simpl in Hk'.
        injection Hk' as <-. destruct Hcase as [?|(_ & Hst & Hsame)]; [by left|].
        right. by apply same_but_status_eq.
      + intros x. by destruct (f x).
    - apply create_order_rows in Hc as (a & t & s & c & T & rows & Hrows).
      simpl in Hrows.
      destruct Hrows as (_ & _ & _ & _ & _ & _ & _ & _ & _ & -> & _). simpl.
      exists o. split; [by apply find_app_l|by left]. }
  destruct Hfound as (o' & Hsel' & Hcase). exists o'.
  assert (Hform : form_data o' = form_data o).
  { destruct Hcase as [->| ->]; [done|apply form_data_set_status]. }
  split_and!; try done.
  - unfold get_order_by_id. rewrite integer_ok by done. simpl. by rewrite Hsel'.
  - rewrite !api_initiate_payment_eq. case_bool_decide; [done|].
    rewrite Hget. unfold get_order_by_id. rewrite integer_ok by done. simpl.
    by rewrite Hsel', Hform.
Qed.

(** The first loop ends only when every entry names a product. *)
Lemma subtotal_known d cart amount s :
  subtotal d cart amount = Ok s → Forall (known d) cart.
Proof.
  revert amount. induction cart as [|item cart IH]; intros amount; simpl;
    [constructor|].
  destruct (select_price d _) as [[price|]|e] eqn:Hprice; try done. simpl.
  destruct (Float.mul_int _ _) as [p|e]; [|done]. simpl. intros Hs.
  constructor; [|by eapply IH].
  unfold select_price in Hprice.
  destruct (item !! "productId") as [pid|] eqn:Hpid; [|done].
  destruct (Sqlite.integer pid) as [i|e] eqn:Hi; [|done]. simpl in Hprice.
  apply integer_inv in Hi as [-> _].
  destruct (select_product d pid) as [q|] eqn:Hsel; [|done]. by exists pid, q.
Qed.

(** X16. POST /api/order, on a body that decodes to the fields the
    handler reads, answers an orderId or an error.  With the orderId,
    which is the id after the orders counter, the file has gained the
    order row of that id, INITIATED, with the transaction id drawn, the
    customer fields of the body and the time of creation, and one item
    row for each cart entry, in cart order, with that order id, the
    product id of the entry, its quantity (1 when it gives none) and the
    price the product has, under ids not used before; nothing else has
    changed.  With an error, which is a 400 or a 500, the file is as
    before. *)
Theorem api_create_order_outcomes
    (data : order_request) (uuid4 now : string) (d : database) :
  consistent d →
  (∃ o rows,
     api_create_order data uuid4 now d
       = (JSONResponse (PyDict {[ "orderId" := PyInt (Order.id o) ]}),
          Database (products d) (products_seq d)
            (orders d ++ [o]) (Order.id o)
            (order_items d ++ rows)
            (order_items_seq d + Z.of_nat (length (cart data))))
     ∧ Order.id o = (orders_seq d + 1)%Z
     ∧ Order.transaction_uuid o = uuid4
     ∧ Order.status o = "INITIATED"
     ∧ Order.customer_name o = customerName data
     ∧ Order.customer_email o = customerEmail data
     ∧ Order.customer_phone o = customerPhone data
     ∧ Order.customer_address o = customerAddress data
     ∧ Order.created_at o = now
     ∧ Forall2 (λ item row,
                  OrderItem.order_id row = Order.id o
                  ∧ item !! "productId" = Some (OrderItem.product_id row)
                  ∧ OrderItem.quantity row = default 1%Z (item !! "quantity")
                  ∧ ∃ p, select_product d (OrderItem.product_id row) = Some p
                         ∧ (Product.price p =? OrderItem.price row)%float = true)
         (cart data) rows
     ∧ NoDup (OrderItem.id <$> rows)
     ∧ Forall (λ row, order_items_seq d < OrderItem.id row)%Z rows)
  ∨ (∃ code detail,
       api_create_order data uuid4 now d = (HTTPException code detail, d)
       ∧ (code = 400%Z ∨ code = 500%Z)).
Proof.
  intros Hcons. unfold api_create_order.
  destruct (create_order _ _ _ _ _ _ _ _ _ _ d) as [[o|e] d'] eqn:Hcreate.
  - left.
    pose proof (create_order_returns _ _ _ _ _ _ _ _ _ _ _ _ _ Hcons Hcreate)
      as (Horders & Hid & Huuid & Hstatus).
    pose proof Hcreate as (amount & oid & d1 & Hsub%subtotal_known & _)%create_order_ok_inv.
    apply create_order_rows in Hcreate as (a & t & s & c & T & rows & Hrows).
    simpl in Hrows.
    destruct Hrows as (_ & _ & _ & _ & _ & _ & Hrows & Hnodup & Hids & -> & _).
    simpl in Horders. apply app_inj_tail in Horders as [_ Ho].
    exists o, rows. rewrite Hid. rewrite <- Ho. simpl.
    split_and!; try done.
    + apply Forall2_same_length_lookup_2; [by eapply Forall2_length|].
      intros k item row Hitem Hrow.
      destruct (Forall2_lookup_lr _ _ _ _ _ _ Hrows Hitem Hrow)
        as (Hoid & Hpid & Hq & _ & Hprice).
      destruct (Forall_lookup_1 _ _ _ _ Hsub Hitem) as (pid & p & Hpid' & Hsel).
      rewrite Hpid in Hpid'. injection Hpid' as <-.
      split_and!; try done. exists p. split; [done|].
      apply real_not_null_inv in Hprice.
      unfold unit_price in Hprice. rewrite Hpid in Hprice. simpl in Hprice.
      by rewrite Hsel in Hprice.
    + eapply Forall_impl; [exact Hids|]. intros row Hrow. simpl in Hrow. lia.
  - pose proof (create_order_atomic _ _ _ _ _ _ _ _ _ _ _ _ _ Hcreate) as ->.
    destruct e as [msg| | | | | | |];
      try (by right; exists 500%Z, "Server error"; split; [|right]).
    right. exists 400%Z, msg. split; [done|by left].
Qed.

(** ** The statements on the sample data

    Each statement above that has a premise is instantiated on the sample
    data, under the default configuration and the reference library, with
    the premises evaluated.  The counterexamples to the claims that had
    to be amended follow, and the code run on the order with the infinite
    total. *)

Section sample.
#[local] Existing Instance default_config.
#[local] Existing Instance Reference.library.

(** The paid callback decodes to its payload and is verified as C1
    states: the answer is the success page, and the sample order, which
    was INITIATED, is COMPLETED in the file the callback leaves, its
    other columns as before. *)
Lemma esewa_callback_verified_sample :
  Example.paid !! "data" = Some Example.paid_data
  ∧ decoded Example.paid_data = Ok (PyDict Example.paid_payload)
  ∧ Order.status <$> orders Example.ordered = ["INITIATED"]
  ∧ ∃ d' o',
      esewa_callback Example.paid Example.ordered = (success_page, d')
      ∧ orders d' !! 0%nat = Some o'
      ∧ Order.transaction_uuid o' = Example.uuid
      ∧ Order.status o' = "COMPLETED"
      ∧ same_but_status Example.order o'.
Proof.
  assert (Hdata : Example.paid !! "data" = Some Example.paid_data)
    by reflexivity.
  assert (Hdec : decoded Example.paid_data = Ok (PyDict Example.paid_payload))
    by (vm_compute; reflexivity).
  assert (Hok : (esewa_callback Example.paid Example.ordered).1 = success_page)
    by (vm_compute; reflexivity).
  assert (Hk : Sqlite.bind_param (get Example.paid_payload "transaction_uuid")
               = Ok (Sqlite.Text Example.uuid))
    by (vm_compute; reflexivity).
  split; [exact Hdata|]. split; [exact Hdec|].
  split; [vm_compute; reflexivity|].
  destruct (esewa_callback_verified Example.paid Example.ordered Example.paid_data
              (PyDict Example.paid_payload) Hdata Hdec)
    as [Hfail|(payload & key & d' & Hp & _ & _ & Hkey & Hresp & _ & _ & Hrows & _)].
  - rewrite Hfail in Hok. discriminate Hok.
  - assert (Example.paid_payload = payload) as <- by congruence.
    rewrite Hk in Hkey. injection Hkey as <-.
    destruct (Hrows 0%nat Example.order) as (o' & Hi & Hsame & Hst);
      [vm_compute; reflexivity|].
    exists d', o'. split; [exact Hresp|]. split; [exact Hi|].
    split; [exact (proj1 (proj2 Hsame))|]. split; [|exact Hsame].
    rewrite Hst. vm_compute. reflexivity.
Defined.

(** The four refusals: no data, data that is not JSON once decoded, the
    altered signature, the status PENDING. *)
Lemma esewa_callback_rejected_sample :
  esewa_callback ∅ Example.ordered = (failure_page, Example.ordered)
  ∧ esewa_callback {[ "data" := "%%%" ]} Example.ordered
    = (failure_page, Example.ordered)
  ∧ esewa_callback Example.tampered Example.ordered = (failure_page, Example.ordered)
  ∧ esewa_callback Example.pending Example.ordered = (failure_page, Example.ordered).
Proof.
  split_and!.
  - apply (esewa_callback_rejected ∅ Example.ordered).
    apply missing_data. reflexivity.
  - apply (esewa_callback_rejected {[ "data" := "%%%" ]} Example.ordered).
    apply (undecodable _ "%%%" DecodeError); vm_compute; reflexivity.
  - apply (esewa_callback_rejected Example.tampered Example.ordered).
    apply (tampered _ Example.tampered_data Example.tampered_payload).
    + reflexivity.
    + vm_compute; reflexivity.
    + vm_compute. discriminate.
  - apply (esewa_callback_rejected Example.pending Example.ordered).
    apply (not_complete _ Example.pending_data Example.pending_payload).
    + reflexivity.
    + vm_compute; reflexivity.
    + vm_compute. discriminate.
Defined.

(** The callback for a transaction id that no order has. *)
Lemma esewa_callback_unknown_order_sample :
  esewa_callback Example.stray Example.ordered = (success_page, Example.ordered).
Proof.
  apply (esewa_callback_unknown_order Example.stray Example.ordered
           Example.stray_data Example.stray_payload (Sqlite.Text Example.stray_uuid)).
  - vm_compute. discriminate.
  - reflexivity.
  - discriminate.
  - vm_compute; reflexivity.
  - vm_compute; reflexivity.
  - vm_compute; reflexivity.
  - vm_compute; reflexivity.
  - apply Forall_singleton. vm_compute; reflexivity.
Defined.

(** The payment request of the sample order: its total is finite and
    its signature is the one Python computes. *)
Lemma payment_request_signature_sample :
  select_order Example.ordered 1 = Some Example.order
  ∧ is_finite (Order.total_amount Example.order) = true
  ∧ Float.format_2f (Order.total_amount Example.order) = "129.98"
  ∧ two_decimals "129.98"
  ∧ ∃ fields,
      api_initiate_payment (Some 1%Z) Example.ordered =
        (JSONResponse
           (PyDict (list_to_map [ ("formData", PyDict fields);
                                  ("gatewayUrl", PyStr ESEWA_FORM_URL) ])),
         Example.ordered)
      ∧ fields !! "signature" =
          Some (PyStr "tN6aGznw5I5HbL+FiZDfcp5E53VvCkN8Xv+n2IswDog=").
Proof.
  assert (Hsel : select_order Example.ordered 1 = Some Example.order)
    by (vm_compute; reflexivity).
  assert (Hfin : is_finite (Order.total_amount Example.order) = true)
    by (vm_compute; reflexivity).
  assert (Hfmt : Float.format_2f (Order.total_amount Example.order) = "129.98")
    by (vm_compute; reflexivity).
  destruct (payment_request_signature Example.ordered 1 Example.order)
    as (fields & Hresp & Hsig & _ & Hshape);
    [discriminate|unfold int64; lia|exact Hsel|].
  split; [exact Hsel|]. split; [exact Hfin|]. split; [exact Hfmt|]. split.
  - rewrite <- Hfmt. exact (Hshape Hfin).
  - exists fields. split; [exact Hresp|]. rewrite Hsig. vm_compute. reflexivity.
Defined.

(** The sample order is found unchanged after a later order. *)
Lemma payment_request_deterministic_sample :
  select_order Example.ordered 1 = Some Example.order
  ∧ select_order Example.later 1 = Some Example.order
  ∧ (api_initiate_payment (Some 1%Z) Example.ordered).2 = Example.ordered
  ∧ (api_initiate_payment (Some 1%Z) Example.later).2 = Example.later
  ∧ (api_initiate_payment (Some 1%Z) Example.ordered).1
    = (api_initiate_payment (Some 1%Z) Example.later).1.
Proof.
  assert (Hsel : select_order Example.ordered 1 = Some Example.order)
    by (vm_compute; reflexivity).
  assert (Hsel' : select_order Example.later 1 = Some Example.order)
    by (vm_compute; reflexivity).
  destruct (payment_request_deterministic 1 Example.ordered Example.later
              Example.order Example.order Hsel Hsel' eq_refl eq_refl)
    as (Hread & Hread' & _ & Hsame).
  split; [exact Hsel|]. split; [exact Hsel'|]. split; [exact Hread|].
  split; [exact Hread'|]. exact (Hsame eq_refl).
Defined.

(** The state after the sample order is placed and paid: the order is
    COMPLETED, and stays so whatever comes next.  Before it was paid, the
    callback with the altered signature left it as it was. *)
Lemma order_status_lifecycle_sample :
  reachable (run Example.events (init_db empty_database))
  ∧ Order.status <$> orders (run Example.events (init_db empty_database))
    = ["COMPLETED"]
  ∧ Forall status_ok (orders (run Example.events (init_db empty_database)))
  ∧ (∀ e, ∃ o',
      orders (step e (run Example.events (init_db empty_database))) !! 0%nat = Some o'
      ∧ Order.id o' = 1%Z ∧ Order.status o' = "COMPLETED")
  ∧ reachable Example.ordered
  ∧ orders Example.ordered !! 0%nat = Some Example.order
  ∧ orders (step (Request (EsewaCallback Example.tampered)) Example.ordered) !! 0%nat
    = Some Example.order.
Proof.
  assert (Hreach : reachable (run Example.events (init_db empty_database)))
    by (by exists Example.events).
  assert (Hreach' : reachable Example.ordered).
  { exists [Request (ApiCreateOrder Example.request Example.uuid
                       "2024-05-01 10:00:00")].
    vm_compute. reflexivity. }
  assert (Hfirst : orders Example.ordered !! 0%nat = Some Example.order)
    by (vm_compute; reflexivity).
  assert (Hdec : decoded Example.tampered_data = Ok (PyDict Example.tampered_payload))
    by (vm_compute; reflexivity).
  destruct (order_status_lifecycle _ Hreach) as (Hok & _ & Hstays).
  destruct (order_status_lifecycle _ Hreach') as (_ & Hstep & _).
  split; [exact Hreach|]. split; [vm_compute; reflexivity|]. split; [exact Hok|].
  split; [|split; [exact Hreach'|split; [exact Hfirst|]]].
  - intros e.
    destruct (Hstays e 0%nat (Order.set_status "COMPLETED" Example.order))
      as (o' & Hi & Hid & Hst); [vm_compute; reflexivity|reflexivity|].
    exists o'. split; [exact Hi|]. split; [exact Hid|exact Hst].
  - destruct (Hstep (Request (EsewaCallback Example.tampered))) as [Hold _].
    destruct (Hold 0%nat Example.order Hfirst)
      as (o' & Hi & [->|[(data & payload & key & Hdata & Hdec' & Hsig & _) _]]);
      [exact Hi|].
    assert (Example.tampered_data = data) as <-
      by (vm_compute in Hdata; injection Hdata as Hdata; exact Hdata).
    rewrite Hdec in Hdec'.
    assert (Example.tampered_payload = payload) as <- by congruence.
    vm_compute in Hsig. discriminate Hsig.
Defined.

(** C5. The code on an order whose tax amount is infinite (the JSON
    number 1e999): POST /api/order checks no amount and stores the order
    with an infinite total, and the payment request built for it signs
    total_amount=inf, a total without decimal places, where the source
    means to format it with two. *)
Lemma payment_request_signature_infinite_total :
  reachable (run Example.unbounded_events (init_db empty_database))
  ∧ ∃ order fields,
      select_order (run Example.unbounded_events (init_db empty_database)) 1
        = Some order
      ∧ (api_initiate_payment (Some 1%Z)
           (run Example.unbounded_events (init_db empty_database))).1
        = JSONResponse
            (PyDict (list_to_map [ ("formData", PyDict fields);
                                   ("gatewayUrl", PyStr ESEWA_FORM_URL) ]))
      ∧ Float.format_2f (Order.total_amount order) = "inf"
      ∧ fields !! "total_amount" = Some (PyStr "inf")
      ∧ fields !! "signature" =
          Some (PyStr (b64encode (hmac_sha256 ESEWA_SECRET_KEY
            ("total_amount=inf,transaction_uuid=" +:+ Example.uuid
               +:+ ",product_code=EPAYTEST"))))
      ∧ ¬ two_decimals "inf".
Proof.
  split; [by exists Example.unbounded_events|].
  eexists _, _. split; [by vm_compute|].
  split; [by vm_compute|]. split; [by vm_compute|].
  split; [by vm_compute|]. split; [by vm_compute|].
  apply inf_not_two_decimals.
Qed.

(** C10, counterexample. The callback [Example.bignum] carries the
    computed signature and the status COMPLETE, and no stored order has
    its transaction id; SQLite cannot bind that id as a parameter, the
    update raises inside the [try], and the answer is the failure page. *)
Lemma esewa_callback_unknown_order_unbound :
  Example.bignum !! "status" = None
  ∧ decoded Example.bignum_data = Ok (PyDict Example.bignum_payload)
  ∧ get Example.bignum_payload "signature"
    = PyStr (computed_sig Example.bignum_payload)
  ∧ get Example.bignum_payload "status" = PyStr "COMPLETE"
  ∧ get Example.bignum_payload "transaction_uuid" = PyInt (2 ^ 70)
  ∧ Forall (λ o, Order.transaction_uuid o ≠ str_of_int (2 ^ 70))
      (orders Example.ordered)
  ∧ Sqlite.bind_param (PyInt (2 ^ 70)) = Raise OverflowError
  ∧ esewa_callback Example.bignum Example.ordered
    = (failure_page, Example.ordered).
Proof.
  split_and!; try (vm_compute; reflexivity).
  apply Forall_singleton. vm_compute. discriminate.
Qed.

End sample.

(** An entry for product 1 without a quantity: the order is created and
    its item row has quantity 1. *)
Lemma create_order_default_quantity_sample :
  create_order "Asha Rai" "asha@example.com" "9800000000" "Kathmandu"
      [ {[ "productId" := 1%Z ]} ] 5 2 3 Example.uuid "2024-05-01 10:00:00"
      Example.seeded
  = create_order "Asha Rai" "asha@example.com" "9800000000" "Kathmandu"
      [ {[ "productId" := 1%Z; "quantity" := 1%Z ]} ]
      5 2 3 Example.uuid "2024-05-01 10:00:00" Example.seeded
  ∧ ∃ o d' rows,
      create_order "Asha Rai" "asha@example.com" "9800000000" "Kathmandu"
        [ {[ "productId" := 1%Z ]} ] 5 2 3 Example.uuid "2024-05-01 10:00:00"
        Example.seeded = (Ok o, d')
      ∧ Order.amount o = 59.99%float
      ∧ order_items d' = order_items Example.seeded ++ rows
      ∧ OrderItem.quantity <$> rows !! 0%nat = Some 1%Z.
Proof.
  destruct (create_order_default_quantity "Asha Rai" "asha@example.com" "9800000000"
              "Kathmandu" [ {[ "productId" := 1%Z ]} ] 5 2 3 Example.uuid
              "2024-05-01 10:00:00" Example.seeded 0 {[ "productId" := 1%Z ]})
    as [Hsame Hrow]; [reflexivity|reflexivity|].
  split; [rewrite Hsame; vm_compute; reflexivity|].
  assert (Hcreate : ∃ o d',
    create_order "Asha Rai" "asha@example.com" "9800000000" "Kathmandu"
      [ {[ "productId" := 1%Z ]} ] 5 2 3 Example.uuid "2024-05-01 10:00:00"
      Example.seeded = (Ok o, d') ∧ Order.amount o = 59.99%float).
  { eexists _, _. split; vm_compute; reflexivity. }
  destruct Hcreate as (o & d' & Hcreate & Hamount).
  destruct (Hrow o d' Hcreate) as (rows & Hrows & Hqty).
  exists o, d', rows. split; [exact Hcreate|]. split; [exact Hamount|].
  split; [exact Hrows|exact Hqty].
Defined.



Lemma seeded_creatable :
  creatable Example.seeded Example.two_aviators 5 2 3 Example.uuid.
Proof.
  split.
  - apply Forall_singleton. exists 1%Z. eexists. split; reflexivity.
  - apply Forall_singleton. split.
    + intros pid Hpid. vm_compute in Hpid. injection Hpid as <-. unfold int64. lia.
    + unfold int64. vm_compute (quantity_of _). lia.
  - repeat (apply Forall_cons_2; [reflexivity|]). apply Forall_nil_2.
  - vm_compute; reflexivity.
  - reflexivity.
  - reflexivity.
  - reflexivity.
  - vm_compute; reflexivity.
  - apply Forall_nil_2.
  - vm_compute (orders_seq _). lia.
  - vm_compute (order_items_seq _). vm_compute (Z.of_nat _). lia.
Defined.

(** The sample cart on the seeded catalogue: the order is created, and
    stored with the subtotal and the total of the specification's
    example. *)
Lemma create_order_total_sample :
  consistent Example.seeded
  ∧ creatable Example.seeded Example.two_aviators 5 2 3 Example.uuid
  ∧ ∃ o d',
      create_order "Asha Rai" "asha@example.com" "9800000000" "Kathmandu"
        Example.two_aviators 5 2 3 Example.uuid "2024-05-01 10:00:00" Example.seeded
        = (Ok o, d')
      ∧ o ∈ orders d'
      ∧ Order.status o = "INITIATED"
      ∧ (rounded_total Example.seeded Example.two_aviators 5 2 3
           =? Order.total_amount o)%float = true
      ∧ Order.amount o = 119.98%float
      ∧ Order.total_amount o = 129.98%float.
Proof.
  assert (Hcons : consistent Example.seeded) by (split; [done|constructor]).
  split; [exact Hcons|]. split; [exact seeded_creatable|].
  destruct (create_order_total "Asha Rai" "asha@example.com" "9800000000" "Kathmandu"
              Example.two_aviators 5 2 3 Example.uuid "2024-05-01 10:00:00"
              Example.seeded Hcons) as (Hstored & Hcreated & _).
  destruct (Hcreated seeded_creatable) as (o & d' & Hcreate).
  destruct (Hstored o d' Hcreate) as (Hin & Hstatus & _ & Htotal).
  exists o, d'. split; [exact Hcreate|]. split; [exact Hin|].
  split; [exact Hstatus|]. split; [exact Htotal|].
  vm_compute in Hcreate. injection Hcreate as <- _. split; reflexivity.
Defined.

(** C3, counterexample. Every product of the cart [Example.many_aviators]
    exists, and with a tax of 0.125 the order is stored with total 3059.61,
    whereas rounding the unrounded sum once gives 3059.62. *)
Lemma create_order_total_single_rounding_fails :
  Forall (known Example.seeded) Example.many_aviators
  ∧ ∃ o d',
      create_order "Asha Rai" "asha@example.com" "9800000000" "Kathmandu"
        Example.many_aviators 0.125 0 0 Example.uuid "2024-05-01 10:00:00"
        Example.seeded = (Ok o, d')
      ∧ Order.total_amount o = 3059.61%float
      ∧ claimed_total Example.seeded Example.many_aviators 0.125 0 0 = 3059.62%float
      ∧ (Order.total_amount o
           =? claimed_total Example.seeded Example.many_aviators 0.125 0 0)%float
        = false.
Proof.
  split.
  - apply Forall_singleton. exists 1%Z. eexists. split; reflexivity.
  - eexists _, _. split; [by vm_compute|]. split_and!; by vm_compute.
Qed.

(** ** The further statements on the sample data *)

Section scenario.
#[local] Existing Instance default_config.
#[local] Existing Instance Reference.library.

Lemma seeded_reachable : reachable Example.seeded.
Proof. by exists []. Qed.

Lemma ordered_reachable : reachable Example.ordered.
Proof.
  exists [Request (ApiCreateOrder Example.request Example.uuid Scenario.now)].
  vm_compute. reflexivity.
Qed.

(** A restart after the four products were deleted. *)
Lemma init_db_seeds_fresh_ids_sample :
  Product.id <$> products (init_db Scenario.emptied) = [5; 6; 7; 8]%Z
  ∧ product_fields <$> products (init_db Scenario.emptied) = seed_products.
Proof.
  destruct (init_db_seeds_fresh_ids Scenario.emptied) as (Hids & Hfields & _).
  - vm_compute. reflexivity.
  - vm_compute. reflexivity.
  - split; [exact Hids|exact Hfields].
Defined.

(** The first product of the seeded catalogue. *)
Lemma reachable_products_well_formed_sample :
  get_product 1 Example.seeded = Ok (Some Scenario.aviator)
  ∧ (0 < 1)%Z
  ∧ is_nan (Product.price Scenario.aviator) = false
  ∧ is_zero (Product.price Scenario.aviator) = false
  ∧ Product.name Scenario.aviator ≠ ""
  ∧ Product.description Scenario.aviator ≠ ""
  ∧ Product.image_url Scenario.aviator ≠ "".
Proof.
  apply (reachable_products_well_formed Example.seeded Scenario.aviator).
  - exact seeded_reachable.
  - apply (list_elem_of_lookup_2 _ 0%nat). vm_compute. reflexivity.
Defined.

(** The sample order in the file it was written to. *)
Lemma reachable_orders_unique_sample :
  get_order_by_id 1 Example.ordered = Ok (Some Example.order)
  ∧ get_order_by_uuid (PyStr Example.uuid) Example.ordered = Ok (Some Example.order)
  ∧ (0 < 1)%Z.
Proof.
  apply (reachable_orders_unique Example.ordered Example.order).
  - exact ordered_reachable.
  - apply (list_elem_of_lookup_2 _ 0%nat). vm_compute. reflexivity.
Defined.

Lemma reachable_orders_balanced_sample : Forall balanced (orders Example.ordered).
Proof. apply (reachable_orders_balanced Example.ordered), ordered_reachable. Defined.


(** The item row of the sample order. *)
Lemma reachable_items_belong_sample :
  (∃ o, o ∈ orders Example.ordered ∧ Order.id o = 1%Z
        ∧ get_order_by_id 1 Example.ordered = Ok (Some o))
  ∧ (∀ it', it' ∈ order_items Example.ordered →
       OrderItem.id it' = 1%Z → it' = Scenario.item)
  ∧ (0 < 1)%Z
  ∧ is_nan 59.99 = false.
Proof.
  apply (reachable_items_belong Example.ordered Scenario.item).
  - exact ordered_reachable.
  - apply (list_elem_of_lookup_2 _ 0%nat). vm_compute. reflexivity.
Defined.

(** Product 1 is deleted; later the other three are, and the server
    restarts and seeds the catalogue anew. *)
Lemma product_ids_never_reused_sample :
  get_product 1
    (run ([Scenario.delete 1]
            ++ [Scenario.delete 2; Scenario.delete 3; Scenario.delete 4; Restart])
       Example.seeded)
  = Ok None.
Proof.
  apply (product_ids_never_reused Example.seeded Scenario.aviator
           [Scenario.delete 1]
           [Scenario.delete 2; Scenario.delete 3; Scenario.delete 4; Restart]).
  - exact seeded_reachable.
  - apply (list_elem_of_lookup_2 _ 0%nat). vm_compute. reflexivity.
  - vm_compute. reflexivity.
Defined.

(** The order placed on the seeded catalogue, then paid for. *)
Lemma order_then_payment_sample :
  ∃ o, get_order_by_id 1 Example.ordered = Ok (Some o)
       ∧ get_order_by_uuid (PyStr Example.uuid) Example.ordered = Ok (Some o)
       ∧ Order.id o = 1%Z
       ∧ Order.transaction_uuid o = Example.uuid
       ∧ Order.status o = "INITIATED"
       ∧ Order.customer_name o = "Asha Rai"
       ∧ Order.customer_email o = "asha@example.com"
       ∧ Order.customer_phone o = "9800000000"
       ∧ Order.customer_address o = "Kathmandu"
       ∧ Order.created_at o = Scenario.now
       ∧ api_initiate_payment (Some 1%Z) Example.ordered
         = (JSONResponse
              (PyDict (list_to_map [ ("formData", PyDict (form_data o));
                                     ("gatewayUrl", PyStr ESEWA_FORM_URL) ])),
            Example.ordered).
Proof.
  apply (order_then_payment Example.request Example.uuid Scenario.now
           Example.seeded Example.ordered 1).
  - exact seeded_reachable.
  - vm_compute. reflexivity.
Defined.

(** The sample order across the callback that pays for it. *)
Lemma payment_form_stable_sample :
  ∃ o', get_order_by_id 1 (step (Request (EsewaCallback Example.paid)) Example.ordered)
        = Ok (Some o')
    ∧ (o' = Example.order ∨ o' = Order.set_status "COMPLETED" Example.order)
    ∧ form_data o' = form_data Example.order
    ∧ (api_initiate_payment (Some 1%Z)
         (step (Request (EsewaCallback Example.paid)) Example.ordered)).1
      = (api_initiate_payment (Some 1%Z) Example.ordered).1.
Proof.
  apply (payment_form_stable (Request (EsewaCallback Example.paid))
           Example.ordered 1 Example.order).
  vm_compute. reflexivity.
Defined.

(** The sample order marked COMPLETED under its transaction id. *)
Lemma update_order_status_round_trip_sample :
  get_order_by_uuid (PyStr Example.uuid) Example.ordered = Ok (Some Example.order)
  ∧ Order.status Example.order = "INITIATED"
  ∧ ∃ d' o',
      update_order_status (PyStr Example.uuid) "COMPLETED" Example.ordered
        = (Ok (), d')
      ∧ get_order_by_uuid (PyStr Example.uuid) d' = Ok (Some o')
      ∧ Order.status o' = "COMPLETED"
      ∧ same_but_status Example.order o'.
Proof.
  assert (Hget : get_order_by_uuid (PyStr Example.uuid) Example.ordered
                 = Ok (Some Example.order))
    by (vm_compute; reflexivity).
  split; [exact Hget|]. split; [reflexivity|].
  destruct (update_order_status_round_trip Example.uuid "COMPLETED" Example.ordered)
    as (r & d' & Hr & Hupd & Hcase & _).
  rewrite Hget in Hr. injection Hr as <-.
  destruct Hcase as (o' & Hread & Hst & Hsame).
  exists d', o'. split; [exact Hupd|]. split; [exact Hread|].
  split; [exact Hst|exact Hsame].
Defined.

End scenario.

(** A fifth product added to the seeded catalogue. *)
Lemma create_product_round_trip_sample :
  ∃ x, (79.5 =? x)%float = true
       ∧ let p := Product.mk 5 "Clubmaster" "Browline frames." x
                    "/static/images/club.png" in
         let d' := with_products (products Example.seeded ++ [p]) 5 Example.seeded in
         create_product "Clubmaster" "Browline frames." 79.5
           "/static/images/club.png" Example.seeded = (Ok 5%Z, d')
         ∧ get_product 5 d' = Ok (Some p)
         ∧ get_products d' = get_products Example.seeded ++ [p]
         ∧ ∀ j, j ≠ 5%Z → get_product j d' = get_product j Example.seeded.
Proof.
  apply (create_product_round_trip "Clubmaster" "Browline frames." 79.5
           "/static/images/club.png" Example.seeded).
  - vm_compute. repeat (apply Forall_cons_2; [discriminate|]). apply Forall_nil_2.
  - vm_compute. discriminate.
  - vm_compute. reflexivity.
  - reflexivity.
Defined.

(** Product 1 renamed and repriced. *)
Lemma update_product_round_trip_sample :
  ∃ x d', (64.99 =? x)%float = true
    ∧ update_product 1 "Aviator II" "Lighter frames." 64.99
        "/static/images/aviator2.png" Example.seeded = (Ok (), d')
    ∧ get_product 1 d'
      = Ok (Some (Product.mk 1 "Aviator II" "Lighter frames." x
                    "/static/images/aviator2.png"))
    ∧ (∀ j, j ≠ 1%Z → get_product j d' = get_product j Example.seeded)
    ∧ Product.id <$> get_products d' = Product.id <$> get_products Example.seeded
    ∧ products_seq d' = products_seq Example.seeded
    ∧ orders d' = orders Example.seeded
    ∧ order_items d' = order_items Example.seeded.
Proof.
  apply (update_product_round_trip 1 "Aviator II" "Lighter frames." 64.99
           "/static/images/aviator2.png" Example.seeded Scenario.aviator).
  - vm_compute. reflexivity.
  - reflexivity.
Defined.

(** Product 1 deleted while an order holds two of it. *)
Lemma delete_product_round_trip_sample :
  ∃ d', delete_product 1 Example.ordered = (Ok (), d')
    ∧ get_product 1 d' = Ok None
    ∧ (∀ j, j ≠ 1%Z → get_product j d' = get_product j Example.ordered)
    ∧ products_seq d' = products_seq Example.ordered
    ∧ orders d' = orders Example.ordered
    ∧ order_items d' = order_items Example.ordered
    ∧ delete_product 1 d' = (Ok (), d')
    ∧ (1%Z ≠ 0%Z →
       ∀ edit_id, admin_products edit_id (Some 1%Z) Example.ordered
                  = (RedirectResponse "/admin/products" 303, d')).
Proof.
  apply (delete_product_round_trip 1 Example.ordered).
  unfold int64. lia.
Defined.

(** The admin form submitted with id 77, which no product has. *)
Lemma admin_save_product_unknown_id_sample :
  admin_save_product (Some 77%Z) (Some "Ghost") (Some "Not in the catalogue.")
      (Some 10%float) (Some "/static/images/ghost.png") Example.seeded
    = (RedirectResponse "/admin/products" 303, Example.seeded)
  ∧ (int64 77 →
     ∀ n de x u, update_product 77 n de x u Example.seeded = (Ok (), Example.seeded))
  ∧ admin_save_product (Some 0%Z) (Some "Ghost") (Some "Not in the catalogue.")
      (Some 10%float) (Some "/static/images/ghost.png") Example.seeded
    = admin_save_product None (Some "Ghost") (Some "Not in the catalogue.")
        (Some 10%float) (Some "/static/images/ghost.png") Example.seeded.
Proof.
  apply (admin_save_product_unknown_id 77 (Some "Ghost")
           (Some "Not in the catalogue.") (Some 10%float)
           (Some "/static/images/ghost.png") Example.seeded).
  - discriminate.
  - apply Forall_forall. vm_compute.
    repeat (apply Forall_cons_2; [discriminate|]). apply Forall_nil_2.
Defined.

(** The sample request on the seeded catalogue. *)
Lemma api_create_order_outcomes_sample :
  api_create_order Example.request Example.uuid Scenario.now Example.seeded
    = (JSONResponse (PyDict {[ "orderId" := PyInt 1 ]}), Example.ordered)
  ∧ orders Example.ordered = orders Example.seeded ++ [Example.order]
  ∧ order_items Example.ordered = order_items Example.seeded ++ [Scenario.item]
  ∧ ((∃ o rows,
        api_create_order Example.request Example.uuid Scenario.now Example.seeded
          = (JSONResponse (PyDict {[ "orderId" := PyInt (Order.id o) ]}),
             Database (products Example.seeded) (products_seq Example.seeded)
               (orders Example.seeded ++ [o]) (Order.id o)
               (order_items Example.seeded ++ rows)
               (order_items_seq Example.seeded
                + Z.of_nat (length (cart Example.request))))
        ∧ Order.id o = (orders_seq Example.seeded + 1)%Z
        ∧ Order.transaction_uuid o = Example.uuid
        ∧ Order.status o = "INITIATED"
        ∧ Order.customer_name o = customerName Example.request
        ∧ Order.customer_email o = customerEmail Example.request
        ∧ Order.customer_phone o = customerPhone Example.request
        ∧ Order.customer_address o = customerAddress Example.request
        ∧ Order.created_at o = Scenario.now
        ∧ Forall2 (λ item row,
                     OrderItem.order_id row = Order.id o
                     ∧ item !! "productId" = Some (OrderItem.product_id row)
                     ∧ OrderItem.quantity row = default 1%Z (item !! "quantity")
                     ∧ ∃ p, select_product Example.seeded (OrderItem.product_id row)
                            = Some p
                            ∧ (Product.price p =? OrderItem.price row)%float = true)
            (cart Example.request) rows
        ∧ NoDup (OrderItem.id <$> rows)
        ∧ Forall (λ row, order_items_seq Example.seeded < OrderItem.id row)%Z rows)
     ∨ (∃ code detail,
          api_create_order Example.request Example.uuid Scenario.now Example.seeded
            = (HTTPException code detail, Example.seeded)
          ∧ (code = 400%Z ∨ code = 500%Z))).
Proof.
  split; [vm_compute; reflexivity|]. split; [vm_compute; reflexivity|].
  split; [vm_compute; reflexivity|].
  apply (api_create_order_outcomes Example.request Example.uuid Scenario.now
           Example.seeded).
  split; [done|constructor].
Defined.
